(** * HCFPS: task executor, format detector, transforms and DLQ reprocessor

    A shallow embedding of the processing core of the repository:
    - [docker/app.py]                 ([process_task])
    - [docker/processor/*.py]         ([detect_format], [compress_file],
                                       [process_pattern], [update_status], ...)
    - [terraform/lambda_function.py]  ([lambda_handler] and its helpers)

    Python values are modelled by what the code does with them: strings
    are [string], dictionaries read from JSON are association lists,
    [os.environ] is a [gmap], exceptions are an explicit [Raise] result
    and every call that leaves the process (object store, queue, status
    store, notification topic) is recorded as an event of a trace. *)

From Stdlib Require Import ZArith Ascii String List Bool Lia.
From stdpp Require Import base option gmap strings.

Set Warnings "-register-all".
Local Open Scope string_scope.
Local Open Scope Z_scope.

(** ** Python strings *)

Module PyStr.

(** [c in s] for a single character. *)
Fixpoint has_char (c : ascii) (s : string) : bool :=
  match s with
  | EmptyString => false
  | String a s' => Ascii.eqb a c || has_char c s'
  end.

(** [s.startswith(p)]. *)
Definition startswith (s p : string) : bool := String.prefix p s.

(** [p in s]: [p] occurs at some position of [s]. *)
Fixpoint contains (p s : string) : bool :=
  String.prefix p s ||
  match s with
  | EmptyString => false
  | String _ s' => contains p s'
  end.

(** [s.endswith(p)]: some suffix of [s] is [p]. *)
Fixpoint endswith (s p : string) : bool :=
  String.eqb s p ||
  match s with
  | EmptyString => false
  | String _ s' => endswith s' p
  end.

(** [s.lower()] on ASCII letters (other characters are left alone). *)
Definition lower_ascii (c : ascii) : ascii :=
  let n := nat_of_ascii c in
  if (Nat.leb 65 n && Nat.leb n 90)%bool then ascii_of_nat (n + 32) else c.

Fixpoint lower (s : string) : string :=
  match s with
  | EmptyString => EmptyString
  | String c s' => String (lower_ascii c) (lower s')
  end.

(** [s.replace(old, new)] for a non-empty [old]: occurrences are replaced
    left to right and do not overlap. [skip] counts the characters of a
    match that are still to be dropped. *)
Fixpoint replace_from (old new : string) (skip : nat) (s : string) : string :=
  match s with
  | EmptyString => EmptyString
  | String c s' =>
      match skip with
      | S k => replace_from old new k s'
      | O =>
          if String.prefix old s
          then new ++ replace_from old new (String.length old - 1) s'
          else String c (replace_from old new 0 s')
      end
  end.

(** With an empty [old] Python inserts [new] before every character and
    at the end. *)
Fixpoint intersperse (new s : string) : string :=
  match s with
  | EmptyString => new
  | String c s' => new ++ String c (intersperse new s')
  end.

Definition replace (old new s : string) : string :=
  match old with
  | EmptyString => intersperse new s
  | _ => replace_from old new 0 s
  end.

(** [s.split(sep)[0]] for a one-character separator. *)
Fixpoint before_first (sep : ascii) (s : string) : string :=
  match s with
  | EmptyString => EmptyString
  | String c s' => if Ascii.eqb c sep then EmptyString else String c (before_first sep s')
  end.

(** [s.rfind(c)], counted from [i]; [None] is Python's [-1]. *)
Fixpoint rfind_from (c : ascii) (i : nat) (s : string) : option nat :=
  match s with
  | EmptyString => None
  | String a s' =>
      match rfind_from c (S i) s' with
      | Some j => Some j
      | None => if Ascii.eqb a c then Some i else None
      end
  end.

Definition rfind (c : ascii) (s : string) : option nat := rfind_from c 0 s.

(** [s[i:]] and [s[:i]]. *)
Fixpoint drop (i : nat) (s : string) : string :=
  match i, s with
  | O, _ => s
  | S k, EmptyString => EmptyString
  | S k, String _ s' => drop k s'
  end.

Fixpoint take (i : nat) (s : string) : string :=
  match i, s with
  | O, _ => EmptyString
  | S k, EmptyString => EmptyString
  | S k, String c s' => String c (take k s')
  end.

(** [os.path.basename(p)]: [p[p.rfind('/') + 1:]]. *)
Definition basename (p : string) : string :=
  match rfind "/" p with
  | Some i => drop (S i) p
  | None => p
  end.

(** [s.rstrip('/')]. *)
Fixpoint rstrip_slash (s : string) : string :=
  match s with
  | EmptyString => EmptyString
  | String c s' =>
      match rstrip_slash s' with
      | EmptyString => if Ascii.eqb c "/" then EmptyString else String c EmptyString
      | r => String c r
      end
  end.

(** [os.path.join(a, b)] for two components. *)
Definition join (a b : string) : string :=
  if startswith b "/" then b
  else if (String.eqb a "" || endswith a "/")%bool then a ++ b
  else a ++ "/" ++ b.

(** Some character of [s] differs from [c]. *)
Fixpoint has_other (c : ascii) (s : string) : bool :=
  match s with
  | EmptyString => false
  | String a s' => negb (Ascii.eqb a c) || has_other c s'
  end.

(** [os.path.splitext(p)] (posixpath): the extension starts at the last
    dot of the last path component, leading dots of that component do
    not count. *)
Definition splitext (p : string) : string * string :=
  let sepIndex := match rfind "/" p with Some i => S i | None => O end in
  match rfind "." p with
  | Some dotIndex =>
      if (Nat.leb sepIndex dotIndex &&
          has_other "." (take (dotIndex - sepIndex) (drop sepIndex p)))%bool
      then (take dotIndex p, drop dotIndex p)
      else (p, EmptyString)
  | None => (p, EmptyString)
  end.

(** [os.path.dirname(p)]: the head up to the last slash, without its
    trailing slashes unless it consists of slashes only. *)
Definition dirname (p : string) : string :=
  let head := match rfind "/" p with Some i => take (S i) p | None => EmptyString end in
  if has_other "/" head then rstrip_slash head else head.




(** [if s:] for a string that may be [None]. *)
Definition nonempty (o : option string) : bool :=
  match o with
  | Some (String _ _) => true
  | _ => false
  end.

(** A file name proper: not empty, without a slash, and neither [.] nor
    [..]. In one directory two such names are the same file only when
    they are the same string. *)
Definition plain_filename (name : string) : bool :=
  (negb (String.eqb name "") && negb (has_char "/" name) &&
   negb (String.eqb name ".") && negb (String.eqb name ".."))%bool.

End PyStr.

(** ** Exceptions, state and traces

    A computation reads and updates a state [St], appends events [Ev] to
    a trace and either returns or raises. *)

Inductive exn : Type :=
| AttributeError
| TypeError
| ValueError
| KeyError
| JSONDecodeError
| OSError
| Exception (msg : string).

Inductive result (A : Type) : Type :=
| Ok (a : A)
| Raise (e : exn).
Arguments Ok {A} a.
Arguments Raise {A} e.

Section Effects.
Context {St Ev : Type}.

Definition Eff (A : Type) : Type := St -> result A * St * list Ev.

Definition ret {A} (a : A) : Eff A := fun s => (Ok a, s, []).

Definition bind {A B} (m : Eff A) (k : A -> Eff B) : Eff B :=
  fun s =>
    match m s with
    | (Ok a, s1, t1) =>
        match k a s1 with
        | (r, s2, t2) => (r, s2, (t1 ++ t2)%list)
        end
    | (Raise e, s1, t1) => (Raise e, s1, t1)
    end.

Definition raise {A} (e : exn) : Eff A := fun s => (Raise e, s, []).

Definition emit (e : Ev) : Eff unit := fun s => (Ok tt, s, [e]).

Definition get_state : Eff St := fun s => (Ok s, s, []).

Definition put_state (s' : St) : Eff unit := fun _ => (Ok tt, s', []).

(** Lift a pure partial result. *)
Definition lift {A} (r : result A) : Eff A := fun s => (r, s, []).

(** [try: m  except Exception: h]. *)
Definition try_except {A} (m : Eff A) (h : exn -> Eff A) : Eff A :=
  fun s =>
    match m s with
    | (Ok a, s1, t1) => (Ok a, s1, t1)
    | (Raise e, s1, t1) =>
        match h e s1 with
        | (r, s2, t2) => (r, s2, (t1 ++ t2)%list)
        end
    end.

(** [for x in xs: body(x)]. *)
Fixpoint for_each {A} (body : A -> Eff unit) (xs : list A) : Eff unit :=
  match xs with
  | [] => ret tt
  | x :: xs' => bind (body x) (fun _ => for_each body xs')
  end.

Definition trace_of {A} (x : result A * St * list Ev) : list Ev := snd x.
Definition result_of {A} (x : result A * St * list Ev) : result A := fst (fst x).
Definition state_of {A} (x : result A * St * list Ev) : St := snd (fst x).
End Effects.
Arguments Eff : clear implicits.

Declare Scope eff_scope.
Delimit Scope eff_scope with eff.
Notation "'do' x <- m ; k" := (bind m (fun x => k))
  (at level 10, x name, m at level 100, k at level 200) : eff_scope.
Notation "'run' m ; k" := (bind m (fun _ => k))
  (at level 10, m at level 100, k at level 200) : eff_scope.

(** ** JSON values

    What [json.loads] returns: [None], booleans, integers, strings, lists
    and dictionaries (floating-point numbers are left out). A dictionary
    keeps its insertion order, which [json.dumps] writes back. *)

Inductive json : Type :=
| JNull
| JBool (b : bool)
| JInt (n : Z)
| JStr (s : string)
| JArr (l : list json)
| JObj (kvs : list (string * json)).

Module Json.

(** Python truthiness: [if v:] / [not v]. *)
Definition truthy (v : json) : bool :=
  match v with
  | JNull => false
  | JBool b => b
  | JInt n => negb (n =? 0)
  | JStr s => negb (String.eqb s "")
  | JArr l => match l with [] => false | _ => true end
  | JObj kvs => match kvs with [] => false | _ => true end
  end.

(** [d.get(k)] on the items of a dictionary. *)
Fixpoint lookup (k : string) (kvs : list (string * json)) : option json :=
  match kvs with
  | [] => None
  | (k', v) :: rest => if String.eqb k' k then Some v else lookup k rest
  end.

(** [d[k] = v]: an existing key keeps its position, a new one goes last. *)
Fixpoint assign (k : string) (v : json) (kvs : list (string * json))
  : list (string * json) :=
  match kvs with
  | [] => [(k, v)]
  | (k', v') :: rest =>
      if String.eqb k' k then (k, v) :: rest else (k', v') :: assign k v rest
  end.

(** [v.get(k, default)]: only a dictionary has [get]. *)
Definition get (v : json) (k : string) (default : json) : result json :=
  match v with
  | JObj kvs => Ok (match lookup k kvs with Some x => x | None => default end)
  | _ => Raise AttributeError
  end.

(** [v + 1] as [+=] computes it: integers and booleans add, anything
    else is a [TypeError]. *)
Definition add_one (v : json) : result json :=
  match v with
  | JInt n => Ok (JInt (n + 1))
  | JBool b => Ok (JInt ((if b then 1 else 0) + 1))
  | _ => Raise TypeError
  end.

(** [int(s)] for a string of decimal digits; anything else raises
    [ValueError]. *)
Definition digit (c : ascii) : option Z :=
  let n := nat_of_ascii c in
  if (Nat.leb 48 n && Nat.leb n 57)%bool then Some (Z.of_nat (n - 48)) else None.

Fixpoint digits (acc : Z) (s : string) : option Z :=
  match s with
  | EmptyString => Some acc
  | String c s' =>
      match digit c with
      | Some d => digits (10 * acc + d) s'
      | None => None
      end
  end.

Definition int_of_string (s : string) : result Z :=
  match s with
  | EmptyString => Raise ValueError
  | _ => match digits 0 s with Some n => Ok n | None => Raise ValueError end
  end.

End Json.

(** ** The DLQ reprocessor ([terraform/lambda_function.py]) *)

Module Reprocessor.
Import PyStr.
Local Open Scope eff_scope.

(** The two queues named by the environment. *)
Inductive queue : Type := DLQ_URL | MAIN_QUEUE_URL.

(** One entry of [response['Messages']]. [Body] is the outcome of
    [json.loads(message['Body'])] and [Text] is [str(message)], which the
    classifier searches. *)
Record message : Type := {
  MessageId : string;
  ReceiptHandle : string;
  Body : result json;
  Attributes : list (string * string);
  Text : string
}.

(** Calls to the AWS clients, in the order in which they are made; a call
    is recorded whether or not the service then accepts it, since every
    helper logs and swallows the failure of its own call. *)
Inductive event : Type :=
| UpdateItem (task_id error_type : json) (retry_count : Z)
| SendMessage (q : queue) (body : json)
| DeleteMessage (q : queue) (receipt_handle : string)
| Publish (task_id error_type task_details : json).

Definition Act := Eff unit event.

Fixpoint attribute (k : string) (attrs : list (string * string)) : option string :=
  match attrs with
  | [] => None
  | (k', v) :: rest => if String.eqb k' k then Some v else attribute k rest
  end.

(** [int(message['Attributes'].get('ApproximateReceiveCount', 0))]. *)
Definition approximate_receive_count (message : message) : result Z :=
  match attribute "ApproximateReceiveCount" (Attributes message) with
  | Some s => Json.int_of_string s
  | None => Ok 0
  end.

(** [source_path.startswith(p)]: only a string has [startswith]. *)
Definition startswith_value (v : json) (p : string) : result bool :=
  match v with
  | JStr s => Ok (startswith s p)
  | _ => Raise AttributeError
  end.

Definition get_error_type (body : json) (message : message) : result json :=
  match body with
  | JObj kvs =>
      match Json.lookup "error_type" kvs with
      | Some error_type => Ok error_type
      | None =>
          match Json.get body "original_message" (JObj []) with
          | Raise e => Raise e
          | Ok original_body =>
              match Json.get original_body "source_path" (JStr "") with
              | Raise e => Raise e
              | Ok source_path =>
                  if contains "access denied" (lower (Text message))
                  then Ok (JStr "PERMISSION_ERROR")
                  else if contains "not found" (lower (Text message))
                  then Ok (JStr "NOT_FOUND_ERROR")
                  else
                    match startswith_value source_path "s3://" with
                    | Raise e => Raise e
                    | Ok is_s3 =>
                        if (is_s3 && contains "NoSuchKey" (Text message))%bool
                        then Ok (JStr "S3_FILE_NOT_FOUND")
                        else
                          match startswith_value source_path "gs://" with
                          | Raise e => Raise e
                          | Ok is_gs =>
                              if (is_gs && contains "does not exist" (Text message))%bool
                              then Ok (JStr "GCS_FILE_NOT_FOUND")
                              else if contains "timeout" (lower (Text message))
                              then Ok (JStr "TIMEOUT_ERROR")
                              else Ok (JStr "UNKNOWN_ERROR")
                          end
                    end
              end
          end
      end
  | _ => Raise TypeError
  end.

Definition retriable_errors : list string :=
  ["TIMEOUT_ERROR"; "TEMPORARY_FAILURE"; "CONNECTION_ERROR"; "RATE_LIMIT_ERROR"].

(** [error_type in retriable_errors]: only a string equals a string. *)
Definition is_retriable_error (error_type : json) : bool :=
  match error_type with
  | JStr s => existsb (String.eqb s) retriable_errors
  | _ => false
  end.

(** [table.update_item(...)] with status [FAILED]; a failure of the call
    is logged and swallowed. *)
Definition update_task_status (task_id error_type : json) (retry_count : Z) : Act unit :=
  emit (UpdateItem task_id error_type retry_count).

(** The update of [original_message['retries']]. *)
Definition bump_retries (original_message : json) : result json :=
  match original_message with
  | JObj kvs =>
      match Json.lookup "retries" kvs with
      | Some r =>
          match Json.add_one r with
          | Ok r' => Ok (JObj (Json.assign "retries" r' kvs))
          | Raise e => Raise e
          end
      | None => Ok (JObj (Json.assign "retries" (JInt 1) kvs))
      end
  | _ => Raise TypeError
  end.

Definition requeue_message (queue_url : queue) (original_message : json) : Act unit :=
  try_except
    (do m <- lift (bump_retries original_message);
     emit (SendMessage queue_url m))
    (fun _ => ret tt).

Definition delete_message (queue_url : queue) (receipt_handle : string) : Act unit :=
  emit (DeleteMessage queue_url receipt_handle).

Definition send_failure_notification (task_id error_type task_details : json) : Act unit :=
  emit (Publish task_id error_type task_details).

(** The [try] block of the loop body. *)
Definition try_block (message : message) : Act unit :=
  let receipt_handle := ReceiptHandle message in
  do body <- lift (Body message);
  do task_id <- lift (Json.get body "task_id" JNull);
  if negb (Json.truthy task_id)
  then delete_message DLQ_URL receipt_handle
  else
    do approximate_receive_count <- lift (approximate_receive_count message);
    do error_type <- lift (get_error_type body message);
    run update_task_status task_id error_type approximate_receive_count;
    run (if (is_retriable_error error_type && (approximate_receive_count <=? 3))%bool
         then requeue_message MAIN_QUEUE_URL body
         else send_failure_notification task_id error_type body);
    delete_message DLQ_URL receipt_handle.

(** The loop body: the [try] block, and an exception handler that only
    logs. *)
Definition loop_body (message : message) : Act unit :=
  try_except (try_block message) (fun _ => ret tt).

Inductive response : Type :=
| NoMessages
| Processed (n : nat).

(** [messages] is what [receive_message] returned. *)
Definition lambda_handler (messages : list message) : Act response :=
  match messages with
  | [] => ret NoMessages
  | _ =>
      run for_each loop_body messages;
      ret (Processed (List.length messages))
  end.

(** The calls one message causes. *)
Definition calls (message : message) : list event := trace_of (loop_body message tt).

Definition is_delete (e : event) : bool :=
  match e with DeleteMessage _ _ => true | _ => false end.

Definition is_requeue (e : event) : bool :=
  match e with SendMessage MAIN_QUEUE_URL _ => true | _ => false end.

Definition is_status_write (e : event) : bool :=
  match e with UpdateItem _ _ _ => true | _ => false end.

Definition is_notification (e : event) : bool :=
  match e with Publish _ _ _ => true | _ => false end.

(** *** Vocabulary for the properties of the reprocessor *)

(** A status write, a requeue or a notification. *)
Definition is_side_effect (e : event) : bool :=
  (is_status_write e || is_requeue e || is_notification e)%bool.

(** What the decision step does with a classified message. *)
Definition action_calls (body task_id error_type : json) (n : Z) : list event :=
  if (is_retriable_error error_type && (n <=? 3))%bool
  then trace_of (requeue_message MAIN_QUEUE_URL body tt)
  else [Publish task_id error_type body].

(** The retry rule in the words of the specification: the classified
    error type is one of the retriable ones and the receive count is at
    most 3. *)
Definition retry_eligible (error_type : json) (n : Z) : Prop :=
  (exists s, error_type = JStr s /\ In s retriable_errors) /\ n <= 3.

(** The shapes a message's trace can take. *)
Inductive shape (rh : string) : list event -> Prop :=
| shape_raised : shape rh []
| shape_dropped : shape rh [DeleteMessage DLQ_URL rh]
| shape_unsent tid et n :
    shape rh [UpdateItem tid et n; DeleteMessage DLQ_URL rh]
| shape_requeued tid et n b :
    shape rh [UpdateItem tid et n; SendMessage MAIN_QUEUE_URL b; DeleteMessage DLQ_URL rh]
| shape_notified tid et n b :
    shape rh [UpdateItem tid et n; Publish tid et b; DeleteMessage DLQ_URL rh].

(** The payload after [n] successive requeues. *)
Fixpoint bump_many (n : nat) (original_message : json) : result json :=
  match n with
  | O => Ok original_message
  | S k =>
      match bump_many k original_message with
      | Ok m => bump_retries m
      | Raise e => Raise e
      end
  end.

Definition count_calls (f : event -> bool) (t : list event) : nat :=
  List.length (List.filter f t).

End Reprocessor.

(** ** The worker's surroundings

    Everything the worker reads from outside its own code: the process
    environment, the object store, the optional reader libraries, the
    external tools, the local disk and the clock. *)

(** What a local file holds. *)
Inductive content : Type :=
| Object (uri : string)
| GzipStream (inner : content)
| ZipArchive (compresslevel : Z) (entries : list (string * content))
| Encoded (inner : content).

Record world : Type := {
  environ : gmap string string;
  (** [urlparse(u).path]; [None] when [urlparse] raises [ValueError], as
      it does for a host with an unmatched bracket *)
  urlparse_path : string -> option string;
  (** the transfer of this object from the store succeeds *)
  object_readable : string -> bool;
  (** the transfer to this object of the store succeeds *)
  object_writable : string -> bool;
  (** [from rosbags.rosbag1 import Reader], [import mcap], [import h5py] succeed *)
  has_rosbags : bool;
  has_mcap : bool;
  has_h5py : bool;
  (** the reader opens the file as a valid container *)
  bag_opens : string -> bool;
  mcap_opens : string -> bool;
  h5_opens : string -> bool;
  (** [ffprobe] runs and reports a video stream / returns stream details *)
  ffprobe_video : string -> bool;
  ffprobe_details : string -> bool;
  (** [ffmpeg] re-encodes this input *)
  ffmpeg_ok : string -> bool;
  (** [mimetypes.guess_type(p)[0]] *)
  guess_type : string -> option string;
  (** the local path can be created and written *)
  writable : string -> bool;
  (** [datetime.datetime.now().strftime(fmt)] and [str(uuid.uuid4())] *)
  strftime : string -> string;
  uuid4 : string
}.

(** The local disk: the regular files that exist, each under its path as
    written, and what they hold. Directories are not entries of the
    disk, so [os.path.isdir] is false for every path of it. *)
Abbreviation disk := (gmap string content).

(** ** Format detection ([docker/processor/format_detect.py]) *)

Module FormatDetect.
Import PyStr.

Inductive file_type : Type := Video | Image | Rosbag | Mcap | Hdf5 | Archive | Unknown.

Inductive details : Type :=
| NoDetails
| FileNotFound
| VideoDetails
| RosbagDetails
| McapDetails
| Hdf5Details.

Record format_info : Type := {
  type : file_type;
  extension : string;
  mime_type : string;
  info : details
}.

Definition path_exists (fs : disk) (p : string) : bool :=
  match fs !! p with Some _ => true | None => false end.

Definition is_rosbag (w : world) (file_path : string) : bool :=
  if endswith file_path ".bag"
  then (if has_rosbags w then true else false)
  else false.

Definition is_mcap (w : world) (file_path : string) : bool :=
  if endswith file_path ".mcap"
  then (if has_mcap w then true else false)
  else false.

Definition is_hdf5 (w : world) (file_path : string) : bool :=
  if (endswith file_path ".h5" || endswith file_path ".hdf5")%bool
  then (if has_h5py w then h5_opens w file_path else true)
  else false.

Definition member (x : string) (l : list string) : bool := existsb (String.eqb x) l.

Definition video_extensions : list string :=
  [".mp4"; ".avi"; ".mov"; ".mkv"; ".wmv"; ".flv"; ".webm"].

Definition is_video (w : world) (file_path : string) : bool :=
  let ext := snd (splitext file_path) in
  if member (lower ext) video_extensions then true
  else ffprobe_video w file_path.

Definition image_extensions : list string :=
  [".jpg"; ".jpeg"; ".png"; ".gif"; ".bmp"; ".tiff"; ".webp"].

Definition is_image (file_path : string) : bool :=
  member (lower (snd (splitext file_path))) image_extensions.

Definition archive_extensions : list string :=
  [".zip"; ".tar"; ".gz"; ".bz2"; ".7z"; ".rar"].

Definition is_archive (file_path : string) : bool :=
  member (lower (snd (splitext file_path))) archive_extensions.

Definition detect_video_details (w : world) (file_path : string) : details :=
  if ffprobe_details w file_path then VideoDetails else NoDetails.

Definition detect_rosbag_details (w : world) (file_path : string) : details :=
  if (has_rosbags w && bag_opens w file_path)%bool then RosbagDetails else NoDetails.

Definition detect_mcap_details (w : world) (file_path : string) : details :=
  if (has_mcap w && mcap_opens w file_path)%bool then McapDetails else NoDetails.

Definition detect_hdf5_details (w : world) (file_path : string) : details :=
  if (has_h5py w && h5_opens w file_path)%bool then Hdf5Details else NoDetails.

Definition or_default (o : option string) (d : string) : string :=
  match o with
  | Some (String c s) => String c s
  | _ => d
  end.

Definition detect_format (w : world) (fs : disk) (file_path : string) : format_info :=
  if negb (path_exists fs file_path)
  then {| type := Unknown; extension := ""; mime_type := ""; info := FileNotFound |}
  else
    let extension := lower (snd (splitext file_path)) in
    let mime_type := guess_type w file_path in
    if is_rosbag w file_path
    then {| type := Rosbag; extension := extension;
            mime_type := "application/octet-stream";
            info := detect_rosbag_details w file_path |}
    else if is_mcap w file_path
    then {| type := Mcap; extension := extension;
            mime_type := "application/octet-stream";
            info := detect_mcap_details w file_path |}
    else if is_hdf5 w file_path
    then {| type := Hdf5; extension := extension;
            mime_type := "application/x-hdf5";
            info := detect_hdf5_details w file_path |}
    else if is_video w file_path
    then {| type := Video; extension := extension;
            mime_type := or_default mime_type "video/unknown";
            info := detect_video_details w file_path |}
    else if is_image file_path
    then {| type := Image; extension := extension;
            mime_type := or_default mime_type "image/unknown";
            info := NoDetails |}
    else if is_archive file_path
    then {| type := Archive; extension := extension;
            mime_type := or_default mime_type "application/zip";
            info := NoDetails |}
    else {| type := Unknown; extension := extension;
            mime_type := or_default mime_type "application/octet-stream";
            info := NoDetails |}.

End FormatDetect.

(** The [params] dictionary of a task, by the options the operations
    read. *)
Record params : Type := {
  mode : option string;
  pattern : option string;
  metadata : list (string * string);
  timestamp_format : option string;
  compression_level : option Z;
  password : option string
}.

Definition no_params : params :=
  {| mode := None; pattern := None; metadata := []; timestamp_format := None;
     compression_level := None; password := None |}.

(** Events of the worker: calls to the object store and the status store,
    and the transform that was started. *)
Inductive step : Type :=
| Download (uri local : string)
| Upload (local uri : string)
| StatusWrite (task_id status : string) (error_type : option string)
| Convert (input output : string)
| Compress (input output : string)
| Rename (input output : string).

Abbreviation Job := (Eff disk step).

Module LocalDisk.
Local Open Scope eff_scope.

(** Creating or overwriting a local file. *)
Definition write_file (w : world) (path : string) (c : content) : Job unit :=
  if writable w path
  then (do fs <- get_state; put_state (<[path := c]> fs))
  else raise OSError.

Definition read_file (path : string) : Job content :=
  do fs <- get_state;
  match fs !! path with
  | Some c => ret c
  | None => raise OSError
  end.

Definition remove_file (path : string) : Job unit :=
  do fs <- get_state; put_state (delete path fs).

End LocalDisk.

(** ** Renaming ([docker/processor/rename_file.py]) *)

Module RenameFile.
Import PyStr LocalDisk.
Local Open Scope eff_scope.

(** The placeholders and what replaces them, in the order in which the
    dictionary was filled; the keys of [metadata] are distinct. *)
Definition replacements (w : world) (input_path : string)
    (metadata : list (string * string)) (timestamp_format : string)
  : list (string * string) :=
  let input_filename := basename input_path in
  let input_basename := fst (splitext input_filename) in
  let input_extension := snd (splitext input_filename) in
  let timestamp := strftime w timestamp_format in
  let unique_id := uuid4 w in
  let short_id := before_first "-" unique_id in
  List.app
   [ ("{filename}", input_filename);
     ("{basename}", input_basename);
     ("{ext}", input_extension);
     ("{timestamp}", timestamp);
     ("{date}", strftime w "%Y%m%d");
     ("{time}", strftime w "%H%M%S");
     ("{uuid}", unique_id);
     ("{uuid_short}", short_id) ]
   (map (fun kv => ("{meta." ++ fst kv ++ "}", snd kv)) metadata).

(** One step of the replacement loop. *)
Definition substitute (result : string) (pr : string * string) : string :=
  replace (fst pr) (snd pr) result.

Definition process_pattern (w : world) (pattern input_path : string)
    (metadata : list (string * string)) (timestamp_format : string) : string :=
  let input_extension := snd (splitext (basename input_path)) in
  let result :=
    fold_left substitute
      (replacements w input_path metadata timestamp_format) pattern in
  if (negb (endswith result input_extension)
      && negb (has_char "." (basename result))
      && negb (String.eqb input_extension ""))%bool
  then result ++ input_extension
  else result.

Definition rename_file (w : world) (input_path output_path : string) (p : params)
  : Job bool :=
  do fs <- get_state;
  if negb (FormatDetect.path_exists fs input_path) then ret false
  else
    let mode := default "copy" (mode p) in
    let pattern := default "" (pattern p) in
    let timestamp_format := default "%Y%m%d_%H%M%S" (timestamp_format p) in
    try_except
      (let final_output_path :=
         if negb (String.eqb pattern "")
         then join (dirname output_path)
                (process_pattern w pattern input_path (metadata p) timestamp_format)
         else output_path in
       let target_dir := dirname final_output_path in
       (* os.makedirs('') raises *)
       run (if String.eqb target_dir "" then raise OSError else ret tt);
       run (if String.eqb mode "copy"
            then
              (* shutil.copy2 refuses to copy a file onto itself *)
              if String.eqb final_output_path input_path then raise OSError
              else
                do c <- read_file input_path;
                write_file w final_output_path c
            else
              (* shutil.move renames; renaming a file to itself does nothing *)
              if String.eqb final_output_path input_path then ret tt
              else
                do c <- read_file input_path;
                run write_file w final_output_path c;
                remove_file input_path);
       do fs' <- get_state;
       if negb (FormatDetect.path_exists fs' final_output_path) then ret false
       else ret true)
      (fun _ => ret false).

(** The results of [batch_rename], a dictionary from input path to
    verdict: an existing key keeps its position. *)
Fixpoint record_result (k : string) (v : bool) (results : list (string * bool))
  : list (string * bool) :=
  match results with
  | [] => [(k, v)]
  | (k', v') :: rest =>
      if String.eqb k' k then (k, v) :: rest else (k', v') :: record_result k v rest
  end.

Fixpoint result_for (k : string) (results : list (string * bool)) : option bool :=
  match results with
  | [] => None
  | (k', v) :: rest => if String.eqb k' k then Some v else result_for k rest
  end.

(** The loop of [batch_rename], with [params['pattern']] already set. *)
Fixpoint batch_loop (w : world) (file_paths : list string) (output_dir : string)
    (p : params) (results : list (string * bool)) : Job (list (string * bool)) :=
  match file_paths with
  | [] => ret results
  | input_path :: rest =>
      do fs <- get_state;
      if negb (FormatDetect.path_exists fs input_path)
      then batch_loop w rest output_dir p (record_result input_path false results)
      else
        let filename := basename input_path in
        let output_path := join output_dir filename in
        do success <- rename_file w input_path output_path p;
        batch_loop w rest output_dir p (record_result input_path success results)
  end.

Definition batch_rename (w : world) (file_paths : list string) (output_dir pattern : string)
    (p : params) : Job (list (string * bool)) :=
  let p' := {| mode := mode p; pattern := Some pattern; metadata := metadata p;
               timestamp_format := timestamp_format p;
               compression_level := compression_level p;
               password := password p |} in
  batch_loop w file_paths output_dir p' [].

End RenameFile.

(** ** Compression ([docker/processor/compress_zip.py])

    The staged input of the worker is a regular file; the directory
    branch of the archive builder is not part of this model. *)

Module CompressZip.
Import PyStr LocalDisk.
Local Open Scope eff_scope.

(** [zipf.setpassword(password.encode('utf-8'))]: the password is kept
    for reading encrypted members; nothing is written with it. *)
Definition setpassword (pwd : string) : Job unit := ret tt.

(** The levels [zlib] accepts for a deflated entry; any other level makes
    [zipf.write] raise. *)
Definition level_accepted (compression_level : Z) : bool :=
  ((-1 <=? compression_level) && (compression_level <=? 9))%bool.

Definition compress_file (w : world) (input_path output_path : string) (p : params)
  : Job bool :=
  do fs <- get_state;
  if negb (FormatDetect.path_exists fs input_path) then ret false
  else
    let compression_level := default 6 (compression_level p) in
    let password := password p in
    try_except
      (let file_format := FormatDetect.detect_format w fs input_path in
       let ext := lower (FormatDetect.extension file_format) in
       if String.eqb ext ".bag"
       then
         do c <- read_file input_path;
         run write_file w output_path (GzipStream c);
         ret true
       else
         (* ZipFile(output_path, 'w') creates the output file; the input is
            a regular file, so the directory branch is not taken *)
         do c <- read_file input_path;
         run write_file w output_path (ZipArchive compression_level []);
         run (if nonempty password then setpassword (default "" password) else ret tt);
         (* for a level zlib rejects no entry is written and leaving the
            with block raises ValueError *)
         run (if level_accepted compression_level
              then write_file w output_path
                     (ZipArchive compression_level [(basename input_path, c)])
              else raise ValueError);
         do fs' <- get_state;
         if negb (FormatDetect.path_exists fs' output_path) then ret false
         else ret true)
      (fun _ => ret false).

(** [list_zip_contents], by the file names of the entries: a missing file
    and a file that is not a zip archive both give the empty list. *)
Definition list_zip_contents (zip_path : string) : Job (list string) :=
  do fs <- get_state;
  match fs !! zip_path with
  | Some (ZipArchive _ entries) => ret (map fst entries)
  | _ => ret []
  end.

End CompressZip.

(** ** Conversion ([docker/processor/convert_h265.py])

    The routing on the detected type; the encoder itself is a tool of the
    surroundings. *)

Module ConvertH265.
Import LocalDisk.
Local Open Scope eff_scope.

Definition convert_h265 (w : world) (input_file output_file : string)
    (file_format : FormatDetect.format_info) (p : params) : Job bool :=
  do fs <- get_state;
  if negb (FormatDetect.path_exists fs input_file) then ret false
  else
    try_except
      (match FormatDetect.type file_format with
       | FormatDetect.Video | FormatDetect.Rosbag | FormatDetect.Mcap =>
           if ffmpeg_ok w input_file
           then
             do c <- read_file input_file;
             run write_file w output_file (Encoded c);
             ret true
           else ret false
       | _ => ret false
       end)
      (fun _ => ret false).

End ConvertH265.

(** ** Object store ([docker/processor/storage_io.py]) *)

Module StorageIO.
Import PyStr LocalDisk.
Local Open Scope eff_scope.

(** [s.split('/', 1)] for a string with a slash: what stands before
    the first slash and what stands after it. *)
Fixpoint split_once (s : string) : option (string * string) :=
  match s with
  | EmptyString => None
  | String c s' =>
      if Ascii.eqb c "/" then Some (EmptyString, s')
      else
        match split_once s' with
        | Some (a, b) => Some (String c a, b)
        | None => None
        end
  end.

(** [bucket_name, key = uri[5:].split('/', 1)] of the transfer
    functions: without a slash the unpacking raises [ValueError]. *)
Definition bucket_and_key (uri : string) : result (string * string) :=
  match split_once (drop 5 uri) with
  | Some names => Ok names
  | None => Raise ValueError
  end.

(** Everything is inside the [try] block: [os.makedirs] of the directory
    of the destination (which raises for an empty directory part),
    [uri.startswith] (which raises for [None]), the cutting of the URI
    into bucket and key, and the call of the client. *)
Definition download_file (w : world) (uri : option string) (destination_path : string)
  : Job bool :=
  try_except
    (run (if String.eqb (dirname destination_path) "" then raise OSError else ret tt);
     match uri with
     | None => raise AttributeError
     | Some u =>
         if (startswith u "s3://" || startswith u "gs://")%bool
         then
           do names <- lift (bucket_and_key u);
           run emit (Download u destination_path);
           if object_readable w u
           then (run write_file w destination_path (Object u); ret true)
           else raise (Exception "transfer failed")
         else ret false
     end)
    (fun _ => ret false).

(** Here [destination_uri.startswith] is outside any [try] block;
    [upload_to_s3] and [upload_to_gcs] cut the URI and call the client
    inside their own. *)
Definition upload_file (w : world) (source_path : string) (destination_uri : option string)
  : Job bool :=
  do fs <- get_state;
  if negb (FormatDetect.path_exists fs source_path) then ret false
  else
    match destination_uri with
    | None => raise AttributeError
    | Some u =>
        if (startswith u "s3://" || startswith u "gs://")%bool
        then
          try_except
            (do names <- lift (bucket_and_key u);
             run emit (Upload source_path u);
             ret (object_writable w u))
            (fun _ => ret false)
        else ret false
    end.

End StorageIO.

(** ** Status store ([docker/processor/status_writer.py]) *)

Module StatusWriter.
Local Open Scope eff_scope.

(** An empty [task_id] is refused before anything is written; an empty
    [error_type] is not stored. *)
Definition update_status (task_id status : string) (error_type : option string)
  : Job bool :=
  if String.eqb task_id "" then ret false
  else
    run emit (StatusWrite task_id status
                (if PyStr.nonempty error_type then error_type else None));
    ret true.

(** [k in os.environ]. *)
Definition in_environ (w : world) (k : string) : bool :=
  match environ w !! k with Some _ => true | None => false end.

(** The database choice of [update_status]: [config.get('db_type')], or
    the one detected from the environment. *)
Definition update_db_type (w : world) (config_db_type : option string) : string :=
  if PyStr.nonempty config_db_type then default "" config_db_type
  else if in_environ w "AWS_REGION"
  then (if in_environ w "GOOGLE_APPLICATION_CREDENTIALS" then "both" else "dynamodb")
  else if in_environ w "GOOGLE_APPLICATION_CREDENTIALS" then "firestore"
  else "both".

(** The database choice of [get_task_status]. *)
Definition get_db_type (w : world) (config_db_type : option string) : string :=
  if PyStr.nonempty config_db_type then default "" config_db_type
  else if in_environ w "AWS_REGION" then "dynamodb"
  else if in_environ w "GOOGLE_APPLICATION_CREDENTIALS" then "firestore"
  else "dynamodb".

(** [db_type in ['dynamodb', 'both']] and [db_type in ['firestore', 'both']]. *)
Definition writes_dynamodb (db_type : string) : bool :=
  (String.eqb db_type "dynamodb" || String.eqb db_type "both")%bool.

Definition writes_firestore (db_type : string) : bool :=
  (String.eqb db_type "firestore" || String.eqb db_type "both")%bool.

(** [get_task_status] reads DynamoDB when [db_type == 'dynamodb'] and
    Firestore otherwise. *)
Definition reads_dynamodb (db_type : string) : bool := String.eqb db_type "dynamodb".

Definition reads_firestore (db_type : string) : bool := negb (String.eqb db_type "dynamodb").

(** What [update_status] returns for a non-empty task identifier, from
    the outcomes of the two database updates. *)
Definition update_status_result (db_type : string) (dynamodb_result firestore_result : bool)
  : bool :=
  let result := true in
  let result := if writes_dynamodb db_type then (result && dynamodb_result)%bool else result in
  if writes_firestore db_type then (result && firestore_result)%bool else result.

End StatusWriter.

(** ** The task executor ([docker/app.py]) *)

Module App.
Import PyStr.
Local Open Scope eff_scope.

(** The task message, by the keys [process_task] reads; [None] is an
    absent key. *)
Record task : Type := {
  task_id : option string;
  action : option string;
  source_path : option string;
  output_path : option string;
  task_params : params
}.

(** [os.environ.get(k)]. *)
Definition getenv (w : world) (k : string) : option string := environ w !! k.

(** [action == name]. *)
Definition action_is (action : option string) (name : string) : bool :=
  match action with
  | Some a => String.eqb a name
  | None => false
  end.

(** The fallback for [source_path] (lines 66-74). *)
Definition fallback_source_path (w : world) (provider task_id : string)
    (source_path : option string) : option string :=
  if negb (nonempty source_path)
  then
    if String.eqb provider "aws"
    then
      let bucket := getenv w "AWS_TEMP_BUCKET" in
      if nonempty bucket
      then Some ("s3://" ++ default "" bucket ++ "/input_" ++ task_id)
      else source_path
    else if String.eqb provider "gcp"
    then
      let bucket := getenv w "GCP_TEMP_BUCKET" in
      if nonempty bucket
      then Some ("gs://" ++ default "" bucket ++ "/input_" ++ task_id)
      else source_path
    else source_path
  else source_path.

(** The fallback for [output_path] (lines 76-102); [source_path] is the
    one the first fallback left. [urlparse] may raise. *)
Definition fallback_output_path (w : world) (provider task_id : string)
    (action source_path output_path : option string) : result (option string) :=
  if negb (nonempty output_path)
  then
    if (action_is action "convert_h265" && nonempty source_path)%bool
    then
      let source := default "" source_path in
      match urlparse_path w source with
      | None => Raise ValueError
      | Some parsed_path =>
          let name := splitext (basename parsed_path) in
          let base := fst name in
          let ext := snd name in
          let output_filename := base ++ "_h265.mp4" in
          if String.eqb provider "aws"
          then
            let bucket := getenv w "AWS_DESTINATION_BUCKET" in
            if nonempty bucket
            then Ok (Some ("s3://" ++ default "" bucket ++ "/" ++ output_filename))
            else Ok output_path
          else if String.eqb provider "gcp"
          then
            let bucket := getenv w "GCP_DESTINATION_BUCKET" in
            if nonempty bucket
            then Ok (Some ("gs://" ++ default "" bucket ++ "/" ++ output_filename))
            else Ok output_path
          else Ok (Some (replace (base ++ ext) output_filename source))
      end
    else
      if String.eqb provider "aws"
      then
        let bucket := getenv w "AWS_DESTINATION_BUCKET" in
        if nonempty bucket
        then Ok (Some ("s3://" ++ default "" bucket ++ "/output_" ++ task_id))
        else Ok output_path
      else if String.eqb provider "gcp"
      then
        let bucket := getenv w "GCP_DESTINATION_BUCKET" in
        if nonempty bucket
        then Ok (Some ("gs://" ++ default "" bucket ++ "/output_" ++ task_id))
        else Ok output_path
      else Ok output_path
  else Ok output_path.

Definition work_dir : string := "/tmp/processing".

(** The staging paths (lines 106-108). *)
Definition local_input_path (task_id : string) (source_path : option string) : string :=
  let source_ext :=
    if nonempty source_path then snd (splitext (default "" source_path)) else "" in
  join work_dir ("input_" ++ task_id ++ source_ext).

Definition local_output_path (task_id : string) : string :=
  join work_dir ("output_" ++ task_id).

Definition process_task (w : world) (task_data : task) (provider : string) : Job bool :=
  let task_id := default "unknown" (task_id task_data) in
  let action := action task_data in
  let params := task_params task_data in
  let source_path := fallback_source_path w provider task_id (source_path task_data) in
  do output_path <-
    lift (fallback_output_path w provider task_id action source_path
            (output_path task_data));
  let local_input := local_input_path task_id source_path in
  let local_output := local_output_path task_id in
  do downloaded <- StorageIO.download_file w source_path local_input;
  if negb downloaded
  then
    run StatusWriter.update_status task_id "FAILED" (Some "download_failed");
    ret false
  else
    do ok <-
      (if action_is action "convert_h265"
       then
         do fs <- get_state;
         let file_format := FormatDetect.detect_format w fs local_input in
         run emit (Convert local_input local_output);
         ConvertH265.convert_h265 w local_input local_output file_format params
       else if action_is action "compress"
       then
         run emit (Compress local_input local_output);
         do compress_success <- CompressZip.compress_file w local_input local_output params;
         if negb compress_success
         then raise (Exception "Compression failed")
         else ret true
       else if action_is action "rename"
       then
         run emit (Rename local_input local_output);
         RenameFile.rename_file w local_input local_output params
       else
         run StatusWriter.update_status task_id "FAILED" (Some "unknown_action");
         ret false);
    if negb ok
    then
      run StatusWriter.update_status task_id "FAILED" (Some "processing_failed");
      ret false
    else
      do upload_result <- StorageIO.upload_file w local_output output_path;
      if negb upload_result
      then
        run StatusWriter.update_status task_id "FAILED" (Some "upload_failed");
        ret false
      else
        run StatusWriter.update_status task_id "SUCCESS" None;
        ret true.

(** The [try] block of [handle_sns] and [handle_pubsub]: the HTTP status
    that answers the delivery. *)
Definition handle_delivery (w : world) (task_data : task) (provider : string) : Job Z :=
  try_except
    (do ok <- process_task w task_data provider;
     ret (if ok then 200 else 500))
    (fun _ => ret 500).

(** [handle_sns] runs the task for AWS, [handle_pubsub] for GCP. *)
Definition handle_sns (w : world) (task_data : task) : Job Z :=
  handle_delivery w task_data "aws".

Definition handle_pubsub (w : world) (task_data : task) : Job Z :=
  handle_delivery w task_data "gcp".

Definition is_status_write (e : step) : bool :=
  match e with StatusWrite _ _ _ => true | _ => false end.

Definition is_transform (e : step) : bool :=
  match e with Convert _ _ | Compress _ _ | Rename _ _ => true | _ => false end.

(** The status writes of a run, in order. *)
Definition status_writes (t : list step) : list step := List.filter is_status_write t.

(** *** Vocabulary for the properties of the executor *)

(** What one call of [update_status] leaves in the trace. *)
Definition status_event (task_id status : string) (error_type : option string)
  : list step :=
  if String.eqb task_id "" then []
  else [StatusWrite task_id status error_type].

Definition is_upload (e : step) : bool :=
  match e with Upload _ _ => true | _ => false end.

(** The ways a run of [process_task] can end: the result, and the calls
    of [update_status] that close the trace. *)
Inductive ending (task_id : string) : result bool -> list step -> Prop :=
| ended_success :
    ending task_id (Ok true) (status_event task_id "SUCCESS" None)
| ended_download_failed :
    ending task_id (Ok false) (status_event task_id "FAILED" (Some "download_failed"))
| ended_processing_failed :
    ending task_id (Ok false) (status_event task_id "FAILED" (Some "processing_failed"))
| ended_unknown_action :
    ending task_id (Ok false)
      (status_event task_id "FAILED" (Some "unknown_action") ++
       status_event task_id "FAILED" (Some "processing_failed"))%list
| ended_upload_failed :
    ending task_id (Ok false) (status_event task_id "FAILED" (Some "upload_failed"))
| ended_compression_raised :
    ending task_id (Raise (Exception "Compression failed")) []
| ended_upload_raised :
    ending task_id (Raise AttributeError) []
| ended_unparsable_source :
    ending task_id (Raise ValueError) [].

End App.

(** ** Concrete surroundings, tasks and messages *)

Module Examples.
Import PyStr.

(** The path of an object URI [scheme://bucket/key]: what follows the
    bucket. *)
Fixpoint from_slash (s : string) : string :=
  match s with
  | EmptyString => EmptyString
  | String c s' => if Ascii.eqb c "/" then s else from_slash s'
  end.

Definition object_path (u : string) : string :=
  if startswith u "s3://" then from_slash (drop 5 u)
  else if startswith u "gs://" then from_slash (drop 5 u)
  else u.

(** [urlparse] on an object URI: a bucket is never a bracketed address,
    and a bracket in the host makes [urlparse] raise. *)
Definition parse_path (u : string) : option string :=
  if (startswith u "s3://" || startswith u "gs://")%bool
  then
    let host := before_first "/" (drop 5 u) in
    if (has_char "[" host || has_char "]" host)%bool then None
    else Some (object_path u)
  else Some (object_path u).

(** A worker whose store, disk and tools all work, at a fixed time. *)
Definition sunny (env : gmap string string) : world :=
  {| environ := env;
     urlparse_path := parse_path;
     object_readable := fun _ => true;
     object_writable := fun _ => true;
     has_rosbags := true; has_mcap := true; has_h5py := true;
     bag_opens := fun _ => true;
     mcap_opens := fun _ => true;
     h5_opens := fun _ => true;
     ffprobe_video := fun _ => false;
     ffprobe_details := fun _ => true;
     ffmpeg_ok := fun _ => true;
     guess_type := fun _ => None;
     writable := fun _ => true;
     strftime := fun fmt =>
       if String.eqb fmt "%Y%m%d" then "20240229"
       else if String.eqb fmt "%H%M%S" then "235959"
       else "20240229_235959";
     uuid4 := "123e4567-e89b-42d3-a456-426614174000" |}.

(** The same worker when the staging output cannot be written. *)
Definition disk_full (env : gmap string string) : world :=
  {| environ := env;
     urlparse_path := parse_path;
     object_readable := fun _ => true;
     object_writable := fun _ => true;
     has_rosbags := true; has_mcap := true; has_h5py := true;
     bag_opens := fun _ => true;
     mcap_opens := fun _ => true;
     h5_opens := fun _ => true;
     ffprobe_video := fun _ => false;
     ffprobe_details := fun _ => true;
     ffmpeg_ok := fun _ => true;
     guess_type := fun _ => None;
     writable := fun p => negb (startswith p "/tmp/processing/output_");
     strftime := fun _ => "20240229";
     uuid4 := "123e4567-e89b-42d3-a456-426614174000" |}.

(** The same worker when the file named [scan.bag] is not a ROS bag. *)
Definition broken_bag (env : gmap string string) : world :=
  {| environ := env;
     urlparse_path := parse_path;
     object_readable := fun _ => true;
     object_writable := fun _ => true;
     has_rosbags := true; has_mcap := true; has_h5py := true;
     bag_opens := fun _ => false;
     mcap_opens := fun _ => true;
     h5_opens := fun _ => true;
     ffprobe_video := fun _ => false;
     ffprobe_details := fun _ => true;
     ffmpeg_ok := fun _ => true;
     guess_type := fun _ => None;
     writable := fun _ => true;
     strftime := fun _ => "20240229";
     uuid4 := "123e4567-e89b-42d3-a456-426614174000" |}.

Definition aws_env : gmap string string :=
  {[ "AWS_DESTINATION_BUCKET" := "out" ]}.

Definition compress_txt : App.task :=
  {| App.task_id := Some "t1"; App.action := Some "compress";
     App.source_path := Some "s3://in/notes.txt"; App.output_path := None;
     App.task_params := no_params |}.

Definition compress_bag : App.task :=
  {| App.task_id := Some "t8"; App.action := Some "compress";
     App.source_path := Some "s3://in/data.bag"; App.output_path := None;
     App.task_params := no_params |}.

Definition resize_task : App.task :=
  {| App.task_id := Some "t2"; App.action := Some "resize";
     App.source_path := Some "s3://in/photo.png"; App.output_path := None;
     App.task_params := no_params |}.

(** Parameters with a compression level that [zlib] does not accept. *)
Definition level_ten : params :=
  {| mode := None; pattern := None; metadata := []; timestamp_format := None;
     compression_level := Some 10; password := None |}.

(** Rename tasks with a pattern. *)
Definition rename_as_itself : App.task :=
  {| App.task_id := Some "t9"; App.action := Some "rename";
     App.source_path := Some "s3://in/a.txt"; App.output_path := None;
     App.task_params :=
       {| mode := None; pattern := Some "{filename}"; metadata := [];
          timestamp_format := None; compression_level := None; password := None |} |}.

Definition rename_as_version : App.task :=
  {| App.task_id := Some "t9"; App.action := Some "rename";
     App.source_path := Some "s3://in/a.txt"; App.output_path := None;
     App.task_params :=
       {| mode := None; pattern := Some "{basename}_v2"; metadata := [];
          timestamp_format := None; compression_level := None; password := None |} |}.

Definition bracket_task : App.task :=
  {| App.task_id := Some "t6"; App.action := Some "convert_h265";
     App.source_path := Some "s3://[in/video.mov"; App.output_path := None;
     App.task_params := no_params |}.

Definition convert_task : App.task :=
  {| App.task_id := Some "t6"; App.action := Some "convert_h265";
     App.source_path := Some "s3://in/clips/video.mov"; App.output_path := None;
     App.task_params := no_params |}.

(** DLQ messages. *)
Definition dlq_message (rh : string) (body : json) (count : string) : Reprocessor.message :=
  {| Reprocessor.MessageId := "m-" ++ rh;
     Reprocessor.ReceiptHandle := rh;
     Reprocessor.Body := Ok body;
     Reprocessor.Attributes := [("ApproximateReceiveCount", count)];
     Reprocessor.Text := "{'MessageId': 'm-" ++ rh ++ "', 'Attributes': {'ApproximateReceiveCount': '"
                          ++ count ++ "'}}" |}.

Definition timeout_body : json :=
  JObj [("task_id", JStr "task-42"); ("action", JStr "compress");
        ("error_type", JStr "TIMEOUT_ERROR")].

Definition anonymous_body : json :=
  JObj [("action", JStr "compress"); ("error_type", JStr "TIMEOUT_ERROR")].

Definition unparsable (rh : string) : Reprocessor.message :=
  {| Reprocessor.MessageId := "m-" ++ rh;
     Reprocessor.ReceiptHandle := rh;
     Reprocessor.Body := Raise JSONDecodeError;
     Reprocessor.Attributes := [("ApproximateReceiveCount", "1")];
     Reprocessor.Text := "{'MessageId': 'm-" ++ rh ++ "', 'Body': 'not json'}" |}.

(** A message without [error_type] whose text reports a timeout. *)
Definition timed_out : Reprocessor.message :=
  {| Reprocessor.MessageId := "m-rh7";
     Reprocessor.ReceiptHandle := "rh7";
     Reprocessor.Body := Ok (JObj [("task_id", JStr "task-7")]);
     Reprocessor.Attributes := [("ApproximateReceiveCount", "2")];
     Reprocessor.Text := "{'MessageId': 'm-rh7', 'Body': '{}', 'Error': 'Read Timeout'}" |}.

(** A payload whose [original_message] is a string, not an object. *)
Definition wrapped_body : json :=
  JObj [("task_id", JStr "task-9"); ("original_message", JStr "{broken")].

(** A payload whose [retries] is a string. *)
Definition text_retries_body : json :=
  JObj [("task_id", JStr "task-5"); ("error_type", JStr "TIMEOUT_ERROR");
        ("retries", JStr "2")].

End Examples.

(** * Properties *)

(** ** Python strings *)

Module PyStrFacts.
Import PyStr.
#[local] Arguments String.append !_ _ / : simpl nomatch.

Lemma append_empty_r (s : string) : s ++ "" = s.
Proof. induction s as [|c s IH]; simpl; [reflexivity|now rewrite IH]. Qed.

Lemma append_assoc (a b c : string) : (a ++ b) ++ c = a ++ (b ++ c).
Proof. induction a as [|x a IH]; simpl; [reflexivity|now rewrite IH]. Qed.

Lemma rfind_from_absent c i (s : string) :
  has_char c s = false -> rfind_from c i s = None.
Proof.
  revert i. induction s as [|a s IH]; intros i H; simpl in *; [reflexivity|].
  apply orb_false_iff in H. destruct H as [Ha Hs].
  now rewrite (IH (S i) Hs), Ha.
Qed.

Lemma rfind_from_app_absent c i (a b : string) :
  has_char c b = false -> rfind_from c i (a ++ b) = rfind_from c i a.
Proof.
  intros Hb. revert i. induction a as [|x a IH]; intros i; simpl.
  - now apply rfind_from_absent.
  - now rewrite IH.
Qed.

Lemma rfind_from_last c i (a b : string) :
  has_char c b = false ->
  rfind_from c i (a ++ String c b) = Some (i + String.length a)%nat.
Proof.
  intros Hb. revert i. induction a as [|x a IH]; intros i; simpl.
  - rewrite (rfind_from_absent c (S i) b Hb), Ascii.eqb_refl.
    f_equal. lia.
  - rewrite IH. f_equal. lia.
Qed.

Lemma rfind_from_bound c i (s : string) j :
  rfind_from c i s = Some j -> (i <= j < i + String.length s)%nat.
Proof.
  revert i. induction s as [|a s IH]; intros i; simpl; [discriminate|].
  destruct (rfind_from c (S i) s) as [k|] eqn:E.
  - intros [= <-]. apply IH in E. lia.
  - destruct (Ascii.eqb a c); [|discriminate]. intros [= <-]. lia.
Qed.

Lemma take_app_exact (a b : string) : take (String.length a) (a ++ b) = a.
Proof. induction a as [|x a IH]; simpl; [now destruct b|now rewrite IH]. Qed.

Lemma drop_app_exact (a b : string) : drop (String.length a) (a ++ b) = b.
Proof. induction a as [|x a IH]; simpl; [reflexivity|exact IH]. Qed.

Lemma drop_app_le k (a b : string) :
  (k <= String.length a)%nat -> drop k (a ++ b) = drop k a ++ b.
Proof.
  revert a. induction k as [|k IH]; intros a Hk; [reflexivity|].
  destruct a as [|x a]; simpl in *; [lia|]. apply IH. lia.
Qed.

Lemma length_drop k (s : string) :
  String.length (drop k s) = (String.length s - k)%nat.
Proof.
  revert s. induction k as [|k IH]; intros s; simpl; [lia|].
  destruct s as [|x s]; simpl; [reflexivity|apply IH].
Qed.


(** [splitext] cuts at a final [.ext] when the component before the dot
    has a character that is not a dot. *)
Lemma splitext_final_extension (a b : string) :
  has_char "." b = false ->
  has_char "/" b = false ->
  has_other "." (basename a) = true ->
  splitext (a ++ String "." b) = (a, String "." b).
Proof.
  intros Hdot Hsep Hname.
  unfold splitext, rfind.
  rewrite (rfind_from_last "." 0 a b Hdot). simpl Nat.add.
  assert (Hsl : has_char "/" (String "." b) = false) by (simpl; exact Hsep).
  rewrite (rfind_from_app_absent "/" 0 a (String "." b) Hsl).
  unfold basename, rfind in Hname.
  destruct (rfind_from "/" 0 a) as [k|] eqn:Ek.
  - apply rfind_from_bound in Ek. simpl in Ek.
    assert (Hle : (S k <= String.length a)%nat) by lia.
    apply Nat.leb_le in Hle. rewrite Hle, andb_true_l.
    rewrite (drop_app_le (S k) a (String "." b)) by lia.
    replace (String.length a - S k)%nat with (String.length (drop (S k) a))
      by (rewrite length_drop; reflexivity).
    rewrite (take_app_exact (drop (S k) a)), Hname.
    now rewrite take_app_exact, drop_app_exact.
  - change (Nat.leb 0 (String.length a)) with true. rewrite andb_true_l.
    rewrite Nat.sub_0_r. change (drop 0 (a ++ String "." b)) with (a ++ String "." b).
    rewrite take_app_exact, Hname, drop_app_exact. reflexivity.
Qed.

(** Replacing a placeholder that starts with a character the string does
    not contain changes nothing. *)
Lemma replace_absent c (x new s : string) :
  has_char c s = false -> replace (String c x) new s = s.
Proof.
  intros H. unfold replace.
  induction s as [|a s IH]; simpl in *; [reflexivity|].
  apply orb_false_iff in H. destruct H as [Ha Hs].
  destruct (ascii_dec c a) as [->|_].
  - now rewrite Ascii.eqb_refl in Ha.
  - now rewrite (IH Hs).
Qed.




Lemma rstrip_slash_nonempty (h : string) :
  has_other "/" h = true -> rstrip_slash h <> "".
Proof.
  induction h as [|c h IH]; simpl; [discriminate|].
  intros H. destruct (rstrip_slash h) eqn:E; [|discriminate].
  destruct (Ascii.eqb c "/"); simpl in H; [|discriminate].
  now apply IH in H.
Qed.

Lemma startswith_slash_absent (s : string) :
  has_char "/" s = false -> startswith s "/" = false.
Proof.
  destruct s as [|c s]; [reflexivity|]. intros H. simpl in H.
  apply orb_false_iff in H. destruct H as [Hc _].
  unfold startswith. destruct (String.prefix "/" (String c s)) eqn:E; [|reflexivity].
  apply String.prefix_correct in E. simpl in E. injection E as -> _.
  discriminate Hc.
Qed.

Lemma dirname_absolute (x : string) : dirname (String "/" x) <> "".
Proof.
  unfold dirname, rfind. simpl rfind_from.
  destruct (rfind_from "/" 1 x) as [j|];
    (match goal with
     | |- (if has_other "/" ?h then _ else _) <> _ =>
         destruct (has_other "/" h) eqn:E; [now apply rstrip_slash_nonempty|]
     end); simpl; discriminate.
Qed.

End PyStrFacts.


(** ** Traces of computations *)

Section EffectFacts.
Context {St Ev : Type}.

Lemma for_each_trace {A} (body : A -> Eff St Ev unit) (xs : list A) :
  (forall x s, result_of (body x s) = Ok tt /\ state_of (body x s) = s) ->
  forall s,
    result_of (for_each body xs s) = Ok tt /\
    state_of (for_each body xs s) = s /\
    trace_of (for_each body xs s) = flat_map (fun x => trace_of (body x s)) xs.
Proof.
  intros Hbody. induction xs as [|x xs IH]; intros s.
  - repeat split.
  - simpl. unfold bind.
    destruct (Hbody x s) as [Hr Hs].
    destruct (body x s) as [[r s1] t1] eqn:E.
    unfold result_of, state_of in Hr, Hs. simpl in Hr, Hs. subst r s1.
    destruct (IH s) as (Ir & Is & It).
    destruct (for_each body xs s) as [[r2 s2] t2].
    unfold result_of, state_of, trace_of in *. simpl in *. subst.
    repeat split.
Qed.
End EffectFacts.

(** ** The DLQ reprocessor *)

Module ReprocessorSpec.
Import Reprocessor.

Lemma requeue_message_sends q body body' :
  bump_retries body = Ok body' ->
  requeue_message q body tt = (Ok tt, tt, [SendMessage q body']).
Proof.
  intros H. unfold requeue_message, try_except, bind, lift, emit. now rewrite H.
Qed.

Lemma requeue_message_gives_up q body e :
  bump_retries body = Raise e ->
  requeue_message q body tt = (Ok tt, tt, []).
Proof.
  intros H. unfold requeue_message, try_except, bind, lift, emit. now rewrite H.
Qed.

(** A message that reaches the decision step causes a status write, the
    chosen action and the deletion, in this order. *)
Lemma try_block_decided (m : message) body tid n et :
  Body m = Ok body ->
  Json.get body "task_id" JNull = Ok tid ->
  Json.truthy tid = true ->
  approximate_receive_count m = Ok n ->
  get_error_type body m = Ok et ->
  try_block m tt =
    (Ok tt, tt,
     UpdateItem tid et n ::
       (action_calls body tid et n ++ [DeleteMessage DLQ_URL (ReceiptHandle m)])%list).
Proof.
  intros Hb Ht Htr Hn He.
  unfold try_block, bind, lift, action_calls.
  rewrite Hb, Ht, Htr. simpl. rewrite Hn, He.
  unfold update_task_status, delete_message, send_failure_notification, emit.
  destruct (is_retriable_error et && (n <=? 3))%bool.
  - destruct (bump_retries body) as [b'|e] eqn:Eb.
    + rewrite (requeue_message_sends _ _ _ Eb). reflexivity.
    + rewrite (requeue_message_gives_up _ _ _ Eb). reflexivity.
  - reflexivity.
Qed.

(** A message without a usable [task_id] is only deleted. *)
Lemma try_block_anonymous (m : message) body tid :
  Body m = Ok body ->
  Json.get body "task_id" JNull = Ok tid ->
  Json.truthy tid = false ->
  try_block m tt = (Ok tt, tt, [DeleteMessage DLQ_URL (ReceiptHandle m)]).
Proof.
  intros Hb Ht Htr.
  unfold try_block, bind, lift.
  rewrite Hb, Ht, Htr. reflexivity.
Qed.

Lemma loop_body_returns (m : message) t :
  try_block m tt = (Ok tt, tt, t) -> loop_body m tt = (Ok tt, tt, t).
Proof. intros H. unfold loop_body, try_except. now rewrite H. Qed.

Lemma calls_decided (m : message) body tid n et :
  Body m = Ok body ->
  Json.get body "task_id" JNull = Ok tid ->
  Json.truthy tid = true ->
  approximate_receive_count m = Ok n ->
  get_error_type body m = Ok et ->
  calls m =
    UpdateItem tid et n ::
      (action_calls body tid et n ++ [DeleteMessage DLQ_URL (ReceiptHandle m)])%list.
Proof.
  intros Hb Ht Htr Hn He. unfold calls.
  now rewrite (loop_body_returns _ _ (try_block_decided m body tid n et Hb Ht Htr Hn He)).
Qed.

Lemma calls_anonymous (m : message) body tid :
  Body m = Ok body ->
  Json.get body "task_id" JNull = Ok tid ->
  Json.truthy tid = false ->
  calls m = [DeleteMessage DLQ_URL (ReceiptHandle m)].
Proof.
  intros Hb Ht Htr. unfold calls.
  now rewrite (loop_body_returns _ _ (try_block_anonymous m body tid Hb Ht Htr)).
Qed.

(** An exception can only be raised before the first call. *)
Lemma calls_raised (m : message) e :
  result_of (try_block m tt) = Raise e -> calls m = [].
Proof.
  intros Hr.
  destruct (Body m) as [body|e0] eqn:Hb.
  2:{ unfold calls, loop_body, try_block, try_except, bind, lift. now rewrite Hb. }
  destruct (Json.get body "task_id" JNull) as [tid|e0] eqn:Ht.
  2:{ unfold calls, loop_body, try_block, try_except, bind, lift. now rewrite Hb, Ht. }
  destruct (Json.truthy tid) eqn:Htr.
  2:{ rewrite (try_block_anonymous m body tid Hb Ht Htr) in Hr. discriminate. }
  destruct (approximate_receive_count m) as [n|e0] eqn:Hn.
  2:{ unfold calls, loop_body, try_block, try_except, bind, lift.
      rewrite Hb, Ht, Htr. simpl. now rewrite Hn. }
  destruct (get_error_type body m) as [et|e0] eqn:He.
  2:{ unfold calls, loop_body, try_block, try_except, bind, lift.
      rewrite Hb, Ht, Htr. simpl. now rewrite Hn, He. }
  rewrite (try_block_decided m body tid n et Hb Ht Htr Hn He) in Hr. discriminate.
Qed.

(** The exception handler of the loop body returns normally and leaves
    the trace of the [try] block as it is. *)
Lemma loop_body_catches (m : message) :
  result_of (loop_body m tt) = Ok tt /\
  state_of (loop_body m tt) = tt /\
  trace_of (loop_body m tt) = trace_of (try_block m tt).
Proof.
  unfold loop_body, try_except.
  destruct (try_block m tt) as [[[[]|e] []] t]; unfold ret; simpl.
  - repeat split.
  - unfold trace_of. simpl. rewrite app_nil_r. repeat split.
Qed.

Lemma calls_shape (m : message) : shape (ReceiptHandle m) (calls m).
Proof.
  unfold calls.
  destruct (Body m) as [body|e] eqn:Hb.
  2:{ unfold loop_body, try_block, try_except, bind, lift. rewrite Hb. constructor. }
  destruct (Json.get body "task_id" JNull) as [tid|e] eqn:Ht.
  2:{ unfold loop_body, try_block, try_except, bind, lift. rewrite Hb, Ht. constructor. }
  destruct (Json.truthy tid) eqn:Htr.
  2:{ fold (calls m). rewrite (calls_anonymous m body tid Hb Ht Htr). constructor. }
  destruct (approximate_receive_count m) as [n|e] eqn:Hn.
  2:{ unfold loop_body, try_block, try_except, bind, lift.
      rewrite Hb, Ht, Htr. simpl. rewrite Hn. constructor. }
  destruct (get_error_type body m) as [et|e] eqn:He.
  2:{ unfold loop_body, try_block, try_except, bind, lift.
      rewrite Hb, Ht, Htr. simpl. rewrite Hn, He. constructor. }
  fold (calls m). rewrite (calls_decided m body tid n et Hb Ht Htr Hn He).
  unfold action_calls.
  destruct (is_retriable_error et && (n <=? 3))%bool.
  - destruct (bump_retries body) as [b'|e] eqn:Eb.
    + rewrite (requeue_message_sends _ _ _ Eb). constructor.
    + rewrite (requeue_message_gives_up _ _ _ Eb). constructor.
  - constructor.
Qed.

Lemma is_retriable_error_spec (et : json) :
  is_retriable_error et = true <-> exists s, et = JStr s /\ In s retriable_errors.
Proof.
  split.
  - destruct et; try (simpl; discriminate).
    unfold is_retriable_error. intros H. exists s. split; [reflexivity|].
    apply existsb_exists in H. destruct H as (x & Hx & E).
    apply String.eqb_eq in E. now subst.
  - intros (s & -> & Hs). unfold is_retriable_error. apply existsb_exists.
    exists s. split; [assumption|apply String.eqb_refl].
Qed.

Lemma lookup_assign_eq k v kvs : Json.lookup k (Json.assign k v kvs) = Some v.
Proof.
  induction kvs as [|[k' v'] rest IH]; simpl.
  - now rewrite String.eqb_refl.
  - destruct (String.eqb k' k) eqn:E; simpl.
    + now rewrite String.eqb_refl.
    + now rewrite E.
Qed.

Lemma lookup_assign_ne k k0 v kvs :
  k0 <> k -> Json.lookup k0 (Json.assign k v kvs) = Json.lookup k0 kvs.
Proof.
  intros Hne. induction kvs as [|[k' v'] rest IH]; simpl.
  - destruct (String.eqb k k0) eqn:E; [apply String.eqb_eq in E; congruence|reflexivity].
  - destruct (String.eqb k' k) eqn:E; simpl.
    + apply String.eqb_eq in E. subst k'.
      destruct (String.eqb k k0) eqn:E'; [apply String.eqb_eq in E'; congruence|reflexivity].
    + destruct (String.eqb k' k0); [reflexivity|exact IH].
Qed.

(** What [requeue_message] does to the payload. *)
Lemma bump_retries_spec body body' :
  bump_retries body = Ok body' ->
  exists kvs r,
    body = JObj kvs /\ body' = JObj (Json.assign "retries" (JInt r) kvs) /\
    (Json.lookup "retries" kvs = None -> r = 1) /\
    (forall k, Json.lookup "retries" kvs = Some (JInt k) -> r = k + 1).
Proof.
  destruct body as [| | | | |kvs]; try discriminate.
  unfold bump_retries.
  destruct (Json.lookup "retries" kvs) as [v|] eqn:E.
  - destruct v as [|b|k| | |]; simpl; try discriminate; intros [= <-].
    + exists kvs, ((if b then 1 else 0) + 1). repeat split; congruence.
    + exists kvs, (k + 1). repeat split; congruence.
  - intros [= <-]. exists kvs, 1. repeat split; congruence.
Qed.

Lemma retry_eligible_decision et n :
  (is_retriable_error et && (n <=? 3))%bool = true <-> retry_eligible et n.
Proof.
  unfold retry_eligible.
  rewrite andb_true_iff, is_retriable_error_spec, Z.leb_le. reflexivity.
Qed.

Lemma calls_eligible (m : message) body tid n et body' :
  Body m = Ok body ->
  Json.get body "task_id" JNull = Ok tid ->
  Json.truthy tid = true ->
  approximate_receive_count m = Ok n ->
  get_error_type body m = Ok et ->
  bump_retries body = Ok body' ->
  retry_eligible et n ->
  calls m = [UpdateItem tid et n; SendMessage MAIN_QUEUE_URL body';
             DeleteMessage DLQ_URL (ReceiptHandle m)].
Proof.
  intros Hb Ht Htr Hn He Hr Hel.
  rewrite (calls_decided m body tid n et Hb Ht Htr Hn He).
  unfold action_calls. apply retry_eligible_decision in Hel. rewrite Hel.
  now rewrite (requeue_message_sends _ _ _ Hr).
Qed.

Lemma calls_permanent (m : message) body tid n et :
  Body m = Ok body ->
  Json.get body "task_id" JNull = Ok tid ->
  Json.truthy tid = true ->
  approximate_receive_count m = Ok n ->
  get_error_type body m = Ok et ->
  ~ retry_eligible et n ->
  calls m = [UpdateItem tid et n; Publish tid et body;
             DeleteMessage DLQ_URL (ReceiptHandle m)].
Proof.
  intros Hb Ht Htr Hn He Hel.
  rewrite (calls_decided m body tid n et Hb Ht Htr Hn He).
  unfold action_calls.
  destruct (is_retriable_error et && (n <=? 3))%bool eqn:E; [|reflexivity].
  apply retry_eligible_decision in E. contradiction.
Qed.

Lemma timeout_is_retriable : exists s, JStr "TIMEOUT_ERROR" = JStr s /\ In s retriable_errors.
Proof. exists "TIMEOUT_ERROR". split; [reflexivity|]. left. reflexivity. Qed.

(** C3, as stated, fails: a message without [task_id] whose error type is
    [TIMEOUT_ERROR] and whose receive count is 1 is not requeued. *)
Lemma anonymous_timeout_is_not_requeued :
  let m := Examples.dlq_message "rh3" Examples.anonymous_body "1" in
  Body m = Ok Examples.anonymous_body /\
  get_error_type Examples.anonymous_body m = Ok (JStr "TIMEOUT_ERROR") /\
  In "TIMEOUT_ERROR" retriable_errors /\
  approximate_receive_count m = Ok 1 /\ 1 <= 3 /\
  ~ (exists b, In (SendMessage MAIN_QUEUE_URL b) (calls m)).
Proof.
  cbv zeta. repeat split; try reflexivity.
  - left. reflexivity.
  - discriminate.
  - intros (b & Hin). vm_compute in Hin. destruct Hin as [H|[]]. discriminate.
Qed.

(** C3 (amended). A DLQ message that carries a [task_id], whose receive
    count and classification are read without an exception and whose
    [retries] counter is absent or a number, is requeued to the main
    queue if and only if its classified error type is one of
    [retriable_errors] and its receive count is at most 3; then the trace
    is the status write, the republished payload with [retries]
    incremented and the deletion. Otherwise the message is a permanent
    failure: status write, notification, deletion, and nothing is
    requeued. In particular [TIMEOUT_ERROR] is requeued at receive count 3
    and is permanent at receive count 4. *)
Theorem requeue_iff_retriable_within_three (m : message) body tid n et body' :
  Body m = Ok body ->
  Json.get body "task_id" JNull = Ok tid ->
  Json.truthy tid = true ->
  approximate_receive_count m = Ok n ->
  get_error_type body m = Ok et ->
  bump_retries body = Ok body' ->
  ((exists b, In (SendMessage MAIN_QUEUE_URL b) (calls m)) <-> retry_eligible et n) /\
  (retry_eligible et n ->
     calls m = [UpdateItem tid et n; SendMessage MAIN_QUEUE_URL body';
                DeleteMessage DLQ_URL (ReceiptHandle m)]) /\
  (~ retry_eligible et n ->
     calls m = [UpdateItem tid et n; Publish tid et body;
                DeleteMessage DLQ_URL (ReceiptHandle m)]) /\
  (et = JStr "TIMEOUT_ERROR" -> n = 3 ->
     calls m = [UpdateItem tid et 3; SendMessage MAIN_QUEUE_URL body';
                DeleteMessage DLQ_URL (ReceiptHandle m)]) /\
  (et = JStr "TIMEOUT_ERROR" -> n = 4 ->
     calls m = [UpdateItem tid et 4; Publish tid et body;
                DeleteMessage DLQ_URL (ReceiptHandle m)]) /\
  (exists kvs r,
     body = JObj kvs /\ body' = JObj (Json.assign "retries" (JInt r) kvs) /\
     (Json.lookup "retries" kvs = None -> r = 1) /\
     (forall k, Json.lookup "retries" kvs = Some (JInt k) -> r = k + 1)).
Proof.
  intros Hb Ht Htr Hn He Hr.
  pose proof (calls_eligible m body tid n et body' Hb Ht Htr Hn He Hr) as Hyes.
  pose proof (calls_permanent m body tid n et Hb Ht Htr Hn He) as Hno.
  assert (Hdec : retry_eligible et n \/ ~ retry_eligible et n).
  { destruct (is_retriable_error et && (n <=? 3))%bool eqn:E.
    - left. now apply retry_eligible_decision.
    - right. intros H. apply retry_eligible_decision in H. congruence. }
  split; [|split; [exact Hyes|split; [exact Hno|split; [|split]]]].
  - split.
    + intros (b & Hin). destruct Hdec as [H|H]; [exact H|].
      rewrite (Hno H) in Hin. simpl in Hin.
      destruct Hin as [Hin|[Hin|[Hin|[]]]]; discriminate.
    + intros H. exists body'. rewrite (Hyes H). right. left. reflexivity.
  - intros -> ->. apply Hyes. split; [exact timeout_is_retriable|lia].
  - intros -> ->. apply Hno. intros [_ Hle]. lia.
  - exact (bump_retries_spec body body' Hr).
Qed.

Lemma requeue_iff_retriable_within_three_witness :
  let m := Examples.dlq_message "rh1" Examples.timeout_body "3" in
  calls m =
    [UpdateItem (JStr "task-42") (JStr "TIMEOUT_ERROR") 3;
     SendMessage MAIN_QUEUE_URL
       (JObj [("task_id", JStr "task-42"); ("action", JStr "compress");
              ("error_type", JStr "TIMEOUT_ERROR"); ("retries", JInt 1)]);
     DeleteMessage DLQ_URL "rh1"].
Proof.
  intros m.
  destruct (requeue_iff_retriable_within_three m Examples.timeout_body
              (JStr "task-42") 3 (JStr "TIMEOUT_ERROR")
              (JObj [("task_id", JStr "task-42"); ("action", JStr "compress");
                     ("error_type", JStr "TIMEOUT_ERROR"); ("retries", JInt 1)])
              eq_refl eq_refl eq_refl eq_refl eq_refl eq_refl)
    as (_ & _ & _ & H3 & _).
  exact (H3 eq_refl eq_refl).
Defined.

(** The "only if" half of the retry rule holds for every message, with
    or without [task_id]: whatever is requeued was classified with a
    retriable error type at a receive count of at most 3. *)
Lemma requeue_only_if_eligible (m : message) :
  (exists b, In (SendMessage MAIN_QUEUE_URL b) (calls m)) ->
  exists body et n,
    Body m = Ok body /\ get_error_type body m = Ok et /\
    approximate_receive_count m = Ok n /\ retry_eligible et n.
Proof.
  intros (b & Hin).
  destruct (Body m) as [body|e] eqn:Hb.
  2:{ rewrite (calls_raised m e) in Hin; [destruct Hin|].
      unfold try_block, bind, lift. now rewrite Hb. }
  destruct (Json.get body "task_id" JNull) as [tid|e] eqn:Ht.
  2:{ rewrite (calls_raised m e) in Hin; [destruct Hin|].
      unfold try_block, bind, lift. now rewrite Hb, Ht. }
  destruct (Json.truthy tid) eqn:Htr.
  2:{ rewrite (calls_anonymous m body tid Hb Ht Htr) in Hin.
      destruct Hin as [Hin|[]]. discriminate. }
  destruct (approximate_receive_count m) as [n|e] eqn:Hn.
  2:{ rewrite (calls_raised m e) in Hin; [destruct Hin|].
      unfold try_block, bind, lift. rewrite Hb, Ht, Htr. simpl. now rewrite Hn. }
  destruct (get_error_type body m) as [et|e] eqn:He.
  2:{ rewrite (calls_raised m e) in Hin; [destruct Hin|].
      unfold try_block, bind, lift. rewrite Hb, Ht, Htr. simpl. now rewrite Hn, He. }
  exists body, et, n.
  repeat (split; [first [reflexivity|assumption]|]).
  destruct (is_retriable_error et && (n <=? 3))%bool eqn:E.
  - now apply retry_eligible_decision.
  - rewrite (calls_decided m body tid n et Hb Ht Htr Hn He) in Hin.
    unfold action_calls in Hin. rewrite E in Hin.
    destruct Hin as [Hin|[Hin|[Hin|[]]]]; discriminate.
Qed.

(** The same payload at receive count 4 is a permanent failure. *)
Example timeout_at_count_four_is_permanent :
  calls (Examples.dlq_message "rh2" Examples.timeout_body "4")
  = [UpdateItem (JStr "task-42") (JStr "TIMEOUT_ERROR") 4;
     Publish (JStr "task-42") (JStr "TIMEOUT_ERROR") Examples.timeout_body;
     DeleteMessage DLQ_URL "rh2"].
Proof. reflexivity. Qed.

(** C4, as stated, fails: a requeued message has its [FAILED] status
    written to the status store before it is republished. *)
Lemma requeued_message_is_recorded_failed :
  let m := Examples.dlq_message "rh1" Examples.timeout_body "1" in
  retry_eligible (JStr "TIMEOUT_ERROR") 1 /\
  get_error_type Examples.timeout_body m = Ok (JStr "TIMEOUT_ERROR") /\
  approximate_receive_count m = Ok 1 /\
  (exists b, In (SendMessage MAIN_QUEUE_URL b) (calls m)) /\
  In (UpdateItem (JStr "task-42") (JStr "TIMEOUT_ERROR") 1) (calls m).
Proof.
  cbv zeta. split; [|split; [|split; [|split]]].
  - split; [exact timeout_is_retriable|lia].
  - reflexivity.
  - reflexivity.
  - eexists. vm_compute. right. left. reflexivity.
  - vm_compute. left. reflexivity.
Qed.

(** C4 (amended). For a retry-eligible DLQ message that carries a
    [task_id], the reprocessor first writes [FAILED] with the classified
    error type and the receive count to the status store and last deletes
    the message; no notification is sent. In between it republishes the
    payload to the main queue with [retries] set to 1 when it was absent
    and incremented when it was an integer or a boolean, every other key
    of the payload being unchanged. When [retries] holds any other value
    (a string, a list, a dictionary or [null]) the increment raises,
    [requeue_message] only logs it, and nothing is republished: the
    status write and the deletion are then the only calls. *)
Theorem requeue_writes_status_then_republishes (m : message) kvs tid n et :
  Body m = Ok (JObj kvs) ->
  Json.get (JObj kvs) "task_id" JNull = Ok tid ->
  Json.truthy tid = true ->
  approximate_receive_count m = Ok n ->
  get_error_type (JObj kvs) m = Ok et ->
  retry_eligible et n ->
  (Json.lookup "retries" kvs = None ->
     calls m = [UpdateItem tid et n;
                SendMessage MAIN_QUEUE_URL (JObj (Json.assign "retries" (JInt 1) kvs));
                DeleteMessage DLQ_URL (ReceiptHandle m)]) /\
  (forall k, Json.lookup "retries" kvs = Some (JInt k) ->
     calls m = [UpdateItem tid et n;
                SendMessage MAIN_QUEUE_URL (JObj (Json.assign "retries" (JInt (k + 1)) kvs));
                DeleteMessage DLQ_URL (ReceiptHandle m)]) /\
  (forall r r', Json.lookup "retries" kvs = Some r -> Json.add_one r = Ok r' ->
     calls m = [UpdateItem tid et n;
                SendMessage MAIN_QUEUE_URL (JObj (Json.assign "retries" r' kvs));
                DeleteMessage DLQ_URL (ReceiptHandle m)]) /\
  (forall r e, Json.lookup "retries" kvs = Some r -> Json.add_one r = Raise e ->
     calls m = [UpdateItem tid et n; DeleteMessage DLQ_URL (ReceiptHandle m)]) /\
  (forall r, (exists r', Json.add_one r = Ok r') <->
             (exists k, r = JInt k) \/ (exists b, r = JBool b)) /\
  (forall key v, key <> "retries" ->
     Json.lookup key (Json.assign "retries" v kvs) = Json.lookup key kvs) /\
  (forall v, Json.lookup "retries" (Json.assign "retries" v kvs) = Some v) /\
  (forall e, In e (calls m) -> is_notification e = false).
Proof.
  intros Hb Ht Htr Hn He Hel.
  assert (Hnone : Json.lookup "retries" kvs = None ->
     calls m = [UpdateItem tid et n;
                SendMessage MAIN_QUEUE_URL (JObj (Json.assign "retries" (JInt 1) kvs));
                DeleteMessage DLQ_URL (ReceiptHandle m)]).
  { intros Hr. apply (calls_eligible m (JObj kvs) tid n et); try assumption.
    unfold bump_retries. now rewrite Hr. }
  assert (Hsome : forall r r', Json.lookup "retries" kvs = Some r ->
     Json.add_one r = Ok r' ->
     calls m = [UpdateItem tid et n;
                SendMessage MAIN_QUEUE_URL (JObj (Json.assign "retries" r' kvs));
                DeleteMessage DLQ_URL (ReceiptHandle m)]).
  { intros r r' Hr Hadd. apply (calls_eligible m (JObj kvs) tid n et); try assumption.
    unfold bump_retries. now rewrite Hr, Hadd. }
  split; [exact Hnone|].
  split; [intros k Hr; exact (Hsome (JInt k) (JInt (k + 1)) Hr eq_refl)|].
  split; [exact Hsome|].
  split; [|split; [|split; [|split]]].
  - intros r e Hr Hadd.
    rewrite (calls_decided m (JObj kvs) tid n et Hb Ht Htr Hn He).
    unfold action_calls. rewrite (proj2 (retry_eligible_decision _ _) Hel).
    assert (Eb : bump_retries (JObj kvs) = Raise e).
    { unfold bump_retries. now rewrite Hr, Hadd. }
    now rewrite (requeue_message_gives_up _ _ _ Eb).
  - intros r. split.
    + intros [r' Hadd]. destruct r; try discriminate Hadd; [right|left]; eauto.
    + intros [[k ->]|[b ->]]; eexists; reflexivity.
  - intros key v Hne. now apply lookup_assign_ne.
  - intros v. apply lookup_assign_eq.
  - intros e Hin.
    rewrite (calls_decided m (JObj kvs) tid n et Hb Ht Htr Hn He) in Hin.
    unfold action_calls in Hin.
    apply retry_eligible_decision in Hel. rewrite Hel in Hin.
    destruct (bump_retries (JObj kvs)) as [b'|ex] eqn:Eb.
    + rewrite (requeue_message_sends _ _ _ Eb) in Hin. simpl in Hin.
      destruct Hin as [<-|[<-|[<-|[]]]]; reflexivity.
    + rewrite (requeue_message_gives_up _ _ _ Eb) in Hin. simpl in Hin.
      destruct Hin as [<-|[<-|[]]]; reflexivity.
Qed.

Lemma requeue_writes_status_then_republishes_witness :
  let m := Examples.dlq_message "rh1" Examples.timeout_body "1" in
  calls m =
    [UpdateItem (JStr "task-42") (JStr "TIMEOUT_ERROR") 1;
     SendMessage MAIN_QUEUE_URL
       (JObj [("task_id", JStr "task-42"); ("action", JStr "compress");
              ("error_type", JStr "TIMEOUT_ERROR"); ("retries", JInt 1)]);
     DeleteMessage DLQ_URL "rh1"].
Proof.
  intros m.
  assert (Hel : retry_eligible (JStr "TIMEOUT_ERROR") 1).
  { split; [exact timeout_is_retriable|lia]. }
  exact (proj1 (requeue_writes_status_then_republishes m
                  [("task_id", JStr "task-42"); ("action", JStr "compress");
                   ("error_type", JStr "TIMEOUT_ERROR")]
                  (JStr "task-42") 1 (JStr "TIMEOUT_ERROR")
                  eq_refl eq_refl eq_refl eq_refl eq_refl Hel) eq_refl).
Defined.

Lemma lambda_handler_trace (ms : list message) :
  trace_of (lambda_handler ms tt) = flat_map calls ms /\
  (ms <> [] -> result_of (lambda_handler ms tt) = Ok (Processed (List.length ms))).
Proof.
  assert (Hbody : forall (x : message) (s : unit),
             result_of (loop_body x s) = Ok tt /\ state_of (loop_body x s) = s).
  { intros x []. destruct (loop_body_catches x) as (H1 & H2 & _). now split. }
  destruct ms as [|m ms]; [split; [reflexivity|congruence]|].
  destruct (for_each_trace loop_body (m :: ms) Hbody tt) as (Hr & Hs & Ht).
  unfold lambda_handler, bind.
  destruct (for_each loop_body (m :: ms) tt) as [[r s] t].
  unfold result_of, state_of, trace_of in *. simpl in Hr, Hs, Ht. subst r s t.
  unfold ret. simpl. rewrite app_nil_r. split; reflexivity.
Qed.

(** C10, as stated, fails: a body that parses to a JSON value other
    than an object (here the empty list) has no [task_id], and its
    message is not deleted: [body.get] raises [AttributeError], which the
    handler of the loop only logs. *)
Lemma non_object_body_is_left_in_queue :
  let m := Examples.dlq_message "rh4" (JArr []) "1" in
  Body m = Ok (JArr []) /\
  result_of (try_block m tt) = Raise AttributeError /\
  calls m = [] /\
  trace_of (lambda_handler [m] tt) = [] /\
  result_of (lambda_handler [m] tt) = Ok (Processed 1).
Proof. cbv zeta. repeat split; reflexivity. Qed.

(** C10 (amended). In a batch handled by [lambda_handler], a message
    whose parsed body is a dictionary without a usable [task_id] (the key
    is absent, or its value is empty) is deleted from the dead-letter
    queue and nothing else is done for it: no status write, no requeue,
    no notification; the messages before and after it are processed as
    they would be alone. A message whose body parses to anything but a
    dictionary is not deleted: no call at all is made for it, and it
    stays in the dead-letter queue. *)
Theorem message_without_task_id_is_dropped
    (before after : list message) (m : message) :
  let batch := (before ++ m :: after)%list in
  result_of (lambda_handler batch tt) = Ok (Processed (List.length batch)) /\
  (forall kvs,
     Body m = Ok (JObj kvs) ->
     Json.truthy (default JNull (Json.lookup "task_id" kvs)) = false ->
     loop_body m tt = (Ok tt, tt, [DeleteMessage DLQ_URL (ReceiptHandle m)]) /\
     (forall e, In e (calls m) -> is_side_effect e = false) /\
     trace_of (lambda_handler batch tt)
     = (flat_map calls before ++
        [DeleteMessage DLQ_URL (ReceiptHandle m)] ++ flat_map calls after)%list) /\
  (forall body,
     Body m = Ok body ->
     (forall kvs, body <> JObj kvs) ->
     loop_body m tt = (Ok tt, tt, []) /\
     trace_of (lambda_handler batch tt)
     = (flat_map calls before ++ flat_map calls after)%list).
Proof.
  intros batch.
  destruct (lambda_handler_trace batch) as [Ht Hr].
  assert (Hsplit : trace_of (lambda_handler batch tt)
                   = (flat_map calls before ++ calls m ++ flat_map calls after)%list).
  { subst batch. rewrite Ht, flat_map_app. reflexivity. }
  split; [|split].
  - apply Hr. subst batch. now destruct before.
  - intros kvs Hb Htr.
    assert (Hget : Json.get (JObj kvs) "task_id" JNull
                   = Ok (default JNull (Json.lookup "task_id" kvs))).
    { unfold Json.get. now destruct (Json.lookup "task_id" kvs). }
    split; [|split].
    + apply loop_body_returns. exact (try_block_anonymous m _ _ Hb Hget Htr).
    + intros e Hin. rewrite (calls_anonymous m _ _ Hb Hget Htr) in Hin.
      destruct Hin as [<-|[]]. reflexivity.
    + now rewrite Hsplit, (calls_anonymous m _ _ Hb Hget Htr).
  - intros body Hb Hnot.
    assert (Hl : loop_body m tt = (Ok tt, tt, [])).
    { unfold loop_body, try_block, try_except, bind, lift. rewrite Hb.
      destruct body; try reflexivity. now destruct (Hnot kvs). }
    split; [exact Hl|].
    rewrite Hsplit. unfold calls. now rewrite Hl.
Qed.

Lemma message_without_task_id_is_dropped_witness :
  let m := Examples.dlq_message "rh3" Examples.anonymous_body "1" in
  let l := Examples.dlq_message "rh4" (JArr []) "1" in
  trace_of (lambda_handler [l; m] tt) = [DeleteMessage DLQ_URL "rh3"] /\
  trace_of (lambda_handler [l; m] tt) = flat_map calls [m].
Proof.
  intros m l. split.
  - exact (proj2 (proj2 (proj1 (proj2 (message_without_task_id_is_dropped [l] [] m))
                           [("action", JStr "compress");
                            ("error_type", JStr "TIMEOUT_ERROR")] eq_refl eq_refl))).
  - refine (proj2 (proj2 (proj2 (message_without_task_id_is_dropped [] [m] l))
                     (JArr []) eq_refl _)).
    intros kvs H. discriminate H.
Defined.

(** In the trace of one message every side effect comes before the
    deletion. *)
Lemma side_effects_precede_delete (m : message) (i j : nat) d e :
  calls m !! i = Some d -> is_delete d = true ->
  calls m !! j = Some e -> is_side_effect e = true ->
  (j < i)%nat.
Proof.
  intros Hi Hd Hj He.
  destruct (calls_shape m);
    repeat (destruct i as [|i]; simpl in Hi; try discriminate);
    injection Hi as <-; try discriminate Hd;
    repeat (destruct j as [|j]; simpl in Hj; try discriminate);
    injection Hj as <-; try discriminate He; lia.
Qed.

(** C7, as stated, fails: a message without [task_id] is removed from the
    dead-letter queue although no status write, requeue or notification
    was performed for it. *)
Lemma anonymous_message_deleted_without_side_effect :
  let m := Examples.dlq_message "rh3" Examples.anonymous_body "1" in
  In (DeleteMessage DLQ_URL "rh3") (calls m) /\
  ~ (exists e, In e (calls m) /\ is_side_effect e = true).
Proof.
  cbv zeta. split.
  - vm_compute. left. reflexivity.
  - intros (e & Hin & He). vm_compute in Hin.
    destruct Hin as [<-|[]]. discriminate.
Qed.

(** C7 (amended). The trace of a batch is the concatenation of the traces
    of its messages, each processed on its own. In the trace of one
    message every status write, requeue or notification precedes the
    deletion of that message. For a message that carries a [task_id] and
    reaches the decision step the deletion is the last call, after the
    status write and after the requeue or the notification; a message
    without [task_id] is deleted and that is the only call. When an
    exception is raised while a message is processed, no call has been
    made for it, so it is not deleted, and the messages before and after
    it in the batch are processed all the same. *)
Theorem deletion_is_last_and_exceptions_are_isolated
    (before after : list message) (m : message) :
  trace_of (lambda_handler (before ++ m :: after) tt)
    = (flat_map calls before ++ calls m ++ flat_map calls after)%list /\
  result_of (lambda_handler (before ++ m :: after) tt)
    = Ok (Processed (List.length (before ++ m :: after))) /\
  (forall i j d e,
     calls m !! i = Some d -> is_delete d = true ->
     calls m !! j = Some e -> is_side_effect e = true -> (j < i)%nat) /\
  (forall body tid n et,
     Body m = Ok body ->
     Json.get body "task_id" JNull = Ok tid ->
     Json.truthy tid = true ->
     approximate_receive_count m = Ok n ->
     get_error_type body m = Ok et ->
     exists act,
       calls m = (UpdateItem tid et n :: act ++ [DeleteMessage DLQ_URL (ReceiptHandle m)])%list /\
       (forall e, In e act -> is_delete e = false)) /\
  (forall body tid,
     Body m = Ok body ->
     Json.get body "task_id" JNull = Ok tid ->
     Json.truthy tid = false ->
     calls m = [DeleteMessage DLQ_URL (ReceiptHandle m)]) /\
  (forall e,
     result_of (try_block m tt) = Raise e ->
     calls m = [] /\ result_of (loop_body m tt) = Ok tt).
Proof.
  destruct (lambda_handler_trace (before ++ m :: after)) as [Ht Hr].
  split; [|split; [|split; [|split; [|split; [exact (calls_anonymous m)|]]]]].
  - rewrite Ht, flat_map_app. reflexivity.
  - apply Hr. now destruct before.
  - intros i j d e. apply side_effects_precede_delete.
  - intros body tid n et Hb Htid Htr Hn He.
    exists (action_calls body tid et n). split.
    + exact (calls_decided m body tid n et Hb Htid Htr Hn He).
    + intros e Hin. unfold action_calls in Hin.
      destruct (is_retriable_error et && (n <=? 3))%bool.
      * destruct (bump_retries body) as [b'|ex] eqn:Eb.
        -- rewrite (requeue_message_sends _ _ _ Eb) in Hin.
           destruct Hin as [<-|[]]. reflexivity.
        -- rewrite (requeue_message_gives_up _ _ _ Eb) in Hin. destruct Hin.
      * destruct Hin as [<-|[]]. reflexivity.
  - intros e Hraise. split.
    + exact (calls_raised m e Hraise).
    + exact (proj1 (loop_body_catches m)).
Qed.

Lemma deletion_is_last_and_exceptions_are_isolated_witness :
  let m1 := Examples.dlq_message "rh1" Examples.timeout_body "3" in
  let bad := Examples.unparsable "rh2" in
  let m3 := Examples.dlq_message "rh3" Examples.timeout_body "4" in
  result_of (try_block bad tt) = Raise JSONDecodeError /\
  calls bad = [] /\
  trace_of (lambda_handler [m1; bad; m3] tt)
    = (flat_map calls [m1] ++ calls bad ++ flat_map calls [m3])%list.
Proof.
  intros m1 bad m3.
  destruct (deletion_is_last_and_exceptions_are_isolated [m1] [m3] bad)
    as (H1 & _ & _ & _ & _ & H5).
  split; [reflexivity|].
  split; [exact (proj1 (H5 JSONDecodeError eq_refl))|exact H1].
Defined.

End ReprocessorSpec.

(** ** Renaming *)

Module RenameSpec.
Import PyStr PyStrFacts RenameFile.
#[local] Arguments String.append !_ _ / : simpl nomatch.


(** Placeholders cannot match in a string without an opening brace. *)
Lemma substitute_braceless (s : string) (l : list (string * string)) :
  has_char "{" s = false ->
  Forall (fun pr => exists x, fst pr = String "{" x) l ->
  fold_left substitute l s = s.
Proof.
  intros Hs Hl. induction Hl as [|pr l (x & Hx) _ IH]; simpl; [reflexivity|].
  unfold substitute at 2. rewrite Hx, (replace_absent "{" x (snd pr) s Hs).
  exact IH.
Qed.

Lemma meta_placeholders (metadata : list (string * string)) :
  Forall (fun pr : string * string => exists x, fst pr = String "{" x)
    (map (fun kv => ("{meta." ++ fst kv ++ "}", snd kv)) metadata).
Proof.
  induction metadata as [|kv l IH]; simpl; constructor; [|exact IH].
  simpl. eexists. reflexivity.
Qed.



End RenameSpec.

(** ** Format detection *)

Module FormatDetectSpec.
Import PyStr FormatDetect.

(** Every answer for an existing file carries the lower-cased extension
    of its path. *)
Lemma detect_format_extension (w : world) (fs : disk) (p : string) :
  path_exists fs p = true ->
  extension (detect_format w fs p) = lower (snd (splitext p)).
Proof.
  intros H. unfold detect_format. rewrite H. cbv [negb].
  destruct (is_rosbag w p); [reflexivity|].
  destruct (is_mcap w p); [reflexivity|].
  destruct (is_hdf5 w p); [reflexivity|].
  destruct (is_video w p); [reflexivity|].
  destruct (is_image p); [reflexivity|].
  destruct (is_archive p); reflexivity.
Qed.

(** C5, as stated, fails: with the reader library installed, a file named
    [scan.bag] that does not open as a ROS bag is still classified
    [rosbag] (with empty details). *)
Lemma invalid_bag_is_classified_rosbag :
  let w := Examples.broken_bag ∅ in
  let fs : disk := {[ "/data/scan.bag" := Object "s3://in/scan.bag" ]} in
  has_rosbags w = true /\
  bag_opens w "/data/scan.bag" = false /\
  type (detect_format w fs "/data/scan.bag") = Rosbag /\
  info (detect_format w fs "/data/scan.bag") = NoDetails.
Proof. cbv zeta. repeat split; reflexivity. Qed.

(** C5 (amended). For an existing file whose name ends in [.bag]: when
    the ROS bag reader library can be imported the file is classified
    [rosbag] on its extension alone, whether or not it opens as a valid
    container, and opening it only decides whether the details are
    filled in; when the library cannot be imported the file is not
    classified [rosbag]. *)
Theorem bag_extension_decides_rosbag (w : world) (fs : disk) (p : string) :
  path_exists fs p = true ->
  endswith p ".bag" = true ->
  (has_rosbags w = true ->
     type (detect_format w fs p) = Rosbag /\
     info (detect_format w fs p)
       = (if bag_opens w p then RosbagDetails else NoDetails)) /\
  (has_rosbags w = false -> type (detect_format w fs p) <> Rosbag).
Proof.
  intros Hex Hbag. unfold detect_format. rewrite Hex. cbv [negb].
  unfold is_rosbag. rewrite Hbag. split.
  - intros Hlib. rewrite Hlib. split; [reflexivity|].
    cbn [info]. unfold detect_rosbag_details. now rewrite Hlib.
  - intros Hlib. rewrite Hlib.
    destruct (is_mcap w p); [discriminate|].
    destruct (is_hdf5 w p); [discriminate|].
    destruct (is_video w p); [discriminate|].
    destruct (is_image p); [discriminate|].
    destruct (is_archive p); discriminate.
Qed.

Lemma bag_extension_decides_rosbag_witness :
  type (detect_format (Examples.broken_bag ∅)
          {[ "/data/scan.bag" := Object "s3://in/scan.bag" ]} "/data/scan.bag")
  = Rosbag.
Proof.
  exact (proj1 (proj1 (bag_extension_decides_rosbag (Examples.broken_bag ∅)
                         {[ "/data/scan.bag" := Object "s3://in/scan.bag" ]}
                         "/data/scan.bag" eq_refl eq_refl) eq_refl)).
Defined.

End FormatDetectSpec.

(** ** The task executor *)

Module AppSpec.
Import PyStr PyStrFacts FormatDetect App.
#[local] Arguments String.append !_ _ / : simpl nomatch.

(** Unfold the plumbing of a computation and nothing else. *)
Ltac run_eff :=
  cbv beta iota zeta delta
    [try_except bind emit raise ret lift get_state put_state negb
     LocalDisk.write_file LocalDisk.read_file LocalDisk.remove_file].

Lemma path_exists_insert (fs : disk) (p : string) (c : content) :
  path_exists (<[p := c]> fs) p = true.
Proof. unfold path_exists. now rewrite lookup_insert_eq. Qed.

Lemma path_exists_lookup (fs : disk) (p : string) (c : content) :
  fs !! p = Some c -> path_exists fs p = true.
Proof. intros H. unfold path_exists. now rewrite H. Qed.

(** [download_file] never raises and writes no status. *)
Lemma download_file_total (w : world) uri dest (fs : disk) :
  exists b fs' t,
    StorageIO.download_file w uri dest fs = (Ok b, fs', t) /\
    status_writes t = [] /\
    List.filter is_transform t = [].
Proof.
  unfold StorageIO.download_file. run_eff.
  destruct (String.eqb (dirname dest) ""); [eauto 10|].
  destruct uri as [u|]; [|eauto 10].
  destruct (startswith u "s3://" || startswith u "gs://")%bool; [|eauto 10].
  destruct (StorageIO.bucket_and_key u); [|eauto 10].
  destruct (object_readable w u); [|eauto 10].
  destruct (writable w dest); eauto 10.
Qed.

Lemma download_file_ok (w : world) u dest (fs : disk) names :
  dirname dest <> "" ->
  (startswith u "s3://" || startswith u "gs://")%bool = true ->
  StorageIO.bucket_and_key u = Ok names ->
  object_readable w u = true ->
  writable w dest = true ->
  StorageIO.download_file w (Some u) dest fs
  = (Ok true, <[dest := Object u]> fs, [Download u dest]).
Proof.
  intros Hd Hs Hk Hr Hw.
  unfold StorageIO.download_file. run_eff.
  destruct (String.eqb (dirname dest) "") eqn:E;
    [apply String.eqb_eq in E; contradiction|].
  now rewrite Hs, Hk, Hr, Hw.
Qed.

(** The staging paths are absolute. *)
Lemma dirname_local_input (tid : string) (src : option string) :
  dirname (local_input_path tid src) <> "".
Proof. apply dirname_absolute. Qed.


(** [compress_file] never raises and makes no call. *)
Lemma compress_file_total (w : world) input output p (fs : disk) :
  exists b fs',
    CompressZip.compress_file w input output p fs = (Ok b, fs', []).
Proof.
  unfold CompressZip.compress_file, CompressZip.setpassword. run_eff.
  destruct (path_exists fs input); [|eauto].
  cbv [negb].
  destruct (String.eqb _ ".bag").
  - destruct (fs !! input); [|eauto].
    destruct (writable w output); eauto.
  - destruct (fs !! input); [|eauto].
    destruct (writable w output); [|eauto].
    destruct (nonempty (password p));
      (destruct (CompressZip.level_accepted _); [|eauto]);
      (destruct (path_exists _ output); eauto).
Qed.

(** A staged [.bag] file is written out as one gzip stream. *)
Lemma compress_file_bag (w : world) input output p (fs : disk) c :
  fs !! input = Some c ->
  snd (splitext input) = ".bag" ->
  writable w output = true ->
  CompressZip.compress_file w input output p fs
  = (Ok true, <[output := GzipStream c]> fs, []).
Proof.
  intros Hc Hext Hw.
  unfold CompressZip.compress_file. run_eff.
  rewrite (path_exists_lookup _ _ _ Hc). cbv [negb].
  rewrite (FormatDetectSpec.detect_format_extension w fs input
             (path_exists_lookup _ _ _ Hc)), Hext.
  change (String.eqb (lower (lower ".bag")) ".bag") with true.
  run_eff. now rewrite Hc, Hw.
Qed.

(** Any other staged file goes into a zip archive with one entry, when
    the compression level is one [zlib] accepts. *)
Lemma compress_file_zip (w : world) input output p (fs : disk) c :
  fs !! input = Some c ->
  String.eqb (lower (lower (snd (splitext input)))) ".bag" = false ->
  writable w output = true ->
  CompressZip.level_accepted (default 6 (compression_level p)) = true ->
  CompressZip.compress_file w input output p fs
  = (Ok true,
     <[output := ZipArchive (default 6 (compression_level p)) [(basename input, c)]]> fs,
     []).
Proof.
  intros Hc Hext Hw Hl.
  unfold CompressZip.compress_file, CompressZip.setpassword. run_eff.
  rewrite (path_exists_lookup _ _ _ Hc). cbv [negb].
  rewrite (FormatDetectSpec.detect_format_extension w fs input
             (path_exists_lookup _ _ _ Hc)), Hext.
  run_eff. rewrite Hc, Hw, Hl. run_eff.
  destruct (nonempty (password p)); run_eff;
    rewrite path_exists_insert, insert_insert_eq; reflexivity.
Qed.

(** Only a conversion task with a source parses it: otherwise the
    destination is resolved without an exception. *)
Lemma fallback_output_path_resolves (w : world) provider tid action src out :
  (action_is action "convert_h265" && nonempty src)%bool = false ->
  exists o, fallback_output_path w provider tid action src out = Ok o.
Proof.
  intros Ha. unfold fallback_output_path. rewrite Ha.
  destruct (negb (nonempty out)); [|eauto].
  destruct (String.eqb provider "aws");
    [destruct (nonempty (getenv w "AWS_DESTINATION_BUCKET")); eauto|].
  destruct (String.eqb provider "gcp");
    [destruct (nonempty (getenv w "GCP_DESTINATION_BUCKET")); eauto|eauto].
Qed.

(** The resolution can only raise the [ValueError] of [urlparse]. *)
Lemma fallback_output_path_raises (w : world) provider tid action src out e :
  fallback_output_path w provider tid action src out = Raise e ->
  e = ValueError /\ action_is action "convert_h265" = true /\
  nonempty out = false /\ nonempty src = true /\
  urlparse_path w (default "" src) = None.
Proof.
  unfold fallback_output_path.
  destruct (nonempty out); cbv [negb]; [discriminate|].
  destruct (action_is action "convert_h265"), (nonempty src); cbv [andb];
    try (destruct (String.eqb provider "aws");
         [destruct (nonempty (getenv w "AWS_DESTINATION_BUCKET")); discriminate|];
         destruct (String.eqb provider "gcp");
         [destruct (nonempty (getenv w "GCP_DESTINATION_BUCKET")); discriminate|discriminate]).
  destruct (urlparse_path w (default "" src)).
  - destruct (String.eqb provider "aws");
      [destruct (nonempty (getenv w "AWS_DESTINATION_BUCKET")); discriminate|].
    destruct (String.eqb provider "gcp");
      [destruct (nonempty (getenv w "GCP_DESTINATION_BUCKET")); discriminate|discriminate].
  - intros [= <-]. repeat split.
Qed.

Lemma status_writes_app (t1 t2 : list step) :
  status_writes (t1 ++ t2) = (status_writes t1 ++ status_writes t2)%list.
Proof. unfold status_writes. apply List.filter_app. Qed.


(** C1, as stated, fails: when [compress_file] returns [False] the
    exception raised by [process_task] leaves it, and no [FAILED] status
    has been written. *)
Lemma compress_failure_escapes_process_task :
  let outcome := process_task (Examples.disk_full Examples.aws_env)
                   Examples.compress_txt "aws" ∅ in
  result_of outcome = Raise (Exception "Compression failed") /\
  status_writes (trace_of outcome) = [].
Proof. cbv zeta. split; reflexivity. Qed.

(** C1 (amended). For a task whose action is [compress], once the
    download has succeeded and [compress_file] has returned [False],
    [process_task] raises [Exception("Compression failed")]: nothing
    inside [process_task] catches it, and it is the [try] block of the
    HTTP handler around the call that catches it and answers 500. *)
Theorem compress_failure_raises_to_handler
    (w : world) (t : task) (provider : string) (fs fs1 fs2 : disk) (tr : list step) :
  let tid := default "unknown" (task_id t) in
  let src := fallback_source_path w provider tid (source_path t) in
  let li := local_input_path tid src in
  let lo := local_output_path tid in
  action t = Some "compress" ->
  StorageIO.download_file w src li fs = (Ok true, fs1, tr) ->
  CompressZip.compress_file w li lo (task_params t) fs1 = (Ok false, fs2, []) ->
  process_task w t provider fs
    = (Raise (Exception "Compression failed"), fs2, (tr ++ [Compress li lo])%list) /\
  handle_delivery w t provider fs = (Ok 500, fs2, (tr ++ [Compress li lo])%list).
Proof.
  intros tid src li lo Ha Hd Hc.
  destruct (fallback_output_path_resolves w provider tid (action t) src (output_path t))
    as (o & Ho); [now rewrite Ha|].
  assert (Hrun : process_task w t provider fs
    = (Raise (Exception "Compression failed"), fs2, (tr ++ [Compress li lo])%list)).
  { subst tid src li lo. unfold process_task. cbv zeta. rewrite Ho, Ha.
    change (action_is (Some "compress") "convert_h265") with false.
    change (action_is (Some "compress") "compress") with true.
    run_eff. rewrite Hd. run_eff. rewrite Hc. reflexivity. }
  split; [exact Hrun|].
  unfold handle_delivery. run_eff. rewrite Hrun. now rewrite app_nil_r.
Qed.

Lemma compress_failure_raises_to_handler_witness :
  handle_delivery (Examples.disk_full Examples.aws_env) Examples.compress_txt "aws" ∅
  = (Ok 500,
     {[ "/tmp/processing/input_t1.txt" := Object "s3://in/notes.txt" ]},
     [Download "s3://in/notes.txt" "/tmp/processing/input_t1.txt";
      Compress "/tmp/processing/input_t1.txt" "/tmp/processing/output_t1"]).
Proof.
  exact (proj2 (compress_failure_raises_to_handler
                  (Examples.disk_full Examples.aws_env) Examples.compress_txt "aws" ∅
                  {[ "/tmp/processing/input_t1.txt" := Object "s3://in/notes.txt" ]}
                  {[ "/tmp/processing/input_t1.txt" := Object "s3://in/notes.txt" ]}
                  [Download "s3://in/notes.txt" "/tmp/processing/input_t1.txt"]
                  eq_refl eq_refl eq_refl)).
Defined.

(** C2. The code at a task whose action is none of [convert_h265],
    [compress] and [rename]: after a successful download it writes
    [FAILED] twice, first with [unknown_action] and then with
    [processing_failed], starts no transform and returns [False]. *)
Theorem unknown_action_writes_two_failures
    (w : world) (t : task) (provider : string) (fs fs1 : disk) (tr : list step) :
  let tid := default "unknown" (task_id t) in
  let src := fallback_source_path w provider tid (source_path t) in
  let li := local_input_path tid src in
  action_is (action t) "convert_h265" = false ->
  action_is (action t) "compress" = false ->
  action_is (action t) "rename" = false ->
  tid <> "" ->
  StorageIO.download_file w src li fs = (Ok true, fs1, tr) ->
  process_task w t provider fs
    = (Ok false, fs1,
       (tr ++ [StatusWrite tid "FAILED" (Some "unknown_action");
               StatusWrite tid "FAILED" (Some "processing_failed")])%list) /\
  status_writes (trace_of (process_task w t provider fs))
    = [StatusWrite tid "FAILED" (Some "unknown_action");
       StatusWrite tid "FAILED" (Some "processing_failed")] /\
  List.filter is_transform (trace_of (process_task w t provider fs)) = [].
Proof.
  intros tid src li H1 H2 H3 Hid Hd.
  assert (Hne : String.eqb tid "" = false).
  { destruct (String.eqb tid "") eqn:E; [|reflexivity].
    apply String.eqb_eq in E. contradiction. }
  assert (Hrun : process_task w t provider fs
    = (Ok false, fs1,
       (tr ++ [StatusWrite tid "FAILED" (Some "unknown_action");
               StatusWrite tid "FAILED" (Some "processing_failed")])%list)).
  { destruct (fallback_output_path_resolves w provider tid (action t) src (output_path t))
      as (o & Ho); [now rewrite H1|].
    subst tid src li. unfold process_task. cbv zeta. rewrite Ho, H1, H2, H3.
    unfold StatusWriter.update_status. rewrite Hne.
    run_eff. rewrite Hd. reflexivity. }
  destruct (download_file_total w src li fs) as (b & fs' & t' & E & Hs & Ht).
  rewrite Hd in E. injection E as _ _ <-.
  split; [exact Hrun|split].
  - rewrite Hrun. unfold trace_of. simpl snd.
    now rewrite status_writes_app, Hs.
  - rewrite Hrun. unfold trace_of. simpl snd.
    now rewrite List.filter_app, Ht.
Qed.

Lemma unknown_action_writes_two_failures_witness :
  process_task (Examples.sunny Examples.aws_env) Examples.resize_task "aws" ∅
  = (Ok false,
     {[ "/tmp/processing/input_t2.png" := Object "s3://in/photo.png" ]},
     [Download "s3://in/photo.png" "/tmp/processing/input_t2.png";
      StatusWrite "t2" "FAILED" (Some "unknown_action");
      StatusWrite "t2" "FAILED" (Some "processing_failed")]).
Proof.
  assert (Hid : default "unknown" (task_id Examples.resize_task) <> "")
    by discriminate.
  exact (proj1 (unknown_action_writes_two_failures
                  (Examples.sunny Examples.aws_env) Examples.resize_task "aws" ∅
                  {[ "/tmp/processing/input_t2.png" := Object "s3://in/photo.png" ]}
                  [Download "s3://in/photo.png" "/tmp/processing/input_t2.png"]
                  eq_refl eq_refl eq_refl Hid eq_refl)).
Defined.

Lemma nonempty_some (b : string) : b <> "" -> nonempty (Some b) = true.
Proof. destruct b; [congruence|reflexivity]. Qed.

Lemma eqb_neq (a b : string) : a <> b -> String.eqb a b = false.
Proof.
  intros H. destruct (String.eqb a b) eqn:E; [|reflexivity].
  apply String.eqb_eq in E. contradiction.
Qed.

(** C6, as stated, fails: on AWS without [AWS_DESTINATION_BUCKET] the
    output path of a conversion task stays empty. *)
Lemma convert_output_path_left_empty :
  getenv (Examples.sunny ∅) "AWS_DESTINATION_BUCKET" = None /\
  urlparse_path (Examples.sunny ∅) "s3://in/clips/video.mov" = Some "/clips/video.mov" /\
  fallback_output_path (Examples.sunny ∅) "aws" "t6"
    (Some "convert_h265") (Some "s3://in/clips/video.mov") None = Ok None.
Proof. repeat split; reflexivity. Qed.

(** C6 (amended). For a task with an empty [output_path], action
    [convert_h265] and a non-empty [source_path] that [urlparse] accepts,
    the output file name is the base name of the parsed path with
    [_h265.mp4]. With provider [aws] or [gcp] it is placed in that
    provider's destination bucket when the bucket is configured, and
    [output_path] is left as it was (empty) when the bucket is not
    configured. Only for another provider is the new file name
    substituted for the original one inside [source_path]. When
    [urlparse] rejects [source_path], the resolution raises [ValueError]
    and [process_task] ends there, before any download or status
    write. *)
Theorem convert_output_path_by_provider
    (w : world) (provider tid src : string) (out : option string) :
  nonempty out = false ->
  src <> "" ->
  let resolved :=
    fallback_output_path w provider tid (Some "convert_h265") (Some src) out in
  (forall parsed_path,
     urlparse_path w src = Some parsed_path ->
     let name := splitext (basename parsed_path) in
     let output_filename := fst name ++ "_h265.mp4" in
     (provider = "aws" ->
        (forall b, getenv w "AWS_DESTINATION_BUCKET" = Some b -> b <> "" ->
           resolved = Ok (Some ("s3://" ++ b ++ "/" ++ output_filename))) /\
        (nonempty (getenv w "AWS_DESTINATION_BUCKET") = false -> resolved = Ok out)) /\
     (provider = "gcp" ->
        (forall b, getenv w "GCP_DESTINATION_BUCKET" = Some b -> b <> "" ->
           resolved = Ok (Some ("gs://" ++ b ++ "/" ++ output_filename))) /\
        (nonempty (getenv w "GCP_DESTINATION_BUCKET") = false -> resolved = Ok out)) /\
     (provider <> "aws" -> provider <> "gcp" ->
        resolved = Ok (Some (replace (fst name ++ snd name) output_filename src)))) /\
  (urlparse_path w src = None ->
     resolved = Raise ValueError /\
     forall (t : task) (fs : disk),
       action t = Some "convert_h265" ->
       source_path t = Some src ->
       output_path t = out ->
       default "unknown" (task_id t) = tid ->
       process_task w t provider fs = (Raise ValueError, fs, [])).
Proof.
  intros Hout Hsrc resolved.
  subst resolved. unfold fallback_output_path.
  rewrite Hout, (nonempty_some src Hsrc).
  change (action_is (Some "convert_h265") "convert_h265") with true.
  cbv beta iota zeta delta [negb andb]. simpl default.
  split.
  - intros parsed_path Hp. cbv zeta. rewrite Hp.
    set (name := splitext (basename parsed_path)).
    set (output_filename := fst name ++ "_h265.mp4").
    split; [|split].
    + intros ->. change (String.eqb "aws" "aws") with true. cbv iota. split.
      * intros b Hb Hne. now rewrite Hb, (nonempty_some b Hne).
      * intros Hb. now rewrite Hb.
    + intros ->. change (String.eqb "gcp" "aws") with false.
      change (String.eqb "gcp" "gcp") with true. cbv iota. split.
      * intros b Hb Hne. now rewrite Hb, (nonempty_some b Hne).
      * intros Hb. now rewrite Hb.
    + intros Ha Hg. now rewrite (eqb_neq _ _ Ha), (eqb_neq _ _ Hg).
  - intros Hp. rewrite Hp. split; [reflexivity|].
    intros t fs Ha Hs Ho Hid.
    unfold process_task. cbv zeta. rewrite Ha, Hs, Ho, Hid.
    assert (Hfs : fallback_source_path w provider tid (Some src) = Some src).
    { unfold fallback_source_path. now rewrite (nonempty_some src Hsrc). }
    rewrite Hfs. unfold fallback_output_path.
    rewrite Hout, (nonempty_some src Hsrc).
    change (action_is (Some "convert_h265") "convert_h265") with true.
    cbv beta iota zeta delta [negb andb]. simpl default. rewrite Hp.
    reflexivity.
Qed.

Lemma convert_output_path_by_provider_witness :
  fallback_output_path (Examples.sunny Examples.aws_env) "aws" "t6"
    (Some "convert_h265") (Some "s3://in/clips/video.mov") None
  = Ok (Some "s3://out/video_h265.mp4").
Proof.
  assert (Hsrc : "s3://in/clips/video.mov" <> "") by discriminate.
  assert (Hb : "out" <> "") by discriminate.
  exact (proj1 (proj1 (proj1 (convert_output_path_by_provider
                         (Examples.sunny Examples.aws_env) "aws" "t6"
                         "s3://in/clips/video.mov" None eq_refl Hsrc)
                         "/clips/video.mov" eq_refl) eq_refl)
           "out" eq_refl Hb).
Defined.

(** A conversion task whose source has a bracket in the bucket name:
    [urlparse] raises and [process_task] ends before the download. *)
Example bracket_source_ends_the_run :
  process_task (Examples.sunny Examples.aws_env) Examples.bracket_task "aws" ∅
  = (Raise ValueError, ∅, []).
Proof. reflexivity. Qed.

Lemma upload_file_run (w : world) (fs : disk) (p u : string) (c : content) names :
  fs !! p = Some c ->
  (startswith u "s3://" || startswith u "gs://")%bool = true ->
  StorageIO.bucket_and_key u = Ok names ->
  StorageIO.upload_file w p (Some u) fs = (Ok (object_writable w u), fs, [Upload p u]).
Proof.
  intros Hc Hs Hk. unfold StorageIO.upload_file. run_eff.
  now rewrite (path_exists_lookup _ _ _ Hc), Hs, Hk.
Qed.

(** The staging name of a [.bag] source keeps its extension, for a task
    identifier without a slash. *)
Lemma staged_bag_extension (tid : string) :
  has_char "/" tid = false ->
  splitext ("/tmp/processing/input_" ++ tid ++ ".bag")
  = ("/tmp/processing/input_" ++ tid, ".bag").
Proof.
  intros Hid.
  assert (Hbase : basename ("/tmp/processing/input_" ++ tid) = "input_" ++ tid).
  { unfold basename, rfind.
    change ("/tmp/processing/input_" ++ tid)
      with ("/tmp/processing" ++ String "/" ("input_" ++ tid)).
    rewrite (rfind_from_last "/" 0 "/tmp/processing" ("input_" ++ tid))
      by (simpl; exact Hid).
    reflexivity. }
  rewrite <- append_assoc.
  apply (splitext_final_extension ("/tmp/processing/input_" ++ tid) "bag");
    [reflexivity|reflexivity|].
  rewrite Hbase. reflexivity.
Qed.

(** C8. A task with action [compress], source [s3://in/data.bag] and no
    output path, run for provider [aws] with
    [AWS_DESTINATION_BUCKET=out]: the output path becomes
    [s3://out/output_<task_id>], the input is staged as
    [/tmp/processing/input_<task_id>.bag], and [compress_file] writes one
    gzip stream of the downloaded object (not a zip archive), which is
    what is then uploaded to the synthesized path. The task identifier
    has no slash, the object can be downloaded and the two staging files
    can be written. *)
Theorem compress_bag_is_gzipped_into_destination_bucket
    (w : world) (t : task) (fs : disk) :
  let tid := default "unknown" (task_id t) in
  let li := "/tmp/processing/input_" ++ tid ++ ".bag" in
  let lo := "/tmp/processing/output_" ++ tid in
  action t = Some "compress" ->
  source_path t = Some "s3://in/data.bag" ->
  nonempty (output_path t) = false ->
  getenv w "AWS_DESTINATION_BUCKET" = Some "out" ->
  has_char "/" tid = false ->
  object_readable w "s3://in/data.bag" = true ->
  writable w li = true ->
  writable w lo = true ->
  fallback_output_path w "aws" tid (action t)
    (fallback_source_path w "aws" tid (source_path t)) (output_path t)
    = Ok (Some ("s3://out/output_" ++ tid)) /\
  local_input_path tid (fallback_source_path w "aws" tid (source_path t)) = li /\
  CompressZip.compress_file w li lo (task_params t)
      (<[li := Object "s3://in/data.bag"]> fs)
    = (Ok true,
       <[lo := GzipStream (Object "s3://in/data.bag")]>
         (<[li := Object "s3://in/data.bag"]> fs), []) /\
  state_of (process_task w t "aws" fs) !! lo
    = Some (GzipStream (Object "s3://in/data.bag")) /\
  exists status,
    trace_of (process_task w t "aws" fs)
    = (Download "s3://in/data.bag" li :: Compress li lo ::
       Upload lo ("s3://out/output_" ++ tid) :: status) /\
    List.filter is_transform status = [].
Proof.
  intros tid li lo Ha Hsrc Hout Henv Hid Hread Hwi Hwo.
  assert (Hsource : fallback_source_path w "aws" tid (source_path t)
                    = Some "s3://in/data.bag").
  { unfold fallback_source_path. now rewrite Hsrc. }
  assert (Hpath : fallback_output_path w "aws" tid (action t)
                    (Some "s3://in/data.bag") (output_path t)
                  = Ok (Some ("s3://out/output_" ++ tid))).
  { unfold fallback_output_path. rewrite Hout, Ha, Henv. reflexivity. }
  assert (Hli : local_input_path tid (Some "s3://in/data.bag") = li) by reflexivity.
  assert (Hlo : local_output_path tid = lo) by reflexivity.
  assert (Hgz : CompressZip.compress_file w li lo (task_params t)
                  (<[li := Object "s3://in/data.bag"]> fs)
                = (Ok true,
                   <[lo := GzipStream (Object "s3://in/data.bag")]>
                     (<[li := Object "s3://in/data.bag"]> fs), [])).
  { apply compress_file_bag; [apply lookup_insert_eq| |exact Hwo].
    subst li. now rewrite (staged_bag_extension tid Hid). }
  assert (Hdl : StorageIO.download_file w (Some "s3://in/data.bag") li fs
                = (Ok true, <[li := Object "s3://in/data.bag"]> fs,
                   [Download "s3://in/data.bag" li])).
  { apply (download_file_ok w "s3://in/data.bag" li fs ("in", "data.bag"));
      [apply dirname_absolute|reflexivity|reflexivity|exact Hread|exact Hwi]. }
  assert (Hup : StorageIO.upload_file w lo (Some ("s3://out/output_" ++ tid))
                  (<[lo := GzipStream (Object "s3://in/data.bag")]>
                     (<[li := Object "s3://in/data.bag"]> fs))
                = (Ok (object_writable w ("s3://out/output_" ++ tid)),
                   <[lo := GzipStream (Object "s3://in/data.bag")]>
                     (<[li := Object "s3://in/data.bag"]> fs),
                   [Upload lo ("s3://out/output_" ++ tid)])).
  { eapply (upload_file_run w _ lo ("s3://out/output_" ++ tid) _ ("out", "output_" ++ tid));
      [apply lookup_insert_eq|reflexivity|reflexivity]. }
  rewrite Hsource. split; [exact Hpath|split; [exact Hli|split; [exact Hgz|]]].
  unfold process_task. cbv zeta. fold tid. rewrite Hsource, Hpath, Hli, Hlo, Ha.
  change (action_is (Some "compress") "convert_h265") with false.
  change (action_is (Some "compress") "compress") with true.
  run_eff. rewrite Hdl. run_eff. rewrite Hgz. run_eff. rewrite Hup.
  unfold StatusWriter.update_status.
  destruct (object_writable w ("s3://out/output_" ++ tid));
    destruct (String.eqb tid ""); run_eff; unfold state_of, trace_of; simpl;
    (split; [apply lookup_insert_eq|eexists; split; reflexivity]).
Qed.

Lemma compress_bag_is_gzipped_into_destination_bucket_witness :
  state_of (process_task (Examples.sunny Examples.aws_env) Examples.compress_bag "aws" ∅)
    !! "/tmp/processing/output_t8"
  = Some (GzipStream (Object "s3://in/data.bag")).
Proof.
  exact (proj1 (proj2 (proj2 (proj2
           (compress_bag_is_gzipped_into_destination_bucket
              (Examples.sunny Examples.aws_env) Examples.compress_bag ∅
              eq_refl eq_refl eq_refl eq_refl eq_refl eq_refl eq_refl eq_refl))))).
Defined.

End AppSpec.

(** * Further properties *)

(** ** More on Python strings *)

Module PyStrMore.
Import PyStr PyStrFacts.
#[local] Arguments String.append !_ _ / : simpl nomatch.

Lemma take_drop (i : nat) (s : string) : take i s ++ drop i s = s.
Proof.
  revert s. induction i as [|i IH]; intros s; [reflexivity|].
  destruct s as [|c s]; simpl; [reflexivity|]. now rewrite IH.
Qed.

(** [splitext] splits: the two parts concatenate to the path. *)
Lemma splitext_concat (p : string) : fst (splitext p) ++ snd (splitext p) = p.
Proof.
  unfold splitext. destruct (rfind "." p) as [d|]; simpl.
  - destruct (_ && _)%bool; simpl; [apply take_drop|apply append_empty_r].
  - apply append_empty_r.
Qed.

Lemma endswith_refl (s : string) : endswith s s = true.
Proof. destruct s; simpl; [reflexivity|]. now rewrite Ascii.eqb_refl, String.eqb_refl. Qed.

Lemma endswith_app (a b : string) : endswith (a ++ b) b = true.
Proof.
  induction a as [|c a IH]; simpl; [apply endswith_refl|].
  rewrite IH. apply orb_true_r.
Qed.

Lemma endswith_empty (s : string) : endswith s "" = true.
Proof.
  induction s as [|c s IH]; [reflexivity|].
  simpl. exact IH.
Qed.

Lemma endswith_inv (s p : string) :
  endswith s p = true -> exists a, s = a ++ p.
Proof.
  induction s as [|c s IH]; simpl.
  - destruct p; [exists ""; reflexivity|discriminate].
  - intros H. apply orb_true_iff in H. destruct H as [H|H].
    + exists "". simpl.
      change ((String c s =? p)%string = true) in H.
      apply String.eqb_eq in H. exact H.
    + destruct (IH H) as (a & ->). exists (String c a). reflexivity.
Qed.

(** Two suffixes of one string: one is a suffix of the other. *)
Lemma endswith_chain (s a b : string) :
  endswith s a = true -> endswith s b = true ->
  endswith a b = true \/ endswith b a = true.
Proof.
  induction s as [|c s IH]; intros Ha Hb.
  - destruct a; [|discriminate Ha]. right. apply endswith_empty.
  - change (((String c s =? a)%string || endswith s a)%bool = true) in Ha.
    change (((String c s =? b)%string || endswith s b)%bool = true) in Hb.
    apply orb_true_iff in Ha. apply orb_true_iff in Hb.
    destruct Ha as [Ha|Ha].
    + apply String.eqb_eq in Ha. subst a. left.
      change (((String c s =? b)%string || endswith s b)%bool = true).
      apply orb_true_iff. exact Hb.
    + destruct Hb as [Hb|Hb].
      * apply String.eqb_eq in Hb. subst b. right.
        change (((String c s =? a)%string || endswith s a)%bool = true).
        apply orb_true_iff. now right.
      * now apply IH.
Qed.

Lemma lower_app (a b : string) : lower (a ++ b) = lower a ++ lower b.
Proof. induction a as [|c a IH]; simpl; [reflexivity|now rewrite IH]. Qed.

Lemma endswith_lower (s p : string) :
  endswith s p = true -> endswith (lower s) (lower p) = true.
Proof.
  intros H. destruct (endswith_inv s p H) as (a & ->).
  rewrite lower_app. apply endswith_app.
Qed.

Lemma lower_ascii_idempotent (c : ascii) : lower_ascii (lower_ascii c) = lower_ascii c.
Proof. destruct c as [[] [] [] [] [] [] [] []]; reflexivity. Qed.

Lemma lower_idempotent (s : string) : lower (lower s) = lower s.
Proof.
  induction s as [|c s IH]; simpl; [reflexivity|].
  now rewrite lower_ascii_idempotent, IH.
Qed.

Lemma has_char_app_split c (a b : string) :
  has_char c (a ++ b) = (has_char c a || has_char c b)%bool.
Proof.
  induction a as [|x a IH]; simpl; [reflexivity|].
  rewrite IH. now rewrite orb_assoc.
Qed.

Lemma has_char_drop c (k : nat) (s : string) :
  has_char c s = false -> has_char c (drop k s) = false.
Proof.
  revert s. induction k as [|k IH]; intros s H; [exact H|].
  destruct s as [|a s]; simpl in *; [reflexivity|].
  apply orb_false_iff in H. apply IH, H.
Qed.

Lemma drop_past (a : string) c (b : string) :
  drop (S (String.length a)) (a ++ String c b) = b.
Proof. induction a as [|x a IH]; simpl; [reflexivity|exact IH]. Qed.

(** Where [rfind] points: the character is there and does not occur
    after it. *)
Lemma rfind_from_spec c (i : nat) (s : string) (j : nat) :
  rfind_from c i s = Some j ->
  exists a b, s = a ++ String c b /\ has_char c b = false /\ j = (i + String.length a)%nat.
Proof.
  revert i j. induction s as [|x s IH]; intros i j; simpl; [discriminate|].
  destruct (rfind_from c (S i) s) as [k|] eqn:E.
  - intros [= <-]. destruct (IH (S i) k E) as (a & b & -> & Hb & ->).
    exists (String x a), b. repeat split; [exact Hb|simpl; lia].
  - destruct (Ascii.eqb x c) eqn:Ex; [|discriminate]. intros [= <-].
    apply Ascii.eqb_eq in Ex. subst x. exists "", s. repeat split.
    + destruct (has_char c s) eqn:Hs; [|reflexivity].
      assert (Hcontra : forall n, rfind_from c n s <> None).
      { clear E IH. induction s as [|y s IHs]; [discriminate|].
        intros n. simpl in *. apply orb_true_iff in Hs.
        destruct (rfind_from c (S n) s) eqn:E2; [discriminate|].
        destruct Hs as [Hy|Hs]; [now rewrite Hy|].
        exfalso. exact (IHs Hs (S n) E2). }
      exfalso. exact (Hcontra (S i) E).
    + simpl. lia.
Qed.

Lemma rfind_from_none_absent c (i : nat) (s : string) :
  rfind_from c i s = None -> has_char c s = false.
Proof.
  revert i. induction s as [|x s IH]; intros i; simpl; [reflexivity|].
  destruct (rfind_from c (S i) s) eqn:E; [discriminate|].
  destruct (Ascii.eqb x c); [discriminate|]. intros _. simpl. exact (IH _ E).
Qed.

(** The shape of an extension: empty, or a dot followed by characters
    that are neither dots nor slashes. *)
Lemma splitext_extension_shape (p : string) :
  snd (splitext p) = "" \/
  exists b, snd (splitext p) = String "." b /\
            has_char "." b = false /\ has_char "/" b = false.
Proof.
  unfold splitext, rfind.
  destruct (rfind_from "." 0 p) as [d|] eqn:Ed; [|now left].
  destruct (_ && _)%bool eqn:Hc; [|now left]. right.
  apply andb_true_iff in Hc. destruct Hc as [Hle _]. apply Nat.leb_le in Hle.
  destruct (rfind_from_spec "." 0 p d Ed) as (a & b & Hp & Hb & Hd).
  simpl in Hd. subst d.
  exists b. simpl snd. rewrite Hp, drop_app_exact. repeat split; [exact Hb|].
  destruct (rfind_from "/" 0 p) as [k|] eqn:Ek.
  - destruct (rfind_from_spec "/" 0 p k Ek) as (a' & b' & Hp' & Hb' & Hk).
    simpl in Hk. subst k.
    assert (Hdrop : drop (S (String.length a)) p = b).
    { rewrite Hp. apply drop_past. }
    assert (Hdrop' : drop (S (String.length a)) p
                     = drop (String.length a - String.length a') b').
    { rewrite Hp'. clear - Hle.
      revert a Hle. induction a' as [|x a' IH]; intros a Hle.
      - simpl. now rewrite Nat.sub_0_r.
      - destruct a as [|y a]; simpl in Hle; [lia|].
        simpl. apply (IH a). simpl. lia. }
    rewrite <- Hdrop, Hdrop'. now apply has_char_drop.
  - apply rfind_from_none_absent in Ek. rewrite Hp in Ek.
    rewrite has_char_app_split in Ek. apply orb_false_iff in Ek.
    destruct Ek as [_ Ek]. simpl in Ek. exact Ek.
Qed.

End PyStrMore.

(** ** More on format detection *)

Module FormatDetectMore.
Import PyStr PyStrFacts PyStrMore FormatDetect.

(** A path whose lower-cased extension is [v] does not end in a suffix
    that [v] neither ends with nor is the end of. *)
Lemma extension_excludes_suffix (p v sfx : string) :
  lower (snd (splitext p)) = v ->
  lower sfx = sfx ->
  endswith v sfx = false ->
  endswith sfx v = false ->
  endswith p sfx = false.
Proof.
  intros Hv Hs H1 H2.
  destruct (endswith p sfx) eqn:E; [|reflexivity].
  assert (Hext : endswith p (snd (splitext p)) = true).
  { rewrite <- (splitext_concat p) at 1. apply endswith_app. }
  destruct (endswith_chain p _ _ Hext E) as [H|H];
    apply endswith_lower in H; rewrite Hv, Hs in H; congruence.
Qed.

Lemma member_inv (x : string) (l : list string) :
  member x l = true -> In x l.
Proof.
  unfold member. intros H. apply existsb_exists in H.
  destruct H as (y & Hy & E). apply String.eqb_eq in E. now subst.
Qed.

(** None of the special formats is recognised for a path whose extension
    is [v], when [v] is unrelated to their four suffixes. *)
Lemma no_special_format (w : world) (p v : string) :
  lower (snd (splitext p)) = v ->
  (forall sfx, In sfx [".bag"; ".mcap"; ".h5"; ".hdf5"] ->
     endswith v sfx = false /\ endswith sfx v = false) ->
  is_rosbag w p = false /\ is_mcap w p = false /\ is_hdf5 w p = false.
Proof.
  intros Hv Hall.
  assert (Hs : forall sfx, In sfx [".bag"; ".mcap"; ".h5"; ".hdf5"] ->
                 lower sfx = sfx -> endswith p sfx = false).
  { intros sfx Hin Hl. destruct (Hall sfx Hin) as [H1 H2].
    exact (extension_excludes_suffix p v sfx Hv Hl H1 H2). }
  unfold is_rosbag, is_mcap, is_hdf5.
  rewrite (Hs ".bag"), (Hs ".mcap"), (Hs ".h5"), (Hs ".hdf5");
    try reflexivity; simpl; tauto.
Qed.

Ltac unrelated_suffixes :=
  let sfx := fresh "sfx" in
  let H := fresh "H" in
  intros sfx H; simpl in H;
  repeat (destruct H as [<-|H]; [split; reflexivity|]); destruct H.

(** X1. A [.bag] or [.mcap] file is recognised by its name and by the
    presence of the reader library, and by nothing else. The test on the
    name is case-sensitive. *)
Theorem rosbag_and_mcap_by_name_and_library (w : world) (fs : disk) (p : string) :
  path_exists fs p = true ->
  (type (detect_format w fs p) = Rosbag
     <-> endswith p ".bag" = true /\ has_rosbags w = true) /\
  (type (detect_format w fs p) = Mcap
     <-> endswith p ".mcap" = true /\ has_mcap w = true).
Proof.
  intros Hex. unfold detect_format. rewrite Hex. cbv [negb].
  assert (Hexcl : endswith p ".mcap" = true -> endswith p ".bag" = true -> False).
  { intros Hm Hb. destruct (endswith_chain p _ _ Hm Hb) as [H|H]; discriminate H. }
  unfold is_rosbag, is_mcap.
  destruct (endswith p ".bag") eqn:Hb, (endswith p ".mcap") eqn:Hm;
    try (exfalso; exact (Hexcl eq_refl eq_refl));
    destruct (has_rosbags w), (has_mcap w);
    repeat match goal with
           | |- context [if ?b then _ else _] => destruct b
           end;
    cbn [type]; split; split; intros H;
    try discriminate H; try (destruct H; discriminate);
    try (split; reflexivity); try reflexivity.
Qed.

Lemma rosbag_and_mcap_by_name_and_library_witness :
  type (detect_format (Examples.broken_bag ∅)
          {[ "/data/scan.bag" := Object "s3://in/scan.bag" ]} "/data/scan.bag")
  = Rosbag.
Proof.
  assert (Hex : path_exists {[ "/data/scan.bag" := Object "s3://in/scan.bag" ]}
                  "/data/scan.bag" = true) by reflexivity.
  exact (proj2 (proj1 (rosbag_and_mcap_by_name_and_library (Examples.broken_bag ∅)
                         {[ "/data/scan.bag" := Object "s3://in/scan.bag" ]}
                         "/data/scan.bag" Hex))
           (conj eq_refl eq_refl)).
Defined.

(** X2. Unlike a ROS bag, an HDF5 file is verified by opening it. A file
    whose name ends in [.h5] or [.hdf5] is classified [hdf5] exactly when
    it opens, if [h5py] can be imported; without [h5py] the name alone
    decides. *)
Theorem hdf5_is_verified_by_opening (w : world) (fs : disk) (p : string) :
  path_exists fs p = true ->
  (endswith p ".h5" || endswith p ".hdf5")%bool = true ->
  (has_h5py w = true ->
     (type (detect_format w fs p) = Hdf5 <-> h5_opens w p = true)) /\
  (has_h5py w = false -> type (detect_format w fs p) = Hdf5).
Proof.
  intros Hex Hname. unfold detect_format. rewrite Hex. cbv [negb].
  assert (Hbag : endswith p ".bag" = false).
  { destruct (endswith p ".bag") eqn:Hb; [|reflexivity].
    apply orb_true_iff in Hname.
    destruct Hname as [H|H];
      destruct (endswith_chain p _ _ H Hb) as [H'|H']; discriminate H'. }
  assert (Hmcap : endswith p ".mcap" = false).
  { destruct (endswith p ".mcap") eqn:Hb; [|reflexivity].
    apply orb_true_iff in Hname.
    destruct Hname as [H|H];
      destruct (endswith_chain p _ _ H Hb) as [H'|H']; discriminate H'. }
  unfold is_rosbag, is_mcap, is_hdf5. rewrite Hbag, Hmcap, Hname.
  split; intros Hlib; rewrite Hlib; [|reflexivity].
  destruct (h5_opens w p).
  - split; reflexivity.
  - split; [|discriminate].
    destruct (is_video w p); [discriminate|].
    destruct (is_image p); [discriminate|].
    destruct (is_archive p); discriminate.
Qed.

Lemma hdf5_is_verified_by_opening_witness :
  type (detect_format (Examples.sunny ∅)
          {[ "/data/run.h5" := Object "s3://in/run.h5" ]} "/data/run.h5") = Hdf5.
Proof.
  assert (Hex : path_exists {[ "/data/run.h5" := Object "s3://in/run.h5" ]}
                  "/data/run.h5" = true) by reflexivity.
  exact (proj2 (proj1 (hdf5_is_verified_by_opening (Examples.sunny ∅)
                         {[ "/data/run.h5" := Object "s3://in/run.h5" ]}
                         "/data/run.h5" Hex eq_refl) eq_refl) eq_refl).
Defined.

(** X3. A file with one of the video extensions, in any letter case, is
    classified [video] whatever libraries are installed and whatever the
    probe says; the probe is not needed for it. *)
Theorem video_extension_is_video (w : world) (fs : disk) (p : string) :
  path_exists fs p = true ->
  member (lower (snd (splitext p))) video_extensions = true ->
  type (detect_format w fs p) = Video /\
  extension (detect_format w fs p) = lower (snd (splitext p)).
Proof.
  intros Hex Hv.
  assert (Hno : is_rosbag w p = false /\ is_mcap w p = false /\ is_hdf5 w p = false).
  { apply member_inv in Hv. simpl in Hv.
    repeat (destruct Hv as [Hv|Hv];
            [apply (no_special_format w p _ (eq_sym Hv)); unrelated_suffixes|]).
    destruct Hv. }
  destruct Hno as (H1 & H2 & H3).
  unfold detect_format. rewrite Hex. cbv [negb]. rewrite H1, H2, H3.
  unfold is_video. rewrite Hv. split; reflexivity.
Qed.

Lemma video_extension_is_video_witness :
  type (detect_format (Examples.broken_bag ∅)
          {[ "/data/Clip.MOV" := Object "s3://in/Clip.MOV" ]} "/data/Clip.MOV") = Video.
Proof.
  assert (Hex : path_exists {[ "/data/Clip.MOV" := Object "s3://in/Clip.MOV" ]}
                  "/data/Clip.MOV" = true) by reflexivity.
  exact (proj1 (video_extension_is_video (Examples.broken_bag ∅)
                  {[ "/data/Clip.MOV" := Object "s3://in/Clip.MOV" ]}
                  "/data/Clip.MOV" Hex eq_refl)).
Defined.

(** X4. The probe comes before the image and archive extensions. A file
    with an image extension is classified [image], and one with an
    archive extension [archive], only if [ffprobe] does not report a
    video stream for it; otherwise it is classified [video]. *)
Theorem probe_overrides_image_and_archive (w : world) (fs : disk) (p : string) :
  path_exists fs p = true ->
  (member (lower (snd (splitext p))) image_extensions = true ->
     type (detect_format w fs p) = (if ffprobe_video w p then Video else Image)) /\
  (member (lower (snd (splitext p))) archive_extensions = true ->
     type (detect_format w fs p) = (if ffprobe_video w p then Video else Archive)).
Proof.
  intros Hex. split; intros Hm.
  - assert (Hno : is_rosbag w p = false /\ is_mcap w p = false /\ is_hdf5 w p = false
                  /\ member (lower (snd (splitext p))) video_extensions = false).
    { pose proof Hm as Hin. apply member_inv in Hin. simpl in Hin.
      repeat (destruct Hin as [Hin|Hin];
              [rewrite <- Hin;
               pose proof (no_special_format w p _ (eq_sym Hin)) as Hs;
               destruct Hs as (?&?&?); [unrelated_suffixes|];
               repeat split; (assumption || reflexivity)|]).
      destruct Hin. }
    destruct Hno as (H1 & H2 & H3 & H4).
    unfold detect_format. rewrite Hex. cbv [negb]. rewrite H1, H2, H3.
    unfold is_video, is_image. rewrite H4, Hm.
    destruct (ffprobe_video w p); reflexivity.
  - assert (Hno : is_rosbag w p = false /\ is_mcap w p = false /\ is_hdf5 w p = false
                  /\ member (lower (snd (splitext p))) video_extensions = false
                  /\ member (lower (snd (splitext p))) image_extensions = false).
    { pose proof Hm as Hin. apply member_inv in Hin. simpl in Hin.
      repeat (destruct Hin as [Hin|Hin];
              [rewrite <- Hin;
               pose proof (no_special_format w p _ (eq_sym Hin)) as Hs;
               destruct Hs as (?&?&?); [unrelated_suffixes|];
               repeat split; (assumption || reflexivity)|]).
      destruct Hin. }
    destruct Hno as (H1 & H2 & H3 & H4 & H5).
    unfold detect_format. rewrite Hex. cbv [negb]. rewrite H1, H2, H3.
    unfold is_video, is_image, is_archive. rewrite H4, H5, Hm.
    destruct (ffprobe_video w p); reflexivity.
Qed.

Lemma probe_overrides_image_and_archive_witness :
  type (detect_format (Examples.sunny ∅)
          {[ "/data/photo.png" := Object "s3://in/photo.png" ]} "/data/photo.png") = Image.
Proof.
  assert (Hex : path_exists {[ "/data/photo.png" := Object "s3://in/photo.png" ]}
                  "/data/photo.png" = true) by reflexivity.
  exact (proj1 (probe_overrides_image_and_archive (Examples.sunny ∅)
                  {[ "/data/photo.png" := Object "s3://in/photo.png" ]}
                  "/data/photo.png" Hex) eq_refl).
Defined.

End FormatDetectMore.

(** ** More on compression *)

Module CompressMore.
Import PyStr PyStrFacts PyStrMore FormatDetect AppSpec.

(** What [compress_file] does with a file holding [c]. *)
Lemma compress_file_run (w : world) input output p (fs : disk) c :
  fs !! input = Some c ->
  let level := default 6 (compression_level p) in
  CompressZip.compress_file w input output p fs
  = if writable w output
    then
      if String.eqb (lower (snd (splitext input))) ".bag"
      then (Ok true, <[output := GzipStream c]> fs, [])
      else if CompressZip.level_accepted level
      then (Ok true, <[output := ZipArchive level [(basename input, c)]]> fs, [])
      else (Ok false, <[output := ZipArchive level []]> fs, [])
    else (Ok false, fs, []).
Proof.
  intros Hc level. subst level.
  unfold CompressZip.compress_file, CompressZip.setpassword. run_eff.
  rewrite (path_exists_lookup _ _ _ Hc). run_eff.
  rewrite (FormatDetectSpec.detect_format_extension w fs input
             (path_exists_lookup _ _ _ Hc)), lower_idempotent.
  destruct (String.eqb (lower (snd (splitext input))) ".bag");
    run_eff; rewrite Hc; run_eff; destruct (writable w output); run_eff;
    try reflexivity.
  destruct (nonempty (password p)); run_eff;
    (destruct (CompressZip.level_accepted _); run_eff; [|reflexivity]);
    rewrite path_exists_insert, insert_insert_eq; reflexivity.
Qed.

(** X5. [compress_file] never raises. For an input path that is not a
    directory and an output path other than the input, it succeeds
    exactly when the input exists, the output can be written and, unless
    the input is a [.bag] file, the compression level is one [zlib]
    accepts (-1 to 9, 6 when [compression_level] is absent). The output
    is then one gzip stream of the input if the extension of the input is
    [.bag] in any letter case, and otherwise a zip archive whose only
    entry is named after the input file. *)
Theorem compress_file_outcome (w : world) input output p (fs : disk) :
  output <> input ->
  let level := default 6 (compression_level p) in
  let is_bag := String.eqb (lower (snd (splitext input))) ".bag" in
  exists b fs',
    CompressZip.compress_file w input output p fs = (Ok b, fs', []) /\
    (b = true <->
     path_exists fs input = true /\ writable w output = true /\
     (is_bag || CompressZip.level_accepted level)%bool = true) /\
    (b = true ->
       exists c, fs !! input = Some c /\
         fs' = <[output := if is_bag then GzipStream c
                           else ZipArchive level [(basename input, c)]]> fs).
Proof.
  intros _ level is_bag.
  destruct (fs !! input) as [c|] eqn:Hc.
  - rewrite (compress_file_run w input output p fs c Hc). fold level. fold is_bag.
    assert (Hex := path_exists_lookup _ _ _ Hc).
    destruct (writable w output).
    + destruct is_bag; [|destruct (CompressZip.level_accepted level)];
        (eexists _, _; split; [reflexivity|]; split; [split|]);
        try discriminate; try (intros _; repeat split; assumption);
        try (intros (_ & _ & H); discriminate H);
        intros _; exists c; split; reflexivity.
    + eexists _, _. split; [reflexivity|]. split; [split|]; try discriminate.
      intros (_ & H & _). discriminate H.
  - unfold CompressZip.compress_file. run_eff.
    unfold path_exists. rewrite Hc. run_eff.
    eexists _, _. split; [reflexivity|]. split; [split|]; try discriminate.
    intros (H & _). discriminate H.
Qed.

Lemma compress_file_outcome_witness :
  exists b fs',
    CompressZip.compress_file (Examples.sunny ∅) "/tmp/processing/input_t1.TXT"
      "/tmp/processing/output_t1" no_params
      {[ "/tmp/processing/input_t1.TXT" := Object "s3://in/NOTES.TXT" ]}
    = (Ok b, fs', []) /\ b = true.
Proof.
  assert (Hne : "/tmp/processing/output_t1" <> "/tmp/processing/input_t1.TXT")
    by discriminate.
  destruct (compress_file_outcome (Examples.sunny ∅) "/tmp/processing/input_t1.TXT"
              "/tmp/processing/output_t1" no_params
              {[ "/tmp/processing/input_t1.TXT" := Object "s3://in/NOTES.TXT" ]} Hne)
    as (b & fs' & E & Hb & _).
  exists b, fs'. split; [exact E|].
  apply Hb. repeat split; reflexivity.
Defined.

(** X6. Listing what was just compressed. After [compress_file] has run
    on an input that is not a [.bag] file, with a writable output other
    than the input, [list_zip_contents] of the output gives exactly one
    entry, the base name of the input, when the compression level is one
    [zlib] accepts; for any other level the entry could not be written
    and the listing is empty. *)
Theorem compress_then_list (w : world) input output p (fs : disk) c :
  fs !! input = Some c ->
  output <> input ->
  writable w output = true ->
  String.eqb (lower (snd (splitext input))) ".bag" = false ->
  result_of (bind (CompressZip.compress_file w input output p)
               (fun _ => CompressZip.list_zip_contents output) fs)
  = Ok (if CompressZip.level_accepted (default 6 (compression_level p))
        then [basename input] else []).
Proof.
  intros Hc _ Hw Hext. unfold bind.
  rewrite (compress_file_run w input output p fs c Hc), Hw, Hext.
  unfold CompressZip.list_zip_contents. run_eff.
  destruct (CompressZip.level_accepted _); now rewrite lookup_insert_eq.
Qed.

Lemma compress_then_list_witness :
  result_of (bind (CompressZip.compress_file (Examples.sunny ∅)
                     "/tmp/processing/input_t1.txt" "/tmp/processing/output_t1"
                     Examples.level_ten)
               (fun _ => CompressZip.list_zip_contents "/tmp/processing/output_t1")
               {[ "/tmp/processing/input_t1.txt" := Object "s3://in/notes.txt" ]})
  = Ok [].
Proof.
  assert (Hne : "/tmp/processing/output_t1" <> "/tmp/processing/input_t1.txt")
    by discriminate.
  exact (compress_then_list (Examples.sunny ∅)
           "/tmp/processing/input_t1.txt" "/tmp/processing/output_t1" Examples.level_ten
           {[ "/tmp/processing/input_t1.txt" := Object "s3://in/notes.txt" ]}
           (Object "s3://in/notes.txt") eq_refl Hne eq_refl eq_refl).
Defined.

End CompressMore.

(** ** More on renaming *)

Module RenameMore.
Import PyStr PyStrFacts PyStrMore FormatDetect RenameFile AppSpec.
#[local] Arguments String.append !_ _ / : simpl nomatch.

(** [rename_file] never raises and makes no call. *)
Lemma rename_file_cases (w : world) input output p (fs : disk) :
  exists b fs', rename_file w input output p fs = (Ok b, fs', []).
Proof.
  unfold rename_file. run_eff.
  destruct (path_exists fs input) eqn:Hex; run_eff; [|eauto].
  match goal with
  | |- context [String.eqb (dirname ?f) ""] => generalize f; intros final
  end.
  destruct (String.eqb (dirname final) ""); run_eff; [eauto|].
  destruct (String.eqb (default "copy" (mode p)) "copy"); run_eff;
    (destruct (String.eqb final input); run_eff;
     [try (destruct (path_exists fs final)); eauto|]);
    (destruct (fs !! input); run_eff; [|eauto]);
    (destruct (writable w final); run_eff; [|eauto]);
    match goal with
    | |- context [path_exists ?s final] => destruct (path_exists s final); eauto
    end.
Qed.



(** X8. [rename_file] never raises and makes no call of the object or
    status store. A missing input is a failure that leaves the disk as it
    was, and the call returns [True] only when the file it was to write
    (the output path, or the name given by the pattern in the directory
    of the output path) exists afterwards. *)
Theorem rename_file_fails_cleanly (w : world) input output p (fs : disk) :
  let final :=
    if negb (String.eqb (default "" (pattern p)) "")
    then join (dirname output)
           (process_pattern w (default "" (pattern p)) input (metadata p)
              (default "%Y%m%d_%H%M%S" (timestamp_format p)))
    else output in
  exists b fs',
    rename_file w input output p fs = (Ok b, fs', []) /\
    (path_exists fs input = false -> b = false /\ fs' = fs) /\
    (b = true -> path_exists fs input = true /\ path_exists fs' final = true).
Proof.
  intros final. subst final.
  unfold rename_file. run_eff.
  destruct (path_exists fs input) eqn:Hex; run_eff.
  2:{ eexists _, _. split; [reflexivity|]. split; [now split|discriminate]. }
  unfold path_exists in Hex. destruct (fs !! input) as [c|] eqn:Hc; [|discriminate].
  match goal with
  | |- context [String.eqb (dirname ?f) ""] => set (final := f)
  end.
  clearbody final.
  destruct (String.eqb (dirname final) ""); run_eff;
    [eexists _, _; split; [reflexivity|]; split; discriminate|].
  destruct (String.eqb (default "copy" (mode p)) "copy"); run_eff.
  - destruct (String.eqb final input) eqn:Hsame; run_eff;
      [eexists _, _; split; [reflexivity|]; split; discriminate|].
    rewrite Hc; run_eff. destruct (writable w final); run_eff;
      [|eexists _, _; split; [reflexivity|]; split; discriminate].
    rewrite path_exists_insert. run_eff.
    eexists _, _. split; [reflexivity|]. split; [discriminate|].
    intros _. split; [reflexivity|apply path_exists_insert].
  - destruct (String.eqb final input) eqn:Hsame; run_eff.
    + apply String.eqb_eq in Hsame. rewrite Hsame.
      rewrite (path_exists_lookup _ _ _ Hc). run_eff.
      eexists _, _. split; [reflexivity|]. split; [discriminate|].
      intros _. split; [reflexivity|exact (path_exists_lookup _ _ _ Hc)].
    + rewrite Hc; run_eff. destruct (writable w final); run_eff;
        [|eexists _, _; split; [reflexivity|]; split; discriminate].
      assert (Hex' : path_exists (delete input (<[final := c]> fs)) final = true)
        by (apply String.eqb_neq in Hsame; unfold path_exists;
            rewrite lookup_delete_ne by congruence; now rewrite lookup_insert_eq).
      rewrite Hex'. run_eff.
      eexists _, _. split; [reflexivity|]. split; [discriminate|].
      intros _. split; [reflexivity|exact Hex'].
Qed.

Lemma builtin_placeholders (w : world) input (metadata : list (string * string)) tf :
  Forall (fun pr : string * string => exists x, fst pr = String "{" x)
    (replacements w input metadata tf).
Proof.
  unfold replacements. apply Forall_app. split.
  - repeat constructor; simpl; eexists; reflexivity.
  - apply RenameSpec.meta_placeholders.
Qed.

(** X9. A pattern without placeholders is taken literally. If it has no
    dot in its last component and the input has an extension, that
    extension is appended; otherwise the pattern is the new name as it
    stands. *)
Theorem literal_pattern_is_kept (w : world) (pattern input : string)
    (metadata : list (string * string)) (tf : string) :
  has_char "{" pattern = false ->
  let ext := snd (splitext (basename input)) in
  process_pattern w pattern input metadata tf
  = if (negb (endswith pattern ext) && negb (has_char "." (basename pattern))
        && negb (String.eqb ext ""))%bool
    then pattern ++ ext else pattern.
Proof.
  intros Hp ext. unfold process_pattern.
  rewrite (RenameSpec.substitute_braceless pattern _ Hp
             (builtin_placeholders w input metadata tf)).
  reflexivity.
Qed.

Lemma literal_pattern_is_kept_witness :
  process_pattern (Examples.sunny ∅) "summary" "/tmp/processing/input_t1.csv" []
    "%Y%m%d" = "summary.csv".
Proof.
  exact (literal_pattern_is_kept (Examples.sunny ∅) "summary"
           "/tmp/processing/input_t1.csv" [] "%Y%m%d" eq_refl).
Defined.

Lemma replace_filename (name : string) : replace "{filename}" name "{filename}" = name.
Proof.
  unfold replace. cbn -[String.append].
  destruct (ascii_dec "{" "{") as [_|H]; [|congruence].
  repeat match goal with
         | |- context [ascii_dec ?a ?b] =>
             destruct (ascii_dec a b) as [_|?]; [|congruence]
         end.
  cbn -[String.append]. apply append_empty_r.
Qed.

Lemma substitute_absent (s x v : string) :
  has_char "{" s = false -> substitute s (String "{" x, v) = s.
Proof. intros H. unfold substitute. simpl fst. simpl snd. now apply replace_absent. Qed.

(** X10. The pattern [{filename}] gives back the name of the input file,
    extension included and not doubled, when that name contains no
    opening brace. *)
Theorem filename_pattern_is_identity (w : world) (input : string)
    (metadata : list (string * string)) (tf : string) :
  has_char "{" (basename input) = false ->
  process_pattern w "{filename}" input metadata tf = basename input.
Proof.
  intros Hname. unfold process_pattern.
  assert (Hfold : fold_left substitute (replacements w input metadata tf) "{filename}"
                  = basename input).
  { unfold replacements. rewrite fold_left_app. cbn [fold_left].
    change (substitute "{filename}" ("{filename}", basename input))
      with (replace "{filename}" (basename input) "{filename}").
    rewrite replace_filename.
    repeat rewrite (substitute_absent _ _ _ Hname).
    apply RenameSpec.substitute_braceless; [exact Hname|].
    apply RenameSpec.meta_placeholders. }
  rewrite Hfold.
  assert (Hends : endswith (basename input) (snd (splitext (basename input))) = true).
  { rewrite <- (splitext_concat (basename input)) at 1. apply endswith_app. }
  rewrite Hends. reflexivity.
Qed.

Lemma filename_pattern_is_identity_witness :
  process_pattern (Examples.sunny ∅) "{filename}" "/tmp/processing/input_t1.csv" []
    "%Y%m%d" = "input_t1.csv".
Proof.
  exact (filename_pattern_is_identity (Examples.sunny ∅)
           "/tmp/processing/input_t1.csv" [] "%Y%m%d" eq_refl).
Defined.

Lemma result_for_record_eq k v results :
  result_for k (record_result k v results) = Some v.
Proof.
  induction results as [|[k' v'] rest IH]; simpl.
  - now rewrite String.eqb_refl.
  - destruct (String.eqb k' k) eqn:E; simpl.
    + now rewrite String.eqb_refl.
    + now rewrite E.
Qed.

Lemma result_for_record_ne k k0 v results :
  k0 <> k -> result_for k0 (record_result k v results) = result_for k0 results.
Proof.
  intros Hne. induction results as [|[k' v'] rest IH]; simpl.
  - now rewrite (eqb_neq k k0) by congruence.
  - destruct (String.eqb k' k) eqn:E; simpl.
    + apply String.eqb_eq in E. subst k'.
      now rewrite (eqb_neq k k0) by congruence.
    + destruct (String.eqb k' k0); [reflexivity|exact IH].
Qed.

Lemma result_for_in k results :
  In k (map fst results) <-> exists v, result_for k results = Some v.
Proof.
  induction results as [|[k' v'] rest IH]; simpl.
  - split; [tauto|intros (v & H); discriminate].
  - destruct (String.eqb k' k) eqn:E.
    + apply String.eqb_eq in E. split; [eauto|tauto].
    + apply String.eqb_neq in E. rewrite <- IH. tauto.
Qed.

Lemma record_result_keys k v results :
  List.NoDup (map fst results) -> List.NoDup (map fst (record_result k v results)).
Proof.
  induction results as [|[k' v'] rest IH]; simpl; intros Hnd.
  - constructor; [tauto|constructor].
  - inversion Hnd as [|? ? Hnotin Hrest]; subst.
    destruct (String.eqb k' k) eqn:E; simpl.
    + apply String.eqb_eq in E. subst k'. now constructor.
    + apply String.eqb_neq in E. constructor; [|exact (IH Hrest)].
      intros Hin. apply result_for_in in Hin. destruct Hin as (x & Hx).
      rewrite result_for_record_ne in Hx by congruence.
      apply Hnotin. apply result_for_in. eauto.
Qed.

Lemma batch_loop_verdicts (w : world) (paths : list string) (dir : string) (p : params) :
  forall (results : list (string * bool)) (fs : disk),
  exists results' fs',
    batch_loop w paths dir p results fs = (Ok results', fs', []) /\
    (forall k, In k (map fst results') <-> In k (map fst results) \/ In k paths) /\
    (List.NoDup (map fst results) -> List.NoDup (map fst results')).
Proof.
  induction paths as [|path rest IH]; intros results fs.
  - exists results, fs. split; [reflexivity|]. split; [simpl; tauto|tauto].
  - assert (Hstep : forall v (fs1 : disk),
      exists results' fs',
        batch_loop w rest dir p (record_result path v results) fs1
          = (Ok results', fs', []) /\
        (forall k, In k (map fst results') <-> In k (map fst results) \/ In k (path :: rest)) /\
        (List.NoDup (map fst results) -> List.NoDup (map fst results'))).
    { intros v fs1.
      destruct (IH (record_result path v results) fs1) as (r' & fs' & E & Hk & Hnd).
      exists r', fs'. split; [exact E|]. split.
      - intros k. rewrite Hk. simpl.
        rewrite !result_for_in.
        destruct (string_dec k path) as [->|Hne].
        + rewrite result_for_record_eq. split; [tauto|eauto].
        + rewrite result_for_record_ne by exact Hne.
          split; [tauto|]. intros [H|[H|H]]; [tauto|congruence|tauto].
      - intros H. apply Hnd. now apply record_result_keys. }
    simpl. run_eff.
    destruct (path_exists fs path).
    + run_eff.
      destruct (rename_file_cases w path (join dir (basename path)) p fs)
        as (b & fs1 & E).
      rewrite E.
      destruct (Hstep b fs1) as (r' & fs' & E' & H1 & H2).
      rewrite E'. exists r', fs'. split; [reflexivity|]. split; assumption.
    + run_eff.
      destruct (Hstep false fs) as (r' & fs' & E' & H1 & H2).
      rewrite E'. exists r', fs'. split; [reflexivity|]. split; assumption.
Qed.

(** X11. [batch_rename] never raises and gives every input path one
    verdict: the keys of the result are exactly the given paths, each
    once, however often a path was given. *)
Theorem batch_rename_gives_each_path_one_verdict
    (w : world) (file_paths : list string) (output_dir pattern : string)
    (p : params) (fs : disk) :
  exists results fs',
    batch_rename w file_paths output_dir pattern p fs = (Ok results, fs', []) /\
    (forall k, In k file_paths <-> exists v, result_for k results = Some v) /\
    List.NoDup (map fst results).
Proof.
  unfold batch_rename.
  destruct (batch_loop_verdicts w file_paths output_dir
              {| mode := mode p; pattern := Some pattern; metadata := metadata p;
                 timestamp_format := timestamp_format p;
                 compression_level := compression_level p;
                 password := password p |} [] fs)
    as (r & fs' & E & Hk & Hnd).
  exists r, fs'. split; [exact E|]. split.
  - intros k. rewrite <- result_for_in, Hk. simpl. tauto.
  - apply Hnd. constructor.
Qed.

End RenameMore.

(** ** More on the DLQ reprocessor *)

Module ReprocessorMore.
Import PyStr Reprocessor ReprocessorSpec.

(** X12. Without an explicit [error_type] in the payload, the only
    classification that can lead to a retry is [TIMEOUT_ERROR]: the text
    of the message then contains "timeout" and contains neither "access
    denied" nor "not found", in any letter case. The other three
    retriable types can only come from the payload itself. *)
Theorem inferred_retry_needs_timeout (kvs : list (string * json)) (m : message) et :
  Json.lookup "error_type" kvs = None ->
  get_error_type (JObj kvs) m = Ok et ->
  is_retriable_error et = true ->
  et = JStr "TIMEOUT_ERROR" /\
  contains "timeout" (lower (Text m)) = true /\
  contains "access denied" (lower (Text m)) = false /\
  contains "not found" (lower (Text m)) = false.
Proof.
  intros Hno. unfold get_error_type. rewrite Hno.
  destruct (Json.get (JObj kvs) "original_message" (JObj [])) as [ob|]; [|discriminate].
  destruct (Json.get ob "source_path" (JStr "")) as [sp|]; [|discriminate].
  destruct (contains "access denied" (lower (Text m))); [intros [= <-]; discriminate|].
  destruct (contains "not found" (lower (Text m))); [intros [= <-]; discriminate|].
  destruct (startswith_value sp "s3://") as [s3|]; [|discriminate].
  destruct (s3 && contains "NoSuchKey" (Text m))%bool; [intros [= <-]; discriminate|].
  destruct (startswith_value sp "gs://") as [gs|]; [|discriminate].
  destruct (gs && contains "does not exist" (Text m))%bool; [intros [= <-]; discriminate|].
  destruct (contains "timeout" (lower (Text m))); intros [= <-]; [|discriminate].
  intros _. repeat split.
Qed.

Lemma inferred_retry_needs_timeout_witness :
  get_error_type (JObj [("task_id", JStr "task-7")]) Examples.timed_out
  = Ok (JStr "TIMEOUT_ERROR") /\
  contains "timeout" (lower (Text Examples.timed_out)) = true.
Proof.
  split; [reflexivity|].
  exact (proj1 (proj2 (inferred_retry_needs_timeout [("task_id", JStr "task-7")]
                         Examples.timed_out (JStr "TIMEOUT_ERROR")
                         eq_refl eq_refl eq_refl))).
Defined.

(** X13. A message that carries a [task_id] but cannot be classified stays
    in the dead-letter queue untouched: when its receive count cannot
    be read as a number, or when it has no [error_type] and its
    [original_message] is not an object, no call at all is made for it,
    not even the deletion, and the handler goes on. *)
Theorem unclassifiable_message_is_left_alone (m : message) (kvs : list (string * json)) tid :
  Body m = Ok (JObj kvs) ->
  Json.lookup "task_id" kvs = Some tid ->
  Json.truthy tid = true ->
  (forall e, approximate_receive_count m = Raise e -> calls m = []) /\
  (forall n v,
     approximate_receive_count m = Ok n ->
     Json.lookup "error_type" kvs = None ->
     Json.lookup "original_message" kvs = Some v ->
     (forall o, v <> JObj o) ->
     calls m = []) /\
  result_of (loop_body m tt) = Ok tt.
Proof.
  intros Hb Ht Htr.
  assert (Hget : Json.get (JObj kvs) "task_id" JNull = Ok tid).
  { unfold Json.get. now rewrite Ht. }
  split; [|split].
  - intros e He. apply (calls_raised m e).
    unfold try_block, bind, lift. rewrite Hb, Hget, Htr. cbn [negb]. now rewrite He.
  - intros n v Hn Hno Hom Hv.
    assert (Hraise : get_error_type (JObj kvs) m = Raise AttributeError).
    { unfold get_error_type. rewrite Hno. unfold Json.get at 1. rewrite Hom.
      destruct v; try reflexivity. exfalso. exact (Hv _ eq_refl). }
    apply (calls_raised m AttributeError).
    unfold try_block, bind, lift. rewrite Hb, Hget, Htr. cbn [negb].
    now rewrite Hn, Hraise.
  - exact (proj1 (loop_body_catches m)).
Qed.

Lemma unclassifiable_message_is_left_alone_witness :
  calls (Examples.dlq_message "rh9" Examples.wrapped_body "1") = [].
Proof.
  assert (Hv : forall o, JStr "{broken" <> JObj o) by discriminate.
  exact (proj1 (proj2 (unclassifiable_message_is_left_alone
                         (Examples.dlq_message "rh9" Examples.wrapped_body "1")
                         [("task_id", JStr "task-9"); ("original_message", JStr "{broken")]
                         (JStr "task-9") eq_refl eq_refl eq_refl))
           1 (JStr "{broken") eq_refl eq_refl eq_refl Hv).
Defined.

(** X14. The handler keeps to its queues and does at most one thing of
    each kind per message. Every deletion of a batch is made on the
    dead-letter queue with the receipt handle of one of its messages,
    every message it sends goes to the main queue, and for one message
    there is at most one status write, at most one deletion, and never
    both a requeue and a notification. *)
Theorem handler_keeps_to_its_queues (messages : list message) :
  (forall q rh, In (DeleteMessage q rh) (trace_of (lambda_handler messages tt)) ->
     q = DLQ_URL /\ exists m, In m messages /\ rh = ReceiptHandle m) /\
  (forall q b, In (SendMessage q b) (trace_of (lambda_handler messages tt)) ->
     q = MAIN_QUEUE_URL) /\
  (forall m,
     (count_calls is_status_write (calls m) <= 1)%nat /\
     (count_calls is_delete (calls m) <= 1)%nat /\
     (count_calls is_requeue (calls m) + count_calls is_notification (calls m) <= 1)%nat).
Proof.
  destruct (lambda_handler_trace messages) as [Ht _].
  split; [|split].
  - intros q rh Hin. rewrite Ht in Hin. apply in_flat_map in Hin.
    destruct Hin as (m & Hm & Hin).
    assert (Hq : q = DLQ_URL /\ rh = ReceiptHandle m).
    { destruct (calls_shape m); simpl in Hin;
        repeat (destruct Hin as [Hin|Hin]; [try discriminate; injection Hin as <- <-; now split|]);
        destruct Hin. }
    destruct Hq as [-> ->]. split; [reflexivity|]. now exists m.
  - intros q b Hin. rewrite Ht in Hin. apply in_flat_map in Hin.
    destruct Hin as (m & Hm & Hin).
    destruct (calls_shape m); simpl in Hin;
      repeat (destruct Hin as [Hin|Hin]; [try discriminate; now injection Hin as <- _|]);
      destruct Hin.
  - intros m. unfold count_calls.
    destruct (calls_shape m); simpl; repeat split; lia.
Qed.

(** X15. A retry-eligible message whose [retries] value is not a number is
    lost to the retry: the status is written and the message is deleted,
    but nothing is sent to the main queue and no notification is
    published. *)
Theorem unnumbered_retries_are_dropped (m : message) kvs tid n et r e :
  Body m = Ok (JObj kvs) ->
  Json.get (JObj kvs) "task_id" JNull = Ok tid ->
  Json.truthy tid = true ->
  approximate_receive_count m = Ok n ->
  get_error_type (JObj kvs) m = Ok et ->
  retry_eligible et n ->
  Json.lookup "retries" kvs = Some r ->
  Json.add_one r = Raise e ->
  calls m = [UpdateItem tid et n; DeleteMessage DLQ_URL (ReceiptHandle m)].
Proof.
  intros Hb Ht Htr Hn He Hel Hr Hadd.
  rewrite (calls_decided m (JObj kvs) tid n et Hb Ht Htr Hn He).
  unfold action_calls. apply retry_eligible_decision in Hel. rewrite Hel.
  assert (Hbump : bump_retries (JObj kvs) = Raise e).
  { unfold bump_retries. now rewrite Hr, Hadd. }
  now rewrite (requeue_message_gives_up _ _ _ Hbump).
Qed.

Lemma unnumbered_retries_are_dropped_witness :
  calls (Examples.dlq_message "rh5" Examples.text_retries_body "1")
  = [UpdateItem (JStr "task-5") (JStr "TIMEOUT_ERROR") 1; DeleteMessage DLQ_URL "rh5"].
Proof.
  assert (Hel : retry_eligible (JStr "TIMEOUT_ERROR") 1).
  { split; [exact timeout_is_retriable|lia]. }
  exact (unnumbered_retries_are_dropped
           (Examples.dlq_message "rh5" Examples.text_retries_body "1")
           [("task_id", JStr "task-5"); ("error_type", JStr "TIMEOUT_ERROR");
            ("retries", JStr "2")]
           (JStr "task-5") 1 (JStr "TIMEOUT_ERROR") (JStr "2") TypeError
           eq_refl eq_refl eq_refl eq_refl eq_refl Hel eq_refl eq_refl).
Defined.

Lemma assign_assign k v1 v2 kvs :
  Json.assign k v2 (Json.assign k v1 kvs) = Json.assign k v2 kvs.
Proof.
  induction kvs as [|[k' v'] rest IH]; simpl.
  - now rewrite String.eqb_refl.
  - destruct (String.eqb k' k) eqn:E; simpl.
    + now rewrite String.eqb_refl.
    + now rewrite E, IH.
Qed.

Lemma assign_same k v kvs :
  Json.lookup k kvs = Some v -> Json.assign k v kvs = kvs.
Proof.
  induction kvs as [|[k' v'] rest IH]; simpl; [discriminate|].
  destruct (String.eqb k' k) eqn:E.
  - apply String.eqb_eq in E. now intros [= ->]; subst.
  - intros H. now rewrite (IH H).
Qed.

(** X16. The [retries] counter counts the requeues. A payload that is
    requeued [n] times ends with [retries] raised by [n], starting from 0
    when the key was absent, and with every other key as it was. *)
Theorem retries_count_the_requeues (kvs : list (string * json)) (n : nat) :
  (Json.lookup "retries" kvs = None ->
     bump_many (S n) (JObj kvs)
     = Ok (JObj (Json.assign "retries" (JInt (Z.of_nat (S n))) kvs))) /\
  (forall k, Json.lookup "retries" kvs = Some (JInt k) ->
     bump_many n (JObj kvs)
     = Ok (JObj (Json.assign "retries" (JInt (k + Z.of_nat n)) kvs))).
Proof.
  assert (Hstep : forall v,
            bump_retries (JObj (Json.assign "retries" (JInt v) kvs))
            = Ok (JObj (Json.assign "retries" (JInt (v + 1)) kvs))).
  { intros v. unfold bump_retries. rewrite lookup_assign_eq. simpl.
    now rewrite assign_assign. }
  split.
  - intros Hno. induction n as [|n IH].
    + simpl. unfold bump_retries. now rewrite Hno.
    + change (bump_many (S (S n)) (JObj kvs))
        with (match bump_many (S n) (JObj kvs) with
              | Ok m => bump_retries m | Raise e => Raise e end).
      rewrite IH, Hstep. do 4 f_equal. lia.
  - intros k Hk. induction n as [|n IH].
    + simpl. rewrite Z.add_0_r. now rewrite (assign_same _ _ _ Hk).
    + change (bump_many (S n) (JObj kvs))
        with (match bump_many n (JObj kvs) with
              | Ok m => bump_retries m | Raise e => Raise e end).
      rewrite IH, Hstep. do 4 f_equal. lia.
Qed.

Lemma retries_count_the_requeues_witness :
  bump_many 3 Examples.timeout_body
  = Ok (JObj [("task_id", JStr "task-42"); ("action", JStr "compress");
              ("error_type", JStr "TIMEOUT_ERROR"); ("retries", JInt 3)]).
Proof.
  exact (proj1 (retries_count_the_requeues
                  [("task_id", JStr "task-42"); ("action", JStr "compress");
                   ("error_type", JStr "TIMEOUT_ERROR")] 2) eq_refl).
Defined.

End ReprocessorMore.

(** ** The status store and the object store *)

Module StoreMore.
Import PyStr PyStrFacts PyStrMore FormatDetect StatusWriter AppSpec.

Lemma nonempty_default (o : option string) :
  nonempty o = true -> default "" o <> "".
Proof. destruct o as [[|c s]|]; simpl; intros H; congruence. Qed.

(** X17. Reading follows writing. With the same [db_type] option and the
    same environment, whenever [update_status] addresses a database at
    all, [get_task_status] reads one of the databases it addressed. With
    a [db_type] that is none of [dynamodb], [firestore] and [both],
    [update_status] addresses no database and still returns [True]. *)
Theorem status_is_read_where_it_was_written (w : world) (config_db_type : option string) :
  let u := update_db_type w config_db_type in
  let g := get_db_type w config_db_type in
  ((writes_dynamodb u || writes_firestore u)%bool = true ->
     ((reads_dynamodb g && writes_dynamodb u) || (reads_firestore g && writes_firestore u))%bool
     = true) /\
  (nonempty config_db_type = false ->
     (writes_dynamodb u || writes_firestore u)%bool = true) /\
  (forall dynamodb_result firestore_result,
     (writes_dynamodb u || writes_firestore u)%bool = false ->
     update_status_result u dynamodb_result firestore_result = true).
Proof.
  intros u g. subst u g. unfold update_db_type, get_db_type.
  destruct (nonempty config_db_type) eqn:Hc.
  - split; [|split; [discriminate|]].
    + unfold writes_dynamodb, writes_firestore, reads_dynamodb, reads_firestore.
      destruct (String.eqb (default "" config_db_type) "dynamodb") eqn:E1; [reflexivity|].
      simpl. intros H. destruct (String.eqb _ "both"); [apply orb_true_r|].
      now rewrite orb_false_r in *.
    + intros d f H. unfold update_status_result.
      apply orb_false_iff in H. destruct H as [-> ->]. reflexivity.
  - destruct (in_environ w "AWS_REGION"), (in_environ w "GOOGLE_APPLICATION_CREDENTIALS");
      repeat split; try reflexivity; intros; discriminate.
Qed.

Lemma status_is_read_where_it_was_written_witness :
  update_status_result (update_db_type (Examples.sunny ∅) (Some "mysql")) false false = true.
Proof.
  exact (proj2 (proj2 (status_is_read_where_it_was_written (Examples.sunny ∅) (Some "mysql")))
           false false eq_refl).
Defined.

(** X18. [download_file] never raises. It succeeds only for an [s3://]
    or [gs://] URI, after exactly one call of the store, and then the
    destination holds the object; for [None] or any other URI it returns
    [False] without calling the store or touching the disk, and so it
    does for a URI without a key. *)
Theorem download_file_outcome (w : world) uri dest (fs : disk) :
  exists b fs' t,
    StorageIO.download_file w uri dest fs = (Ok b, fs', t) /\
    (b = true ->
       exists u, uri = Some u /\
         (startswith u "s3://" || startswith u "gs://")%bool = true /\
         fs' = <[dest := Object u]> fs /\ t = [Download u dest]) /\
    ((forall u, uri = Some u ->
        (startswith u "s3://" || startswith u "gs://")%bool = false) ->
     b = false /\ fs' = fs /\ t = []) /\
    (forall u e, uri = Some u -> StorageIO.bucket_and_key u = Raise e ->
     b = false /\ fs' = fs /\ t = []).
Proof.
  unfold StorageIO.download_file. run_eff.
  destruct (String.eqb (dirname dest) ""); run_eff.
  { eexists _, _, _. split; [reflexivity|]. repeat split; discriminate. }
  destruct uri as [u|]; run_eff.
  2:{ eexists _, _, _. split; [reflexivity|]. repeat split; discriminate. }
  destruct (startswith u "s3://" || startswith u "gs://")%bool eqn:Hs; run_eff.
  2:{ eexists _, _, _. split; [reflexivity|]. repeat split; discriminate. }
  assert (Hno : (forall u0, Some u = Some u0 ->
                   (startswith u0 "s3://" || startswith u0 "gs://")%bool = false) -> False).
  { intros H. specialize (H u eq_refl). congruence. }
  destruct (StorageIO.bucket_and_key u) as [names|e0] eqn:Hk; run_eff.
  2:{ eexists _, _, _. split; [reflexivity|]. repeat split; discriminate. }
  assert (Hkey : forall u0 e, Some u = Some u0 ->
                   StorageIO.bucket_and_key u0 = Raise e -> False).
  { intros u0 e [= <-] H. congruence. }
  destruct (object_readable w u); run_eff.
  - destruct (writable w dest); run_eff.
    + eexists _, _, _. split; [reflexivity|]. split; [|split].
      * intros _. exists u. repeat split. exact Hs.
      * intros H. destruct (Hno H).
      * intros u0 e H1 H2. destruct (Hkey u0 e H1 H2).
    + eexists _, _, _. split; [reflexivity|]. split; [discriminate|]. split.
      * intros H. destruct (Hno H).
      * intros u0 e H1 H2. destruct (Hkey u0 e H1 H2).
  - eexists _, _, _. split; [reflexivity|]. split; [discriminate|]. split.
    + intros H. destruct (Hno H).
    + intros u0 e H1 H2. destruct (Hkey u0 e H1 H2).
Qed.

(** X19. [upload_file] never changes the disk. A missing local file
    gives [False] whatever the destination; with an existing file and no
    destination at all ([None]) the call raises [AttributeError]; an
    [s3://] or [gs://] destination that names a bucket and a key causes
    exactly one call of the store, whose outcome is returned; and a
    destination of another scheme, or without a key, gives [False]
    without any call of the store. *)
Theorem upload_file_outcome (w : world) source destination (fs : disk) :
  state_of (StorageIO.upload_file w source destination fs) = fs /\
  (path_exists fs source = false ->
     StorageIO.upload_file w source destination fs = (Ok false, fs, [])) /\
  (path_exists fs source = true -> destination = None ->
     StorageIO.upload_file w source destination fs = (Raise AttributeError, fs, [])) /\
  (forall u, path_exists fs source = true -> destination = Some u ->
     StorageIO.upload_file w source destination fs
     = if (startswith u "s3://" || startswith u "gs://")%bool
       then match StorageIO.bucket_and_key u with
            | Ok _ => (Ok (object_writable w u), fs, [Upload source u])
            | Raise _ => (Ok false, fs, [])
            end
       else (Ok false, fs, [])).
Proof.
  unfold StorageIO.upload_file. run_eff.
  destruct (path_exists fs source); run_eff.
  - split; [|split; [discriminate|split]].
    + destruct destination as [u|]; run_eff; [|reflexivity].
      destruct (startswith u "s3://" || startswith u "gs://")%bool; [|reflexivity].
      destruct (StorageIO.bucket_and_key u); reflexivity.
    + intros _ ->. reflexivity.
    + intros u _ ->. run_eff.
      destruct (startswith u "s3://" || startswith u "gs://")%bool; [|reflexivity].
      destruct (StorageIO.bucket_and_key u); reflexivity.
  - split; [reflexivity|]. split; [reflexivity|]. split; discriminate.
Qed.

Lemma split_once_join (b k : string) :
  has_char "/" b = false -> StorageIO.split_once (b ++ String "/" k) = Some (b, k).
Proof.
  induction b as [|c b IH]; simpl; intros H; [reflexivity|].
  apply orb_false_iff in H. destruct H as [Hc Hb].
  now rewrite Hc, (IH Hb).
Qed.

Lemma split_once_inv (s b k : string) :
  StorageIO.split_once s = Some (b, k) ->
  s = b ++ String "/" k /\ has_char "/" b = false.
Proof.
  revert b. induction s as [|c s IH]; simpl; intros b H; [discriminate|].
  destruct (Ascii.eqb c "/") eqn:Hc.
  - apply Ascii.eqb_eq in Hc. injection H as <- <-. subst c. now split.
  - destruct (StorageIO.split_once s) as [[a k']|] eqn:Hs; [|discriminate].
    injection H as <- <-. destruct (IH a eq_refl) as [-> Ha].
    split; [reflexivity|]. simpl. now rewrite Hc, Ha.
Qed.

Lemma split_once_none (s : string) :
  has_char "/" s = false -> StorageIO.split_once s = None.
Proof.
  induction s as [|c s IH]; simpl; intros H; [reflexivity|].
  apply orb_false_iff in H. destruct H as [Hc Hs].
  now rewrite Hc, (IH Hs).
Qed.

(** X20. How the transfer functions read a URI. What follows the five
    characters of the scheme is cut at its first slash: a URI
    [s3://<bucket>/<key>] gives the bucket and the key back, whatever
    slashes the key contains; the two names always rebuild the URI; and a
    URI without a slash after the scheme (a bucket and no key) raises
    [ValueError], which the caller turns into [False]. *)
Theorem uri_splits_into_bucket_and_key (uri : string) :
  (forall scheme b k,
     String.length scheme = 5%nat -> has_char "/" b = false ->
     uri = scheme ++ b ++ String "/" k ->
     StorageIO.bucket_and_key uri = Ok (b, k)) /\
  (forall b k,
     StorageIO.bucket_and_key uri = Ok (b, k) ->
     uri = take 5 uri ++ b ++ String "/" k /\ has_char "/" b = false) /\
  (has_char "/" (drop 5 uri) = false ->
   StorageIO.bucket_and_key uri = Raise ValueError).
Proof.
  unfold StorageIO.bucket_and_key. split; [|split].
  - intros scheme b k Hlen Hb ->.
    rewrite <- Hlen, (drop_app_exact scheme).
    now rewrite (split_once_join b k Hb).
  - intros b k H.
    destruct (StorageIO.split_once (drop 5 uri)) as [[b' k']|] eqn:Hs; [|discriminate].
    injection H as -> ->.
    destruct (split_once_inv _ _ _ Hs) as [Hd Hb].
    split; [|exact Hb]. rewrite <- Hd. symmetry. apply take_drop.
  - intros H. now rewrite (split_once_none _ H).
Qed.

Lemma uri_splits_into_bucket_and_key_witness :
  StorageIO.bucket_and_key "s3://out/runs/output_t8" = Ok ("out", "runs/output_t8").
Proof.
  exact (proj1 (uri_splits_into_bucket_and_key "s3://out/runs/output_t8")
           "s3://" "out" "runs/output_t8" eq_refl eq_refl eq_refl).
Defined.

End StoreMore.

(** ** The task executor, end to end *)

Module AppMore.
Import PyStr PyStrFacts PyStrMore FormatDetect App AppSpec.
#[local] Arguments String.append !_ _ / : simpl nomatch.

Lemma download_file_cases (w : world) uri dest (fs : disk) :
  (exists u names, uri = Some u /\
     (startswith u "s3://" || startswith u "gs://")%bool = true /\
     StorageIO.bucket_and_key u = Ok names /\
     object_readable w u = true /\ writable w dest = true /\
     StorageIO.download_file w uri dest fs
     = (Ok true, <[dest := Object u]> fs, [Download u dest])) \/
  StorageIO.download_file w uri dest fs = (Ok false, fs, []) \/
  (exists u, uri = Some u /\
     StorageIO.download_file w uri dest fs = (Ok false, fs, [Download u dest])).
Proof.
  unfold StorageIO.download_file. run_eff.
  destruct (String.eqb (dirname dest) ""); [now right; left|].
  destruct uri as [u|]; [|now right; left].
  destruct (startswith u "s3://" || startswith u "gs://")%bool eqn:Hs; [|now right; left].
  destruct (StorageIO.bucket_and_key u) as [names|e] eqn:Hk; [|now right; left].
  destruct (object_readable w u) eqn:Hr; [|right; right; now exists u].
  destruct (writable w dest) eqn:Hw; [|right; right; now exists u].
  left. exists u, names. repeat split; assumption.
Qed.

Lemma upload_file_cases (w : world) source destination (fs : disk) :
  StorageIO.upload_file w source destination fs = (Ok false, fs, []) \/
  (path_exists fs source = true /\ destination = None /\
   StorageIO.upload_file w source destination fs = (Raise AttributeError, fs, [])) \/
  (exists u names, path_exists fs source = true /\ destination = Some u /\
     (startswith u "s3://" || startswith u "gs://")%bool = true /\
     StorageIO.bucket_and_key u = Ok names /\
     StorageIO.upload_file w source destination fs
     = (Ok (object_writable w u), fs, [Upload source u])).
Proof.
  unfold StorageIO.upload_file. run_eff.
  destruct (path_exists fs source); [|now left].
  destruct destination as [u|]; [|right; left; now repeat split].
  destruct (startswith u "s3://" || startswith u "gs://")%bool eqn:Hs; [|now left].
  destruct (StorageIO.bucket_and_key u) as [names|e] eqn:Hk; [|now left].
  right; right. exists u, names. now repeat split.
Qed.

Lemma convert_h265_cases (w : world) input output ff p (fs : disk) :
  ConvertH265.convert_h265 w input output ff p fs = (Ok false, fs, []) \/
  exists c, fs !! input = Some c /\ ffmpeg_ok w input = true /\
    writable w output = true /\
    (type ff = Video \/ type ff = Rosbag \/ type ff = Mcap) /\
    ConvertH265.convert_h265 w input output ff p fs
    = (Ok true, <[output := Encoded c]> fs, []).
Proof.
  unfold ConvertH265.convert_h265. run_eff.
  destruct (path_exists fs input) eqn:Hex; [|now left].
  unfold path_exists in Hex. destruct (fs !! input) as [c|] eqn:Hc; [|discriminate].
  destruct (type ff) eqn:Ht; try (now left);
    (destruct (ffmpeg_ok w input) eqn:Hf; [|now left];
     run_eff; rewrite Hc; run_eff;
     destruct (writable w output) eqn:Hw; [|now left];
     right; exists c; repeat split; auto).
Qed.

Lemma compress_file_cases (w : world) input output p (fs : disk) :
  (exists fs', CompressZip.compress_file w input output p fs = (Ok false, fs', [])) \/
  exists c, CompressZip.compress_file w input output p fs
            = (Ok true, <[output := c]> fs, []).
Proof.
  destruct (fs !! input) as [c|] eqn:Hc.
  - rewrite (CompressMore.compress_file_run w input output p fs c Hc).
    destruct (writable w output); [|left; eauto].
    destruct (String.eqb _ ".bag"); [right; eauto|].
    destruct (CompressZip.level_accepted _); [right; eauto|left; eauto].
  - left. unfold CompressZip.compress_file. run_eff.
    unfold path_exists. rewrite Hc. eauto.
Qed.

Ltac use_ending Hid c :=
  generalize c; unfold status_event; rewrite ?Hid; simpl;
  let E := fresh "E" in intros E; exact E.

Ltac close_ending Hid :=
  match goal with
  | |- ending ?tid _ _ =>
      first
        [ use_ending Hid (ended_success tid)
        | use_ending Hid (ended_download_failed tid)
        | use_ending Hid (ended_processing_failed tid)
        | use_ending Hid (ended_unknown_action tid)
        | use_ending Hid (ended_upload_failed tid)
        | use_ending Hid (ended_compression_raised tid)
        | use_ending Hid (ended_upload_raised tid)
        | use_ending Hid (ended_unparsable_source tid) ]
  end.

(** A finished run that neither succeeded nor raised. *)
Ltac failed_run Hid :=
  eexists _, _, _; split; [reflexivity|];
  split; [simpl; close_ending Hid|];
  split; [intros H; discriminate H|intros e H; discriminate H].

Ltac raised_run Hid :=
  eexists _, _, _; split; [reflexivity|];
  split; [simpl; close_ending Hid|];
  split; [intros H; discriminate H|];
  let e := fresh "e" in let H := fresh "H" in
  intros e H; injection H as <-;
  first [left; split; [reflexivity|first [reflexivity|assumption]]
        |right; left; repeat split; first [reflexivity|assumption]
        |right; right; repeat split; first [reflexivity|assumption]].

Ltac success_run Hid s u T :=
  eexists _, _, _; split; [reflexivity|];
  split; [simpl; close_ending Hid|];
  split; [intros _; exists s, u, T; repeat split; try assumption; simpl; auto
         |intros e H; discriminate H].

(** The part of a run that follows a successful transform [T]. *)
Ltac upload_stage Hid s T :=
  match goal with
  | |- context [StorageIO.upload_file ?w ?lo ?out ?fs2] =>
      let u := fresh "u" in
      let names := fresh "names" in
      let Hex := fresh "Hex" in
      let Hsu := fresh "Hsu" in
      let Hk := fresh "Hk" in
      let How := fresh "How" in
      destruct (upload_file_cases w lo out fs2)
        as [-> | [(Hex & -> & ->) | (u & names & Hex & -> & Hsu & Hk & ->)]];
      run_eff;
      [ failed_run Hid
      | raised_run Hid
      | destruct (object_writable w u) eqn:How; run_eff;
        [success_run Hid s u T|failed_run Hid] ]
  end.

Lemma update_status_run (task_id status : string) (error_type : option string) (fs : disk) :
  nonempty error_type = true \/ error_type = None ->
  StatusWriter.update_status task_id status error_type fs
  = (Ok (negb (String.eqb task_id "")), fs, status_event task_id status error_type).
Proof.
  intros H. unfold StatusWriter.update_status, status_event. run_eff.
  destruct (String.eqb task_id ""); [reflexivity|].
  destruct H as [-> | ->]; reflexivity.
Qed.

Lemma status_writes_event (task_id status : string) (error_type : option string) :
  status_writes (status_event task_id status error_type)
  = status_event task_id status error_type.
Proof. unfold status_event. now destruct (String.eqb task_id ""). Qed.

(** Every run of [process_task], by its result: how it ended, what a
    successful run did, and what a raising run met. *)
Lemma process_task_runs (w : world) (t : task) (provider : string) (fs : disk) :
  let tid := default "unknown" (task_id t) in
  let src := fallback_source_path w provider tid (source_path t) in
  let out := fallback_output_path w provider tid (action t) src (output_path t) in
  let li := local_input_path tid src in
  let lo := local_output_path tid in
  exists r fs' tr,
    process_task w t provider fs = (r, fs', tr) /\
    ending tid r (status_writes tr) /\
    (r = Ok true ->
       exists s u T,
         src = Some s /\ out = Ok (Some u) /\
         (startswith u "s3://" || startswith u "gs://")%bool = true /\
         object_writable w u = true /\
         In T [Convert li lo; Compress li lo; Rename li lo] /\
         tr = ([Download s li; T; Upload lo u] ++ status_event tid "SUCCESS" None)%list /\
         path_exists fs' lo = true) /\
    (forall e, r = Raise e ->
       (e = Exception "Compression failed" /\ action_is (action t) "compress" = true) \/
       (e = AttributeError /\ out = Ok None /\ path_exists fs' lo = true) \/
       (e = ValueError /\ out = Raise ValueError /\
        action_is (action t) "convert_h265" = true /\
        urlparse_path w (default "" src) = None /\ fs' = fs /\ tr = [])).
Proof.
  intros tid src out li lo. subst tid src out li lo.
  unfold process_task. cbv zeta.
  set (tid := default "unknown" (task_id t)).
  set (src := fallback_source_path w provider tid (source_path t)).
  assert (Hfr := fallback_output_path_raises w provider tid (action t) src (output_path t)).
  set (out := fallback_output_path w provider tid (action t) src (output_path t)) in *.
  set (li := local_input_path tid src).
  set (lo := local_output_path tid).
  clearbody out li lo.
  destruct out as [out|e0].
  2:{ destruct (Hfr e0 eq_refl) as (-> & Hc & _ & _ & Hu).
      run_eff. eexists _, _, _. split; [reflexivity|].
      split; [apply ended_unparsable_source|].
      split; [discriminate|].
      intros e H. injection H as <-. right; right. now repeat split. }
  clear Hfr. clearbody src. clearbody tid.
  unfold StatusWriter.update_status, status_event.
  destruct (String.eqb tid "") eqn:Hid;
  (run_eff;
   destruct (download_file_cases w src li fs)
     as [(s & names & Hs & Hsch & _ & _ & _ & ->) | [-> | (s & Hs & ->)]];
   run_eff; [|failed_run Hid|failed_run Hid]).
  all: set (fs1 := <[li := Object s]> fs).
  all: destruct (action_is (action t) "convert_h265") eqn:Hconv;
    [ destruct (convert_h265_cases w li lo (detect_format w fs1 li) (task_params t) fs1)
        as [-> | (c & _ & _ & _ & _ & ->)]; run_eff;
      [failed_run Hid|upload_stage Hid s (Convert li lo)]
    | destruct (action_is (action t) "compress") eqn:Hcomp;
      [ destruct (compress_file_cases w li lo (task_params t) fs1)
          as [(fs2 & ->) | (c & ->)]; run_eff;
        [raised_run Hid|upload_stage Hid s (Compress li lo)]
      | destruct (action_is (action t) "rename") eqn:Hren;
        [ destruct (RenameMore.rename_file_cases w li lo (task_params t) fs1)
            as ([|] & fs2 & ->); run_eff;
          [upload_stage Hid s (Rename li lo)|failed_run Hid]
        | failed_run Hid ] ] ].
Qed.

Lemma local_paths_differ (tid : string) (src : option string) :
  local_input_path tid src <> local_output_path tid.
Proof.
  unfold local_input_path, local_output_path, join, work_dir. simpl.
  intros H. discriminate H.
Qed.

Lemma ending_failed (tid : string) (sw : list step) :
  ending tid (Ok false) sw ->
  forall e, In e sw -> exists error_type, e = StatusWrite tid "FAILED" (Some error_type).
Proof.
  intros H. inversion H; subst; unfold status_event;
    destruct (String.eqb tid ""); simpl; intros e Hin;
    repeat (destruct Hin as [<-|Hin]; [eexists; reflexivity|]);
    destruct Hin.
Qed.

Lemma ending_raised (tid : string) (x : exn) (sw : list step) :
  ending tid (Raise x) sw -> sw = [].
Proof. intros H. now inversion H. Qed.



(** X22. What the HTTP handlers answer for a parsed task. The [try]
    block of [handle_sns] and [handle_pubsub] never raises and answers
    200 or 500. It answers 200 only after the whole pipeline: the source
    was downloaded, one transform was run, the staged output was accepted
    by the store at the resolved [s3://] or [gs://] destination, and
    [SUCCESS] was the only status written. With 500 every status written
    is a [FAILED] one. *)
Theorem delivery_is_acknowledged_only_after_upload
    (w : world) (t : task) (provider : string) (fs : disk) :
  let tid := default "unknown" (task_id t) in
  let src := fallback_source_path w provider tid (source_path t) in
  let out := fallback_output_path w provider tid (action t) src (output_path t) in
  let li := local_input_path tid src in
  let lo := local_output_path tid in
  exists code fs' tr,
    handle_delivery w t provider fs = (Ok code, fs', tr) /\
    (code = 200 \/ code = 500)%Z /\
    (code = 200%Z ->
       exists s u T,
         src = Some s /\ out = Ok (Some u) /\
         (startswith u "s3://" || startswith u "gs://")%bool = true /\
         object_writable w u = true /\
         In T [Convert li lo; Compress li lo; Rename li lo] /\
         tr = ([Download s li; T; Upload lo u] ++ status_event tid "SUCCESS" None)%list) /\
    (code = 500%Z ->
       forall e, In e (status_writes tr) ->
         exists error_type, e = StatusWrite tid "FAILED" (Some error_type)).
Proof.
  intros tid src out li lo.
  destruct (process_task_runs w t provider fs) as (r & fs' & tr & E & Hend & Hok & _).
  fold tid in Hend, Hok. fold src in Hok. fold out in Hok. fold li lo in Hok.
  unfold handle_delivery. run_eff. rewrite E.
  destruct r as [[|]|e].
  - eexists _, _, _. split; [reflexivity|]. split; [now left|]. split; [|discriminate].
    intros _. destruct (Hok eq_refl) as (s & u & T & H1 & H2 & H3 & H4 & H5 & H6 & _).
    exists s, u, T. rewrite !app_nil_r. now repeat split.
  - eexists _, _, _. split; [reflexivity|]. split; [now right|]. split; [discriminate|].
    intros _ e. rewrite !app_nil_r. exact (ending_failed _ _ Hend e).
  - eexists _, _, _. split; [reflexivity|]. split; [now right|]. split; [discriminate|].
    intros _ e'. rewrite !app_nil_r, (ending_raised _ _ _ Hend).
    intros Hin. destruct Hin.
Qed.

Lemma delivery_is_acknowledged_only_after_upload_witness :
  exists code fs' tr,
    handle_sns (Examples.sunny Examples.aws_env) Examples.compress_bag ∅ = (Ok code, fs', tr) /\
    code = 200%Z.
Proof.
  destruct (delivery_is_acknowledged_only_after_upload
              (Examples.sunny Examples.aws_env) Examples.compress_bag "aws" ∅)
    as (code & fs' & tr & E & _ & _ & _).
  exists code, fs', tr. split; [exact E|].
  vm_compute in E. now injection E as <- _ _.
Defined.





(** X25. A conversion of anything but a video, a ROS bag or an MCAP file
    is a processing failure. For a [convert_h265] task with a readable
    [s3://] or [gs://] source, when the staged input is detected as an
    image, an archive, an HDF5 file or an unknown format, [convert_h265]
    returns [False] without starting a tool: once the destination is
    resolved and the source, which names a bucket and a key, is
    downloaded, the run writes [FAILED] with [processing_failed], uploads
    nothing and leaves no output file. (A source that [urlparse] rejects
    ends the run before that, and a source without a key is a failed
    download.) *)
Theorem unconvertible_input_is_a_processing_failure
    (w : world) (t : task) (provider : string) (fs : disk) (s : string) :
  let tid := default "unknown" (task_id t) in
  let src := fallback_source_path w provider tid (source_path t) in
  let out := fallback_output_path w provider tid (action t) src (output_path t) in
  let li := local_input_path tid src in
  let lo := local_output_path tid in
  let staged := <[li := Object s]> fs in
  action t = Some "convert_h265" ->
  src = Some s ->
  (startswith s "s3://" || startswith s "gs://")%bool = true ->
  object_readable w s = true ->
  writable w li = true ->
  type (detect_format w staged li) <> Video ->
  type (detect_format w staged li) <> Rosbag ->
  type (detect_format w staged li) <> Mcap ->
  (forall o names, out = Ok o -> StorageIO.bucket_and_key s = Ok names ->
     process_task w t provider fs
     = (Ok false, staged,
        ([Download s li; Convert li lo] ++
         status_event tid "FAILED" (Some "processing_failed"))%list)) /\
  (forall o e, out = Ok o -> StorageIO.bucket_and_key s = Raise e ->
     process_task w t provider fs
     = (Ok false, fs, status_event tid "FAILED" (Some "download_failed"))) /\
  (forall e, out = Raise e -> process_task w t provider fs = (Raise e, fs, [])).
Proof.
  intros tid src out li lo staged Ha Hs Hsch Hr Hw H1 H2 H3.
  assert (Hdir : dirname li <> "") by apply dirname_local_input.
  subst tid src out li lo staged. unfold process_task. cbv zeta.
  set (tid := default "unknown" (task_id t)) in *.
  set (src := fallback_source_path w provider tid (source_path t)) in *.
  set (out := fallback_output_path w provider tid (action t) src (output_path t)) in *.
  set (li := local_input_path tid src) in *.
  set (lo := local_output_path tid) in *.
  clearbody li lo out. rewrite Hs, Ha.
  change (action_is (Some "convert_h265") "convert_h265") with true.
  unfold StatusWriter.update_status, status_event.
  split; [|split].
  - intros o names -> Hk. run_eff.
    rewrite (download_file_ok w s li fs names Hdir Hsch Hk Hr Hw). run_eff.
    destruct (convert_h265_cases w li lo (detect_format w (<[li := Object s]> fs) li)
                (task_params t) (<[li := Object s]> fs))
      as [-> | (c & _ & _ & _ & Hty & _)].
    + run_eff. destruct (String.eqb tid ""); reflexivity.
    + exfalso. destruct Hty as [H | [H | H]]; contradiction.
  - intros o e -> Hk. run_eff.
    assert (Hdl : StorageIO.download_file w (Some s) li fs = (Ok false, fs, [])).
    { unfold StorageIO.download_file. run_eff.
      destruct (String.eqb (dirname li) ""); [reflexivity|].
      now rewrite Hsch, Hk. }
    rewrite Hdl. run_eff. destruct (String.eqb tid ""); reflexivity.
  - intros e ->. reflexivity.
Qed.

Lemma unconvertible_input_is_a_processing_failure_witness :
  process_task (Examples.sunny Examples.aws_env)
    {| task_id := Some "t5"; action := Some "convert_h265";
       source_path := Some "s3://in/photo.png"; output_path := None;
       task_params := no_params |} "aws" ∅
  = (Ok false, {[ "/tmp/processing/input_t5.png" := Object "s3://in/photo.png" ]},
     [Download "s3://in/photo.png" "/tmp/processing/input_t5.png";
      Convert "/tmp/processing/input_t5.png" "/tmp/processing/output_t5";
      StatusWrite "t5" "FAILED" (Some "processing_failed")]).
Proof.
  assert (H1 : type (detect_format (Examples.sunny Examples.aws_env)
                       {[ "/tmp/processing/input_t5.png" := Object "s3://in/photo.png" ]}
                       "/tmp/processing/input_t5.png") <> Video) by discriminate.
  assert (H2 : type (detect_format (Examples.sunny Examples.aws_env)
                       {[ "/tmp/processing/input_t5.png" := Object "s3://in/photo.png" ]}
                       "/tmp/processing/input_t5.png") <> Rosbag) by discriminate.
  assert (H3 : type (detect_format (Examples.sunny Examples.aws_env)
                       {[ "/tmp/processing/input_t5.png" := Object "s3://in/photo.png" ]}
                       "/tmp/processing/input_t5.png") <> Mcap) by discriminate.
  exact (proj1 (unconvertible_input_is_a_processing_failure
                  (Examples.sunny Examples.aws_env)
                  {| task_id := Some "t5"; action := Some "convert_h265";
                     source_path := Some "s3://in/photo.png"; output_path := None;
                     task_params := no_params |} "aws" ∅ "s3://in/photo.png"
                  eq_refl eq_refl eq_refl eq_refl eq_refl H1 H2 H3)
           (Some "s3://out/photo_h265.mp4") ("in", "photo.png") eq_refl eq_refl).
Defined.

(** The staging name keeps a final extension [.b], for a task identifier
    without a slash. *)
Lemma staged_extension (tid b : string) :
  has_char "/" tid = false ->
  has_char "." b = false ->
  has_char "/" b = false ->
  splitext ("/tmp/processing/input_" ++ tid ++ String "." b)
  = ("/tmp/processing/input_" ++ tid, String "." b).
Proof.
  intros Hid Hdot Hsep.
  assert (Hbase : basename ("/tmp/processing/input_" ++ tid) = "input_" ++ tid).
  { unfold basename, rfind.
    change ("/tmp/processing/input_" ++ tid)
      with ("/tmp/processing" ++ String "/" ("input_" ++ tid)).
    rewrite (rfind_from_last "/" 0 "/tmp/processing" ("input_" ++ tid))
      by (simpl; exact Hid).
    reflexivity. }
  rewrite <- append_assoc.
  apply (splitext_final_extension ("/tmp/processing/input_" ++ tid) b);
    [exact Hdot|exact Hsep|].
  rewrite Hbase. reflexivity.
Qed.

(** X26. Staging keeps the extension of the source. When the source path
    has an extension and the task identifier has no slash, the staged
    input [/tmp/processing/input_<task_id><ext>] has that same extension,
    so that [detect_format] and [compress_file] see the extension of the
    source, lower-cased, on the staged file. *)
Theorem staging_keeps_the_source_extension (tid src : string) :
  has_char "/" tid = false ->
  snd (splitext src) <> "" ->
  local_input_path tid (Some src)
    = "/tmp/processing/input_" ++ tid ++ snd (splitext src) /\
  snd (splitext (local_input_path tid (Some src))) = snd (splitext src) /\
  (forall (w : world) (fs : disk),
     path_exists fs (local_input_path tid (Some src)) = true ->
     extension (detect_format w fs (local_input_path tid (Some src)))
     = lower (snd (splitext src))).
Proof.
  intros Hid Hext.
  assert (Hne : nonempty (Some src) = true).
  { destruct src; [|reflexivity]. now contradiction Hext. }
  assert (Hli : local_input_path tid (Some src)
                = "/tmp/processing/input_" ++ tid ++ snd (splitext src)).
  { unfold local_input_path. rewrite Hne. reflexivity. }
  destruct (splitext_extension_shape src) as [H0 | (b & Hb & Hdot & Hsep)];
    [contradiction|].
  assert (Hsnd : snd (splitext (local_input_path tid (Some src))) = snd (splitext src)).
  { rewrite Hli, Hb. now rewrite (staged_extension tid b Hid Hdot Hsep). }
  split; [exact Hli|split; [exact Hsnd|]].
  intros w fs Hex.
  now rewrite (FormatDetectSpec.detect_format_extension w fs _ Hex), Hsnd.
Qed.

Lemma staging_keeps_the_source_extension_witness :
  snd (splitext (local_input_path "t7" (Some "s3://in/run.v2/Scan.BAG"))) = ".BAG".
Proof.
  assert (Hext : snd (splitext "s3://in/run.v2/Scan.BAG") <> "") by discriminate.
  exact (proj1 (proj2 (staging_keeps_the_source_extension "t7" "s3://in/run.v2/Scan.BAG"
                         eq_refl Hext))).
Defined.

(** What [rename_file] does to a file holding [c]; [final] is the path
    it is to write. *)
Lemma rename_file_effect (w : world) input output p (fs : disk) c final :
  fs !! input = Some c ->
  final = (if negb (String.eqb (default "" (pattern p)) "")
           then join (dirname output)
                  (RenameFile.process_pattern w (default "" (pattern p)) input (metadata p)
                     (default "%Y%m%d_%H%M%S" (timestamp_format p)))
           else output) ->
  dirname final <> "" ->
  RenameFile.rename_file w input output p fs
  = (Ok (if String.eqb final input
         then negb (String.eqb (default "copy" (mode p)) "copy")
         else writable w final),
     (if String.eqb final input then fs
      else if writable w final
      then (if String.eqb (default "copy" (mode p)) "copy"
            then <[final := c]> fs
            else delete input (<[final := c]> fs))
      else fs),
     []).
Proof.
  intros Hc Hfinal Hdir.
  unfold RenameFile.rename_file. run_eff.
  rewrite (path_exists_lookup _ _ _ Hc). run_eff.
  change (if String.eqb (default "" (pattern p)) "" then false else true)
    with (negb (String.eqb (default "" (pattern p)) "")).
  rewrite <- Hfinal. rewrite (eqb_neq _ _ Hdir). run_eff.
  destruct (String.eqb (default "copy" (mode p)) "copy"); run_eff;
    destruct (String.eqb final input) eqn:Hsame; run_eff.
  - reflexivity.
  - apply String.eqb_neq in Hsame. rewrite Hc. run_eff.
    destruct (writable w final); run_eff; [|reflexivity].
    rewrite path_exists_insert. reflexivity.
  - apply String.eqb_eq in Hsame. rewrite Hsame.
    rewrite (path_exists_lookup _ _ _ Hc). reflexivity.
  - apply String.eqb_neq in Hsame. rewrite Hc. run_eff.
    destruct (writable w final); run_eff; [|reflexivity].
    assert (Hex : path_exists (delete input (<[final := c]> fs)) final = true).
    { unfold path_exists.
      rewrite lookup_delete_ne by congruence. now rewrite lookup_insert_eq. }
    rewrite Hex. reflexivity.
Qed.

(** With a task identifier that has no slash the staged output lies in
    the working directory itself. *)
Lemma local_output_in_work_dir (tid : string) :
  has_char "/" tid = false ->
  local_output_path tid = "/tmp/processing/output_" ++ tid /\
  dirname (local_output_path tid) = "/tmp/processing".
Proof.
  intros Htid.
  assert (E : local_output_path tid = "/tmp/processing/output_" ++ tid) by reflexivity.
  split; [exact E|]. rewrite E.
  change ("/tmp/processing/output_" ++ tid)
    with ("/tmp/processing" ++ String "/" ("output_" ++ tid)).
  unfold dirname, rfind.
  rewrite (rfind_from_last "/" 0 "/tmp/processing" ("output_" ++ tid) Htid).
  reflexivity.
Qed.

(** A plain file name put into the working directory. *)
Lemma join_work_dir (name : string) :
  has_char "/" name = false ->
  join "/tmp/processing" name = "/tmp/processing/" ++ name.
Proof.
  intros H. unfold join. now rewrite (startswith_slash_absent name H).
Qed.



(** X28. A [rename] task with a pattern does not succeed, unless the
    pattern gives the very name of the staged output. [rename_file]
    writes under the name the pattern gives, in the staging directory,
    while [process_task] uploads the staged output path itself. For a
    task identifier without a slash and a pattern that gives a plain file
    name other than that of the staged output, after a successful
    download and with no stale output file, the run returns [False]
    without any upload call. It fails with [upload_failed] when
    [rename_file] succeeded, the renamed file being left on the disk, and
    with [processing_failed] when [rename_file] failed: when the new name
    cannot be written, and in [copy] mode when the pattern gives the name
    of the staged input itself (as [{filename}] does), where
    [shutil.copy2] refuses to copy a file onto itself. *)
Theorem renamed_file_is_not_the_one_uploaded
    (w : world) (t : task) (provider : string) (fs : disk) (s pat : string)
    (names : string * string) :
  let tid := default "unknown" (task_id t) in
  let src := fallback_source_path w provider tid (source_path t) in
  let li := local_input_path tid src in
  let lo := local_output_path tid in
  let staged := <[li := Object s]> fs in
  let copying := String.eqb (default "copy" (mode (task_params t))) "copy" in
  let new_filename :=
    RenameFile.process_pattern w pat li (metadata (task_params t))
      (default "%Y%m%d_%H%M%S" (timestamp_format (task_params t))) in
  let final := join (dirname lo) new_filename in
  let ok := if String.eqb final li then negb copying else writable w final in
  let renamed :=
    if String.eqb final li then staged
    else if writable w final
    then (if copying then <[final := Object s]> staged
          else delete li (<[final := Object s]> staged))
    else staged in
  action t = Some "rename" ->
  pattern (task_params t) = Some pat ->
  pat <> "" ->
  has_char "/" tid = false ->
  plain_filename new_filename = true ->
  new_filename <> "output_" ++ tid ->
  src = Some s ->
  (startswith s "s3://" || startswith s "gs://")%bool = true ->
  StorageIO.bucket_and_key s = Ok names ->
  object_readable w s = true ->
  writable w li = true ->
  fs !! lo = None ->
  RenameFile.rename_file w li lo (task_params t) staged = (Ok ok, renamed, []) /\
  process_task w t provider fs
  = (Ok false, renamed,
     ([Download s li; Rename li lo] ++
      status_event tid "FAILED"
        (Some (if ok then "upload_failed" else "processing_failed")))%list).
Proof.
  intros tid src li lo staged copying new_filename final ok renamed
    Ha Hpat Hpne Htid Hplain Hname Hs Hsch Hk Hr Hwi Hnone.
  assert (Hne : lo <> li).
  { intros H. symmetry in H. exact (local_paths_differ tid src H). }
  assert (Hdli : dirname li <> "") by apply dirname_local_input.
  destruct (local_output_in_work_dir tid Htid) as [Elo Edir].
  fold lo in Elo, Edir.
  assert (Hslash : has_char "/" new_filename = false).
  { unfold plain_filename in Hplain.
    destruct (has_char "/" new_filename); [|reflexivity].
    now rewrite andb_false_r in Hplain. }
  assert (Efinal : final = "/tmp/processing/" ++ new_filename).
  { subst final. rewrite Edir. exact (join_work_dir new_filename Hslash). }
  assert (Hflo : final <> lo).
  { rewrite Efinal, Elo. intros H. apply Hname.
    change ("/tmp/processing/output_" ++ tid)
      with ("/tmp/processing/" ++ ("output_" ++ tid)) in H.
    simpl in H. now injection H. }
  assert (Hdir : dirname final <> "").
  { rewrite Efinal. apply dirname_absolute. }
  assert (Hfinal : final
    = (if negb (String.eqb (default "" (pattern (task_params t))) "")
       then join (dirname lo)
              (RenameFile.process_pattern w (default "" (pattern (task_params t))) li
                 (metadata (task_params t))
                 (default "%Y%m%d_%H%M%S" (timestamp_format (task_params t))))
       else lo)).
  { rewrite Hpat. simpl default. now rewrite (eqb_neq _ _ Hpne). }
  assert (Er := rename_file_effect w li lo (task_params t) staged (Object s) final
                  (lookup_insert_eq _ _ _) Hfinal Hdir).
  fold copying in Er. fold ok in Er. fold renamed in Er.
  assert (Hlo : renamed !! lo = None).
  { assert (Hst : staged !! lo = None).
    { subst staged. rewrite lookup_insert_ne by congruence. exact Hnone. }
    subst renamed. destruct (String.eqb final li); [exact Hst|].
    destruct (writable w final); [|exact Hst].
    destruct copying.
    - rewrite lookup_insert_ne by congruence. exact Hst.
    - rewrite lookup_delete_ne by congruence.
      rewrite lookup_insert_ne by congruence. exact Hst. }
  split; [exact Er|].
  destruct (fallback_output_path_resolves w provider tid (action t) src (output_path t))
    as (out & Hout); [now rewrite Ha|].
  unfold process_task. cbv zeta.
  fold tid. fold src. rewrite Hout. fold li. fold lo.
  clearbody renamed ok final li lo. clearbody src.
  rewrite Hs, Ha.
  change (action_is (Some "rename") "convert_h265") with false.
  change (action_is (Some "rename") "compress") with false.
  change (action_is (Some "rename") "rename") with true.
  unfold StatusWriter.update_status, status_event. run_eff.
  rewrite (download_file_ok w s li fs names Hdli Hsch Hk Hr Hwi). run_eff.
  fold staged. rewrite Er. run_eff.
  destruct ok; run_eff.
  - assert (Hup : StorageIO.upload_file w lo out renamed = (Ok false, renamed, [])).
    { unfold StorageIO.upload_file. run_eff. unfold path_exists. now rewrite Hlo. }
    rewrite Hup. run_eff. destruct (String.eqb tid ""); reflexivity.
  - destruct (String.eqb tid ""); reflexivity.
Qed.

Lemma renamed_file_is_not_the_one_uploaded_witness :
  process_task (Examples.sunny Examples.aws_env) Examples.rename_as_itself "aws" ∅
  = (Ok false, {[ "/tmp/processing/input_t9.txt" := Object "s3://in/a.txt" ]},
     [Download "s3://in/a.txt" "/tmp/processing/input_t9.txt";
      Rename "/tmp/processing/input_t9.txt" "/tmp/processing/output_t9";
      StatusWrite "t9" "FAILED" (Some "processing_failed")]).
Proof.
  assert (H1 : "{filename}" <> "") by discriminate.
  assert (H2 : "input_t9.txt" <> "output_t9") by discriminate.
  exact (proj2 (renamed_file_is_not_the_one_uploaded (Examples.sunny Examples.aws_env)
                  Examples.rename_as_itself "aws" ∅ "s3://in/a.txt" "{filename}"
                  ("in", "a.txt")
                  eq_refl eq_refl H1 eq_refl eq_refl H2 eq_refl eq_refl eq_refl eq_refl
                  eq_refl (lookup_empty _))).
Defined.

(** The other way such a run ends, on the example worker. *)
Example version_pattern_is_an_upload_failure :
  process_task (Examples.sunny Examples.aws_env) Examples.rename_as_version "aws" ∅
  = (Ok false,
     {[ "/tmp/processing/input_t9.txt" := Object "s3://in/a.txt";
        "/tmp/processing/input_t9_v2.txt" := Object "s3://in/a.txt" ]},
     [Download "s3://in/a.txt" "/tmp/processing/input_t9.txt";
      Rename "/tmp/processing/input_t9.txt" "/tmp/processing/output_t9";
      StatusWrite "t9" "FAILED" (Some "upload_failed")]).
Proof. reflexivity. Qed.

End AppMore.
